(** * Alari user backend: conversation store, chat turns and goal streaks

    A shallow embedding of [crud.py], [routes/chat.py],
    [routes/conversations.py] and [routes/goals.py] over the tables of
    [database_models.py].

    The SQLAlchemy session is modelled as a state-and-exception monad over a
    [World]: the committed database, the log of every snapshot that a
    [db.commit()] made visible, and the wall clock that
    [datetime.now(timezone.utc)] reads.  A Python exception is a [Raise]
    result; a FastAPI [HTTPException] is one of them. *)

From Stdlib Require Import String ZArith Arith List Bool Lia DecimalString QArith.
From Stdlib Require Import Sorted Permutation.
Import ListNotations.
Local Open Scope string_scope.
Local Open Scope Z_scope.

(** ** Tables ([database_models.py]) *)

(** Timestamps are clock readings (ticks since an epoch). *)
Definition datetime := nat.

Record User := mkUser {
  user_id : Z;
  user_email : string
}.

Record Conversation := mkConversation {
  conv_id : Z;
  conv_user_id : Z;
  conv_session_id : string;
  conv_title : option string;
  conv_created_at : datetime;
  conv_updated_at : datetime
}.

Record Message := mkMessage {
  msg_id : Z;
  msg_conversation_id : Z;
  msg_role : string;
  msg_content : string;
  msg_keywords : option (list string);
  msg_created_at : datetime
}.

Record Goal := mkGoal {
  g_id : Z;
  goal_user_id : Z;
  goal_title : string;
  goal_description : option string;
  goal_target_date : option datetime;
  goal_status : string;
  goal_streak_count : Z;
  goal_created_at : datetime;
  goal_updated_at : datetime
}.

Record GoalCheckIn := mkGoalCheckIn {
  ci_id : Z;
  checkin_goal_id : Z;
  checkin_check_in_date : datetime;
  checkin_progress_note : option string;
  checkin_completed : bool
}.

(** The committed rows, each table in insertion order, and the next value of
    each autoincrement primary key. *)
Record DB := mkDB {
  conversations : list Conversation;
  messages : list Message;
  goals : list Goal;
  goal_check_ins : list GoalCheckIn;
  conversations_seq : Z;
  messages_seq : Z;
  goals_seq : Z;
  goal_check_ins_seq : Z
}.

Definition empty_db : DB := mkDB [] [] [] [] 1 1 1 1.

Definition set_conversations (d : DB) (cs : list Conversation) : DB :=
  mkDB cs (messages d) (goals d) (goal_check_ins d)
       (conversations_seq d) (messages_seq d) (goals_seq d) (goal_check_ins_seq d).

Definition set_goals (d : DB) (gs : list Goal) : DB :=
  mkDB (conversations d) (messages d) gs (goal_check_ins d)
       (conversations_seq d) (messages_seq d) (goals_seq d) (goal_check_ins_seq d).

Definition set_goal_check_ins (d : DB) (cis : list GoalCheckIn) : DB :=
  mkDB (conversations d) (messages d) (goals d) cis
       (conversations_seq d) (messages_seq d) (goals_seq d) (goal_check_ins_seq d).

(** ** Exceptions and the session monad *)

Inductive Exn :=
| HTTPException (status_code : Z) (detail : string)
| TimeoutException (msg : string)     (* httpx.TimeoutException *)
| RequestError (msg : string)         (* any other httpx.RequestError *)
| AttributeError (msg : string)
| IntegrityError (msg : string)       (* a constraint refused at commit *)
| Exception (msg : string).           (* any other exception *)

Definition str_int (z : Z) : string := NilZero.string_of_int (Z.to_int z).

(** [str(e)]; an [HTTPException] prints as its status code and detail. *)
Definition str (e : Exn) : string :=
  match e with
  | HTTPException c d => str_int c ++ ": " ++ d
  | TimeoutException m | RequestError m | AttributeError m
  | IntegrityError m | Exception m => m
  end.

Inductive Result (A : Type) :=
| Ok (a : A)
| Raise (e : Exn).
Arguments Ok {A} a.
Arguments Raise {A} e.

Record World := mkWorld {
  db : DB;                 (* what a query sees now *)
  log : list DB;           (* every committed snapshot, oldest first *)
  clock : datetime;        (* the last reading of the wall clock *)
  ticks : list nat         (* how far the clock moves before each next reading *)
}.

Definition M (A : Type) : Type := World -> Result A * World.

Definition ret {A} (a : A) : M A := fun w => (Ok a, w).

Definition bind {A B} (m : M A) (k : A -> M B) : M B :=
  fun w => match m w with
           | (Ok a, w') => k a w'
           | (Raise e, w') => (Raise e, w')
           end.

Definition raise {A} (e : Exn) : M A := fun w => (Raise e, w).

Declare Scope session_scope.
Delimit Scope session_scope with session.
Notation "x <- m ;; k" := (bind m (fun x => k))
  (at level 61, m at next level, right associativity) : session_scope.
Notation "m ;;; k" := (bind m (fun _ => k))
  (at level 61, right associativity) : session_scope.
Local Open Scope session_scope.

(** [db.query(...)]: read the current snapshot. *)
Definition query {A} (f : DB -> A) : M A := fun w => (Ok (f (db w)), w).

(** [db.commit()]: the new snapshot becomes visible to every reader. *)
Definition commit (d : DB) : M unit :=
  fun w => (Ok tt, mkWorld d (log w ++ [d]) (clock w) (ticks w)).

(** A sequence is not transactional: the primary key drawn by an INSERT
    that the database then refuses stays drawn.  The store moves on to [d],
    and no snapshot is committed. *)
Definition drawn (d : DB) : M unit :=
  fun w => (Ok tt, mkWorld d (log w) (clock w) (ticks w)).

(** [datetime.now(timezone.utc)]: the clock never runs backwards; the
    environment says how far it has moved since the last reading. *)
Definition now : M datetime :=
  fun w => let t := (clock w + hd 0 (ticks w))%nat in
           (Ok t, mkWorld (db w) (log w) t (tl (ticks w))).

(** ** [crud.py] *)

Module crud.

(** *** Conversations *)

Definition get_conversation_by_session_id (session_id : string) : M (option Conversation) :=
  query (fun d => find (fun c => String.eqb (conv_session_id c) session_id) (conversations d)).

Definition get_conversation_by_id (conversation_id : Z) : M (option Conversation) :=
  query (fun d => find (fun c => conv_id c =? conversation_id) (conversations d)).

(** [uuid_hex] is the value of [uuid.uuid4().hex].  The insert takes the next
    primary key and both column defaults read the clock; the unique index on
    [session_id] refuses a duplicate, which has drawn its key by then. *)
Definition create_conversation (user_id : Z) (title : option string) (uuid_hex : string)
  : M Conversation :=
  let session_id := "conv-" ++ uuid_hex in
  created <- now ;;
  updated <- now ;;
  dup <- get_conversation_by_session_id session_id ;;
  match dup with
  | Some _ =>
      d <- query (fun d => d) ;;
      drawn (mkDB (conversations d) (messages d) (goals d) (goal_check_ins d)
                  (conversations_seq d + 1) (messages_seq d) (goals_seq d)
                  (goal_check_ins_seq d)) ;;;
      raise (IntegrityError "duplicate key value violates unique constraint on conversations.session_id")
  | None =>
      d <- query (fun d => d) ;;
      let c := mkConversation (conversations_seq d) user_id session_id title created updated in
      commit (mkDB (conversations d ++ [c]) (messages d) (goals d) (goal_check_ins d)
                   (conversations_seq d + 1) (messages_seq d) (goals_seq d)
                   (goal_check_ins_seq d)) ;;;
      ret c
  end.

(** Deleting a conversation cascades to its messages. *)
Definition delete_conversation (session_id : string) : M bool :=
  conversation <- get_conversation_by_session_id session_id ;;
  match conversation with
  | Some c =>
      d <- query (fun d => d) ;;
      commit (mkDB (filter (fun x => negb (conv_id x =? conv_id c)) (conversations d))
                   (filter (fun m => negb (msg_conversation_id m =? conv_id c)) (messages d))
                   (goals d) (goal_check_ins d)
                   (conversations_seq d) (messages_seq d) (goals_seq d)
                   (goal_check_ins_seq d)) ;;;
      ret true
  | None => ret false
  end.

(** The row that [.first()] returned is the one that is written back. *)
Fixpoint touch (conversation_id : Z) (t : datetime) (cs : list Conversation)
  : list Conversation :=
  match cs with
  | [] => []
  | c :: r =>
      if conv_id c =? conversation_id
      then mkConversation (conv_id c) (conv_user_id c) (conv_session_id c) (conv_title c)
                          (conv_created_at c) t :: r
      else c :: touch conversation_id t r
  end.

Definition update_conversation_timestamp (conversation_id : Z) : M unit :=
  conversation <- get_conversation_by_id conversation_id ;;
  match conversation with
  | Some _ =>
      t <- now ;;
      d <- query (fun d => d) ;;
      commit (set_conversations d (touch conversation_id t (conversations d)))
  | None => ret tt
  end.

(** *** Messages *)

(** [db.add(db_message); db.commit(); db.refresh(db_message)], then the
    touch of the parent in a commit of its own.  The foreign key on
    [conversation_id] refuses a message without a parent, which has drawn
    its key by then. *)
Definition create_message (conversation_id : Z) (role content : string)
           (keywords : option (list string)) : M Message :=
  created <- now ;;
  parent <- get_conversation_by_id conversation_id ;;
  match parent with
  | None =>
      d <- query (fun d => d) ;;
      drawn (mkDB (conversations d) (messages d) (goals d) (goal_check_ins d)
                  (conversations_seq d) (messages_seq d + 1) (goals_seq d)
                  (goal_check_ins_seq d)) ;;;
      raise (IntegrityError "insert on messages violates foreign key constraint on conversation_id")
  | Some _ =>
      d <- query (fun d => d) ;;
      let db_message :=
        mkMessage (messages_seq d) conversation_id role content keywords created in
      commit (mkDB (conversations d) (messages d ++ [db_message]) (goals d) (goal_check_ins d)
                   (conversations_seq d) (messages_seq d + 1) (goals_seq d)
                   (goal_check_ins_seq d)) ;;;
      update_conversation_timestamp conversation_id ;;;
      ret db_message
  end.

(** [ORDER BY created_at]: rows with equal timestamps keep their insertion
    order. *)
Fixpoint insert_by_created_at (m : Message) (l : list Message) : list Message :=
  match l with
  | [] => [m]
  | x :: r =>
      if (msg_created_at m <? msg_created_at x)%nat then m :: l
      else x :: insert_by_created_at m r
  end.

Definition order_by_created_at (l : list Message) : list Message :=
  fold_left (fun acc m => insert_by_created_at m acc) l [].

Definition messages_of (d : DB) (conversation_id : Z) : list Message :=
  order_by_created_at
    (filter (fun m => msg_conversation_id m =? conversation_id) (messages d)).

Definition get_conversation_messages (conversation_id : Z) : M (list Message) :=
  query (fun d => messages_of d conversation_id).

(** *** Goals *)

Definition create_goal (user_id : Z) (title : string) (description : option string)
           (target_date : option datetime) : M Goal :=
  created <- now ;;
  updated <- now ;;
  d <- query (fun d => d) ;;
  let db_goal :=
    mkGoal (goals_seq d) user_id title description target_date "active" 0 created updated in
  commit (mkDB (conversations d) (messages d) (goals d ++ [db_goal]) (goal_check_ins d)
               (conversations_seq d) (messages_seq d) (goals_seq d + 1)
               (goal_check_ins_seq d)) ;;;
  ret db_goal.

Definition get_goal_by_id (goal_id : Z) : M (option Goal) :=
  query (fun d => find (fun g => g_id g =? goal_id) (goals d)).

(** *** Goal check-ins *)

(** [goal.streak_count += 1; goal.updated_at = datetime.now(timezone.utc)]
    on the row that [get_goal_by_id] returned. *)
Fixpoint bump_streak (goal_id : Z) (t : datetime) (gs : list Goal) : list Goal :=
  match gs with
  | [] => []
  | g :: r =>
      if g_id g =? goal_id
      then mkGoal (g_id g) (goal_user_id g) (goal_title g) (goal_description g)
                  (goal_target_date g) (goal_status g) (goal_streak_count g + 1)
                  (goal_created_at g) t :: r
      else g :: bump_streak goal_id t r
  end.

Definition create_goal_checkin (goal_id : Z) (progress_note : option string)
           (completed : bool) : M GoalCheckIn :=
  check_in_date <- now ;;
  parent <- get_goal_by_id goal_id ;;
  match parent with
  | None =>
      d <- query (fun d => d) ;;
      drawn (mkDB (conversations d) (messages d) (goals d) (goal_check_ins d)
                  (conversations_seq d) (messages_seq d) (goals_seq d)
                  (goal_check_ins_seq d + 1)) ;;;
      raise (IntegrityError "insert on goal_check_ins violates foreign key constraint on goal_id")
  | Some _ =>
      d <- query (fun d => d) ;;
      let db_checkin :=
        mkGoalCheckIn (goal_check_ins_seq d) goal_id check_in_date progress_note completed in
      commit (mkDB (conversations d) (messages d) (goals d) (goal_check_ins d ++ [db_checkin])
                   (conversations_seq d) (messages_seq d) (goals_seq d)
                   (goal_check_ins_seq d + 1)) ;;;
      (* Update goal streak if completed *)
      (if completed then
         goal <- get_goal_by_id goal_id ;;
         match goal with
         | Some _ =>
             t <- now ;;
             d' <- query (fun d => d) ;;
             commit (set_goals d' (bump_streak goal_id t (goals d')))
         | None => ret tt
         end
       else ret tt) ;;;
      ret db_checkin
  end.

Definition get_checkin_by_id (checkin_id : Z) : M (option GoalCheckIn) :=
  query (fun d => find (fun c => ci_id c =? checkin_id) (goal_check_ins d)).

(** The attributes that are not [None] are written to the row found. *)
Fixpoint write_checkin (checkin_id : Z) (progress_note : option string)
         (completed : option bool) (cis : list GoalCheckIn) : list GoalCheckIn :=
  match cis with
  | [] => []
  | c :: r =>
      if ci_id c =? checkin_id
      then mkGoalCheckIn (ci_id c) (checkin_goal_id c)
                         (checkin_check_in_date c)
                         (match progress_note with
                          | Some n => Some n
                          | None => checkin_progress_note c
                          end)
                         (match completed with
                          | Some b => b
                          | None => checkin_completed c
                          end) :: r
      else c :: write_checkin checkin_id progress_note completed r
  end.

Definition update_checkin (checkin_id : Z) (progress_note : option string)
           (completed : option bool) : M (option GoalCheckIn) :=
  checkin <- get_checkin_by_id checkin_id ;;
  match checkin with
  | Some _ =>
      d <- query (fun d => d) ;;
      commit (set_goal_check_ins d
                (write_checkin checkin_id progress_note completed (goal_check_ins d))) ;;;
      get_checkin_by_id checkin_id
  | None => ret None
  end.

Definition delete_checkin (checkin_id : Z) : M bool :=
  checkin <- get_checkin_by_id checkin_id ;;
  match checkin with
  | Some _ =>
      d <- query (fun d => d) ;;
      commit (set_goal_check_ins d
                (filter (fun c => negb (ci_id c =? checkin_id))
                        (goal_check_ins d))) ;;;
      ret true
  | None => ret false
  end.

(** *** Listings, and the rest of the goal operations *)

(** [ORDER BY key DESC].  The statement names no second key, so the order
    of rows with equal keys is whatever the database returns; the insertion
    order taken here is one such order, and the properties below hold for
    any of them. *)
Fixpoint insert_desc {A : Type} (key : A -> datetime) (x : A) (l : list A) : list A :=
  match l with
  | [] => [x]
  | y :: r =>
      if (key y <? key x)%nat then x :: l else y :: insert_desc key x r
  end.

Definition order_by_desc {A : Type} (key : A -> datetime) (l : list A) : list A :=
  fold_left (fun acc x => insert_desc key x acc) l [].

(** [.limit(limit)]: the row count is sent as a [bigint]; when the
    statement runs PostgreSQL refuses a negative count and a count beyond
    the 64-bit range, and the driver raises [DataError]. *)
Definition limit_to {A : Type} (limit : Z) (rows : list A) : M (list A) :=
  if limit <? 0 then raise (Exception "DataError: LIMIT must not be negative")
  else if 9223372036854775807 <? limit
       then raise (Exception "DataError: bigint out of range")
       else ret (firstn (Z.to_nat limit) rows).

Definition get_user_conversations (user_id : Z) (limit : Z) : M (list Conversation) :=
  rows <- query (fun d =>
            order_by_desc conv_updated_at
              (filter (fun c => conv_user_id c =? user_id) (conversations d))) ;;
  limit_to limit rows.

(** [if status:] holds for a status that is neither [None] nor empty. *)
Definition get_user_goals (user_id : Z) (status : option string) : M (list Goal) :=
  query (fun d =>
    let q := filter (fun g => goal_user_id g =? user_id) (goals d) in
    let q := match status with
             | Some s =>
                 if String.eqb s "" then q
                 else filter (fun g => String.eqb (goal_status g) s) q
             | None => q
             end in
    order_by_desc goal_created_at q).

Definition get_goal_checkins (goal_id : Z) (limit : Z) : M (list GoalCheckIn) :=
  rows <- query (fun d =>
            order_by_desc checkin_check_in_date
              (filter (fun c => checkin_goal_id c =? goal_id) (goal_check_ins d))) ;;
  limit_to limit rows.

(** An item of the [update_data] dict: the key and its value. *)
Inductive GoalItem :=
| item_title (value : option string)
| item_description (value : option string)
| item_target_date (value : option datetime)
| item_status (value : option string).

(** [if value is not None: setattr(goal, key, value)] *)
Definition setattr (goal : Goal) (item : GoalItem) : Goal :=
  match item with
  | item_title (Some v) =>
      mkGoal (g_id goal) (goal_user_id goal) v (goal_description goal)
             (goal_target_date goal) (goal_status goal) (goal_streak_count goal)
             (goal_created_at goal) (goal_updated_at goal)
  | item_description (Some v) =>
      mkGoal (g_id goal) (goal_user_id goal) (goal_title goal) (Some v)
             (goal_target_date goal) (goal_status goal) (goal_streak_count goal)
             (goal_created_at goal) (goal_updated_at goal)
  | item_target_date (Some v) =>
      mkGoal (g_id goal) (goal_user_id goal) (goal_title goal) (goal_description goal)
             (Some v) (goal_status goal) (goal_streak_count goal)
             (goal_created_at goal) (goal_updated_at goal)
  | item_status (Some v) =>
      mkGoal (g_id goal) (goal_user_id goal) (goal_title goal) (goal_description goal)
             (goal_target_date goal) v (goal_streak_count goal)
             (goal_created_at goal) (goal_updated_at goal)
  | _ => goal
  end.

Definition set_updated_at (goal : Goal) (t : datetime) : Goal :=
  mkGoal (g_id goal) (goal_user_id goal) (goal_title goal) (goal_description goal)
         (goal_target_date goal) (goal_status goal) (goal_streak_count goal)
         (goal_created_at goal) t.

(** The row that [get_goal_by_id] returned is the one written back. *)
Fixpoint write_goal (goal_id : Z) (f : Goal -> Goal) (gs : list Goal) : list Goal :=
  match gs with
  | [] => []
  | g :: r => if g_id g =? goal_id then f g :: r else g :: write_goal goal_id f r
  end.

Definition update_goal (goal_id : Z) (update_data : list GoalItem) : M (option Goal) :=
  goal <- get_goal_by_id goal_id ;;
  match goal with
  | Some _ =>
      t <- now ;;
      d <- query (fun d => d) ;;
      commit (set_goals d
                (write_goal goal_id
                   (fun g => set_updated_at (fold_left setattr update_data g) t)
                   (goals d))) ;;;
      get_goal_by_id goal_id
  | None => ret None
  end.

(** Deleting a goal cascades to its check-ins. *)
Definition delete_goal (goal_id : Z) : M bool :=
  goal <- get_goal_by_id goal_id ;;
  match goal with
  | Some g =>
      d <- query (fun d => d) ;;
      commit (mkDB (conversations d) (messages d)
                   (filter (fun x => negb (g_id x =? g_id g)) (goals d))
                   (filter (fun c => negb (checkin_goal_id c =? g_id g)) (goal_check_ins d))
                   (conversations_seq d) (messages_seq d) (goals_seq d)
                   (goal_check_ins_seq d)) ;;;
      ret true
  | None => ret false
  end.

(** *** Names the module does not define *)

(** [routes/chat.py] calls [crud.create_message_pair]; [crud.py] has no
    definition of that name, so the attribute lookup finds nothing. *)
Definition create_message_pair
  : option (Z -> string -> string -> M (Message * Message)) := None.

End crud.

(** ** [config.py] *)

Definition newline : string := String (Ascii.ascii_of_nat 10) EmptyString.

Definition SYSTEM_PROMPT : string :=
  newline ++
  "You are Alari, a compassionate, helpful personal growth coach and motivational companion for accomplishing goals. Always answer in a personal, interactive way. Always refer to yourself as Alari. Be warm, encouraging, and non-judgmental. Knowledge cutoff: October 2025. If unsure, ask clarifying questions." ++
  newline.

(** ** [schemasx.py] *)

Record ConversationResponse := mkConversationResponse {
  cr_id : Z;
  cr_session_id : string;
  cr_title : option string;
  cr_created_at : datetime;
  cr_updated_at : datetime;
  cr_message_count : nat
}.

Record MessageResponse := mkMessageResponse {
  mr_id : Z;
  mr_role : string;
  mr_content : string;
  mr_created_at : datetime
}.

Definition Usage := list (string * Z).

Record ChatRequest := mkChatRequest {
  message : string;
  max_tokens : option Z;
  temperature : option Q
}.

Record ChatResponse := mkChatResponse {
  chat_session_id : string;
  user_message : MessageResponse;
  assistant_message : MessageResponse;
  usage : Usage
}.

Record GoalCreate := mkGoalCreate {
  gc_title : string;
  gc_description : option string;
  gc_target_date : option datetime
}.

Record CheckInCreate := mkCheckInCreate {
  cc_progress_note : option string;
  cc_completed : bool
}.

Record CheckInUpdate := mkCheckInUpdate {
  cu_progress_note : option string;
  cu_completed : option bool
}.

(** A field of [GoalUpdate] is unset, or set to [null] or to a value. *)
Record GoalUpdate := mkGoalUpdate {
  gu_title : option (option string);
  gu_description : option (option string);
  gu_target_date : option (option datetime);
  gu_status : option (option string)
}.

(** [update_data.model_dump(exclude_unset=True)] *)
Definition model_dump_exclude_unset (u : GoalUpdate) : list crud.GoalItem :=
  ((match gu_title u with Some v => [crud.item_title v] | None => [] end) ++
   (match gu_description u with Some v => [crud.item_description v] | None => [] end) ++
   (match gu_target_date u with Some v => [crud.item_target_date v] | None => [] end) ++
   (match gu_status u with Some v => [crud.item_status v] | None => [] end))%list.

Record ConversationListResponse := mkConversationListResponse {
  cl_conversations : list ConversationResponse;
  cl_total : nat
}.

Record GoalListResponse := mkGoalListResponse {
  gl_goals : list Goal;
  gl_total : nat
}.

Record CheckInListResponse := mkCheckInListResponse {
  cil_check_ins : list GoalCheckIn;
  cil_total : nat
}.

Definition message_response (m : Message) : MessageResponse :=
  mkMessageResponse (msg_id m) (msg_role m) (msg_content m) (msg_created_at m).

(** After a commit the session expires its instances: the next attribute
    access loads the row again by primary key. *)
Definition reload (c : Conversation) : M Conversation :=
  row <- crud.get_conversation_by_id (conv_id c) ;;
  match row with
  | Some c' => ret c'
  | None => raise (Exception "ObjectDeletedError")
  end.

(** ** [routes/conversations.py] *)

Module conversations.

Definition not_found {A} : M A := raise (HTTPException 404 "Conversation not found").

Definition create_conversation (title : option string) (current_user : User)
           (uuid_hex : string) : M ConversationResponse :=
  conversation <- crud.create_conversation (user_id current_user) title uuid_hex ;;
  (* Create system message *)
  crud.create_message (conv_id conversation) "system" SYSTEM_PROMPT None ;;;
  conversation <- reload conversation ;;
  ret (mkConversationResponse (conv_id conversation) (conv_session_id conversation)
         (conv_title conversation) (conv_created_at conversation)
         (conv_updated_at conversation) 1).

Definition get_conversation (session_id : string) (current_user : User)
  : M ConversationResponse :=
  conversation <- crud.get_conversation_by_session_id session_id ;;
  match conversation with
  | None => not_found
  | Some conversation =>
      if negb (conv_user_id conversation =? user_id current_user) then not_found
      else
        messages <- crud.get_conversation_messages (conv_id conversation) ;;
        ret (mkConversationResponse (conv_id conversation) (conv_session_id conversation)
               (conv_title conversation) (conv_created_at conversation)
               (conv_updated_at conversation) (length messages))
  end.

Definition get_messages (session_id : string) (current_user : User)
  : M (list MessageResponse) :=
  conversation <- crud.get_conversation_by_session_id session_id ;;
  match conversation with
  | None => not_found
  | Some conversation =>
      if negb (conv_user_id conversation =? user_id current_user) then not_found
      else
        messages <- crud.get_conversation_messages (conv_id conversation) ;;
        ret (map message_response messages)
  end.

Definition delete_conversation (session_id : string) (current_user : User) : M unit :=
  conversation <- crud.get_conversation_by_session_id session_id ;;
  match conversation with
  | None => not_found
  | Some conversation =>
      if negb (conv_user_id conversation =? user_id current_user) then not_found
      else crud.delete_conversation session_id ;;; ret tt
  end.

(** The loop of [list_conversations]: one count of messages per row. *)
Fixpoint conv_responses (convs : list Conversation) : M (list ConversationResponse) :=
  match convs with
  | [] => ret []
  | conv :: rest =>
      messages <- crud.get_conversation_messages (conv_id conv) ;;
      responses <- conv_responses rest ;;
      ret (mkConversationResponse (conv_id conv) (conv_session_id conv) (conv_title conv)
             (conv_created_at conv) (conv_updated_at conv) (length messages) :: responses)
  end.

Definition list_conversations (limit : Z) (current_user : User)
  : M ConversationListResponse :=
  conversations <- crud.get_user_conversations (user_id current_user) limit ;;
  responses <- conv_responses conversations ;;
  ret (mkConversationListResponse responses (length responses)).

End conversations.

(** ** [routes/chat.py] *)

Module chat.

(** What is posted to the inference service. *)
Record InferenceRequest := mkInferenceRequest {
  req_messages : list (string * string);
  req_max_tokens : Z;
  req_temperature : Q
}.

(** The payload of a buffered answer: [.json()] fails on a body that is not
    JSON; the object may lack either key. *)
Inductive Body :=
| NotJson (error : string)
| Json (response : option string) (usage : option Usage).

(** What [client.post] does: it raises, or returns a status code and a body. *)
Inductive PostOutcome :=
| PostRaises (e : Exn)
| PostReturns (status_code : Z) (body : Body).

(** What [client.stream] delivers through [aiter_text]: the chunks that
    arrive, then either the close of the transport or an exception. *)
Record Upstream := mkUpstream {
  chunks : list string;
  failure : option Exn
}.

(** [request.max_tokens or 512], [request.temperature or 0.7]: [None] and
    zero are both falsy. *)
Definition max_tokens_or_default (request : ChatRequest) : Z :=
  match max_tokens request with
  | Some n => if n =? 0 then 512 else n
  | None => 512
  end.

Definition temperature_or_default (request : ChatRequest) : Q :=
  match temperature request with
  | Some t => if Qeq_bool t 0 then (7 # 10)%Q else t
  | None => (7 # 10)%Q
  end.

Definition message_history (msgs : list Message) : list (string * string) :=
  map (fun msg => (msg_role msg, msg_content msg)) msgs.

(** The body of the [try] of [send_message]. *)
Definition call_inference (post : InferenceRequest -> PostOutcome)
           (history : list (string * string)) (request : ChatRequest)
  : Result (string * Usage) :=
  match post (mkInferenceRequest history (max_tokens_or_default request)
                                 (temperature_or_default request)) with
  | PostRaises e => Raise e
  | PostReturns status_code body =>
      if negb (status_code =? 200)
      then Raise (HTTPException 503 ("Inference service error: " ++ str_int status_code))
      else match body with
           | NotJson error => Raise (Exception error)
           | Json None _ => Raise (Exception "'response'")
           | Json (Some ai_message_content) u =>
               Ok (ai_message_content, match u with Some u => u | None => [] end)
           end
  end.

(** Its [except] clauses, in order; the last one also catches the
    [HTTPException] raised inside the [try]. *)
Definition except_clauses {A} (r : Result A) : Result A :=
  match r with
  | Ok a => Ok a
  | Raise (TimeoutException _) =>
      Raise (HTTPException 504 "Inference service timeout")
  | Raise (RequestError m) =>
      Raise (HTTPException 503 ("Cannot connect to inference service: " ++ m))
  | Raise e =>
      Raise (HTTPException 500 ("Error during inference: " ++ str e))
  end.

(** Step 4 and 5 of [send_message]: looking up [crud.create_message_pair]
    raises [AttributeError] when the module has no such attribute. *)
Definition save_both (session_id : string) (conversation : Conversation)
           (request : ChatRequest) (ai_message_content : string) (u : Usage)
  : M ChatResponse :=
  match crud.create_message_pair with
  | None =>
      raise (AttributeError "module 'crud' has no attribute 'create_message_pair'")
  | Some create_message_pair =>
      pair <- create_message_pair (conv_id conversation) (message request)
                                  ai_message_content ;;
      let (user_msg, assistant_msg) := pair in
      ret (mkChatResponse session_id (message_response user_msg)
                          (message_response assistant_msg) u)
  end.

Definition send_message (post : InferenceRequest -> PostOutcome)
           (session_id : string) (request : ChatRequest) (current_user : User)
  : M ChatResponse :=
  (* Step 1: Verify conversation ownership *)
  conversation <- crud.get_conversation_by_session_id session_id ;;
  match conversation with
  | None => raise (HTTPException 404 "Conversation not found")
  | Some conversation =>
      if negb (conv_user_id conversation =? user_id current_user)
      then raise (HTTPException 403 "Access denied")
      else
        (* Step 2: Get full conversation history *)
        existing_messages <- crud.get_conversation_messages (conv_id conversation) ;;
        let history :=
          (message_history existing_messages ++ [("user", message request)])%list in
        (* Step 3: Call inference service *)
        match except_clauses (call_inference post history request) with
        | Raise e => raise e
        | Ok (ai_message_content, u) =>
            (* Step 4: Save BOTH messages in a single transaction *)
            save_both session_id conversation request ai_message_content u
        end
  end.

(** The loop of [stream_generator]: each chunk is added to [full_response]
    and yielded. *)
Fixpoint forward (cs : list string) (full_response : string) (yielded : list string)
  : string * list string :=
  match cs with
  | [] => (full_response, yielded)
  | chunk :: rest => forward rest (full_response ++ chunk) (yielded ++ [chunk])%list
  end.

(** The generator driven to its end; the value is what it yielded. *)
Definition stream_generator (upstream : Upstream) (conversation : Conversation)
  : M (list string) :=
  let (full_response, yielded) := forward (chunks upstream) "" [] in
  match failure upstream with
  | Some e =>
      let marker := newline ++ "[ERROR: " ++ str e ++ "]" in
      ret (yielded ++ [marker])%list
  | None =>
      (* After streaming completes, save AI response *)
      if negb (String.eqb full_response "")
      then
        conversation <- reload conversation ;;
        crud.create_message (conv_id conversation) "assistant" full_response None ;;;
        ret yielded
      else ret yielded
  end.

Definition send_message_streaming (stream : InferenceRequest -> Upstream)
           (session_id : string) (request : ChatRequest) (current_user : User)
  : M (list string) :=
  (* Verify conversation *)
  conversation <- crud.get_conversation_by_session_id session_id ;;
  match conversation with
  | None => raise (HTTPException 404 "Conversation not found")
  | Some conversation =>
      if negb (conv_user_id conversation =? user_id current_user)
      then raise (HTTPException 404 "Conversation not found")
      else
        (* Save user message immediately *)
        crud.create_message (conv_id conversation) "user" (message request) None ;;;
        (* Get conversation history *)
        conversation <- reload conversation ;;
        all_messages <- crud.get_conversation_messages (conv_id conversation) ;;
        let history := message_history all_messages in
        stream_generator
          (stream (mkInferenceRequest history (max_tokens_or_default request)
                                      (temperature_or_default request)))
          conversation
  end.

End chat.

(** ** [routes/goals.py] *)

Module goals.

Definition not_found {A} : M A := raise (HTTPException 404 "Goal not found").

Definition create_goal (goal_data : GoalCreate) (current_user : User) : M Goal :=
  crud.create_goal (user_id current_user) (gc_title goal_data)
                   (gc_description goal_data) (gc_target_date goal_data).

Definition create_checkin (goal_id : Z) (checkin_data : CheckInCreate)
           (current_user : User) : M GoalCheckIn :=
  goal <- crud.get_goal_by_id goal_id ;;
  match goal with
  | None => not_found
  | Some goal =>
      if negb (goal_user_id goal =? user_id current_user) then not_found
      else crud.create_goal_checkin goal_id (cc_progress_note checkin_data)
                                    (cc_completed checkin_data)
  end.

Definition update_checkin (goal_id checkin_id : Z) (update_data : CheckInUpdate)
           (current_user : User) : M GoalCheckIn :=
  goal <- crud.get_goal_by_id goal_id ;;
  match goal with
  | None => not_found
  | Some goal =>
      if negb (goal_user_id goal =? user_id current_user) then not_found
      else
        checkin <- crud.update_checkin checkin_id (cu_progress_note update_data)
                                       (cu_completed update_data) ;;
        match checkin with
        | None => raise (HTTPException 404 "Check-in not found")
        | Some checkin => ret checkin
        end
  end.

Definition delete_checkin (goal_id checkin_id : Z) (current_user : User) : M unit :=
  goal <- crud.get_goal_by_id goal_id ;;
  match goal with
  | None => not_found
  | Some goal =>
      if negb (goal_user_id goal =? user_id current_user) then not_found
      else
        success <- crud.delete_checkin checkin_id ;;
        if negb success then raise (HTTPException 404 "Check-in not found")
        else ret tt
  end.

Definition list_goals (status : option string) (current_user : User)
  : M GoalListResponse :=
  goals <- crud.get_user_goals (user_id current_user) status ;;
  ret (mkGoalListResponse goals (length goals)).

Definition get_goal (goal_id : Z) (current_user : User) : M Goal :=
  goal <- crud.get_goal_by_id goal_id ;;
  match goal with
  | None => not_found
  | Some goal =>
      if negb (goal_user_id goal =? user_id current_user) then not_found
      else ret goal
  end.

(** The route returns what [crud.update_goal] returned; the response model
    refuses [None]. *)
Definition update_goal (goal_id : Z) (update_data : GoalUpdate) (current_user : User)
  : M Goal :=
  goal <- crud.get_goal_by_id goal_id ;;
  match goal with
  | None => not_found
  | Some goal =>
      if negb (goal_user_id goal =? user_id current_user) then not_found
      else
        (* Build update dict from non-None values *)
        let update_dict := model_dump_exclude_unset update_data in
        updated_goal <- crud.update_goal goal_id update_dict ;;
        match updated_goal with
        | Some updated_goal => ret updated_goal
        | None => raise (Exception "ResponseValidationError")
        end
  end.

Definition delete_goal (goal_id : Z) (current_user : User) : M unit :=
  goal <- crud.get_goal_by_id goal_id ;;
  match goal with
  | None => not_found
  | Some goal =>
      if negb (goal_user_id goal =? user_id current_user) then not_found
      else crud.delete_goal goal_id ;;; ret tt
  end.

Definition list_checkins (goal_id : Z) (limit : Z) (current_user : User)
  : M CheckInListResponse :=
  goal <- crud.get_goal_by_id goal_id ;;
  match goal with
  | None => not_found
  | Some goal =>
      if negb (goal_user_id goal =? user_id current_user) then not_found
      else
        checkins <- crud.get_goal_checkins goal_id limit ;;
        ret (mkCheckInListResponse checkins (length checkins))
  end.

End goals.

(** ** What the properties are stated with *)

(** The snapshots that running [m] from [w] commits, in order: what a reader
    of the store can see while [m] runs. *)
Definition committed_by {A} (m : M A) (w : World) : list DB :=
  skipn (length (log w)) (log (snd (m w))).

Definition conversation_row (d : DB) (conversation_id : Z) : option Conversation :=
  find (fun c => conv_id c =? conversation_id) (conversations d).

Definition conversation_handle (d : DB) (session_id : string) : option Conversation :=
  find (fun c => String.eqb (conv_session_id c) session_id) (conversations d).

Definition goal_row (d : DB) (goal_id : Z) : option Goal :=
  find (fun g => g_id g =? goal_id) (goals d).

Definition streak_of (d : DB) (goal_id : Z) : option Z :=
  option_map goal_streak_count (goal_row d goal_id).

(** The snapshot after the insert of [m], and after the touch of its parent. *)
Definition with_message (d : DB) (m : Message) : DB :=
  mkDB (conversations d) (messages d ++ [m]) (goals d) (goal_check_ins d)
       (conversations_seq d) (messages_seq d + 1) (goals_seq d) (goal_check_ins_seq d).

Definition touched (d : DB) (conversation_id : Z) (t : datetime) : DB :=
  set_conversations d (crud.touch conversation_id t (conversations d)).

(** The clock is at or after every timestamp in the store, and every foreign
    and primary key of a conversation is below the next key of the sequence. *)
Definition wf_world (w : World) : bool :=
  forallb (fun m => (msg_created_at m <=? clock w)%nat) (messages (db w))
  && forallb (fun c => (conv_updated_at c <=? clock w)%nat) (conversations (db w))
  && forallb (fun m => msg_conversation_id m <? conversations_seq (db w)) (messages (db w))
  && forallb (fun c => conv_id c <? conversations_seq (db w)) (conversations (db w)).

Definition is_system_prompt (m : Message) : bool :=
  String.eqb (msg_role m) "system" && String.eqb (msg_content m) SYSTEM_PROMPT.

(** The first message of a conversation is the persona prompt. *)
Definition prompted (d : DB) (c : Conversation) : bool :=
  match crud.messages_of d (conv_id c) with
  | m :: _ => is_system_prompt m
  | [] => false
  end.

Definition every_conversation_prompted (d : DB) : bool :=
  forallb (prompted d) (conversations d).

(** The inference call of a buffered turn fails: [client.post] raises
    (timeout, connection error, anything else) or answers with a status other
    than 200. *)
Definition inference_fails (o : chat.PostOutcome) : bool :=
  match o with
  | chat.PostRaises _ => true
  | chat.PostReturns status_code _ => negb (status_code =? 200)
  end.

(** The in-band marker that ends a failed stream. *)
Definition error_marker (e : Exn) : string :=
  newline ++ "[ERROR: " ++ str e ++ "]".

(** *** The service as a state machine

    One request is served at a time; [serve] gives the world it leaves
    behind, whether it answered or raised.  The requests are those of the
    routes above; the other routes of the service read, or write users and
    goals only. *)

Inductive Request :=
| CreateConversation (title : option string) (uuid_hex : string)
| GetConversation (session_id : string)
| GetMessages (session_id : string)
| DeleteConversation (session_id : string)
| SendMessage (post : chat.InferenceRequest -> chat.PostOutcome)
              (session_id : string) (request : ChatRequest)
| SendMessageStreaming (stream : chat.InferenceRequest -> chat.Upstream)
                       (session_id : string) (request : ChatRequest)
| CreateGoal (goal_data : GoalCreate)
| CreateCheckin (goal_id : Z) (checkin_data : CheckInCreate)
| UpdateCheckin (goal_id checkin_id : Z) (update_data : CheckInUpdate)
| DeleteCheckin (goal_id checkin_id : Z).

Definition serve (w : World) (call : User * Request) : World :=
  let (current_user, r) := call in
  match r with
  | CreateConversation title uuid_hex =>
      snd (conversations.create_conversation title current_user uuid_hex w)
  | GetConversation session_id =>
      snd (conversations.get_conversation session_id current_user w)
  | GetMessages session_id =>
      snd (conversations.get_messages session_id current_user w)
  | DeleteConversation session_id =>
      snd (conversations.delete_conversation session_id current_user w)
  | SendMessage post session_id request =>
      snd (chat.send_message post session_id request current_user w)
  | SendMessageStreaming stream session_id request =>
      snd (chat.send_message_streaming stream session_id request current_user w)
  | CreateGoal goal_data =>
      snd (goals.create_goal goal_data current_user w)
  | CreateCheckin goal_id checkin_data =>
      snd (goals.create_checkin goal_id checkin_data current_user w)
  | UpdateCheckin goal_id checkin_id update_data =>
      snd (goals.update_checkin goal_id checkin_id update_data current_user w)
  | DeleteCheckin goal_id checkin_id =>
      snd (goals.delete_checkin goal_id checkin_id current_user w)
  end.

Definition serve_all (calls : list (User * Request)) (w : World) : World :=
  fold_left serve calls w.

(** The service starts on empty tables. *)
Definition initial_world (ticks : list nat) : World := mkWorld empty_db [] 0%nat ticks.

(** What an operation that writes no conversation and no message leaves
    alone; the sequence of conversation keys may have moved on. *)
Definition same_conversations (w w' : World) : Prop :=
  conversations (db w') = conversations (db w) /\
  messages (db w') = messages (db w) /\
  conversations_seq (db w) <= conversations_seq (db w') /\
  (clock w <= clock w')%nat.

(** *** The whole service

    The routes that list, and the rest of the goal routes, beside the
    requests above. *)

Inductive Call :=
| Served (r : Request)
| ListConversations (limit : Z)
| ListGoals (status : option string)
| GetGoal (goal_id : Z)
| UpdateGoal (goal_id : Z) (update_data : GoalUpdate)
| DeleteGoal (goal_id : Z)
| ListCheckins (goal_id : Z) (limit : Z).

Definition handle (w : World) (call : User * Call) : World :=
  let (current_user, c) := call in
  match c with
  | Served r => serve w (current_user, r)
  | ListConversations limit =>
      snd (conversations.list_conversations limit current_user w)
  | ListGoals status => snd (goals.list_goals status current_user w)
  | GetGoal goal_id => snd (goals.get_goal goal_id current_user w)
  | UpdateGoal goal_id update_data =>
      snd (goals.update_goal goal_id update_data current_user w)
  | DeleteGoal goal_id => snd (goals.delete_goal goal_id current_user w)
  | ListCheckins goal_id limit =>
      snd (goals.list_checkins goal_id limit current_user w)
  end.

Definition handle_all (calls : list (User * Call)) (w : World) : World :=
  fold_left handle calls w.

(** The snapshots that the requests [later] commit when served from [w], in
    order. *)
Definition committed_while (later : list (User * Call)) (w : World) : list DB :=
  skipn (length (log w)) (log (handle_all later w)).

Definition is_delete_conversation (c : Call) : bool :=
  match c with
  | Served (DeleteConversation _) => true
  | _ => false
  end.

(** Newest first, and oldest first, by a timestamp. *)
Definition newest_first {A : Type} (key : A -> datetime) (l : list A) : Prop :=
  StronglySorted (fun a b => (key b <= key a)%nat) l.

Definition oldest_first {A : Type} (key : A -> datetime) (l : list A) : Prop :=
  StronglySorted (fun a b => (key a <= key b)%nat) l.

Definition checkin_row (d : DB) (checkin_id : Z) : option GoalCheckIn :=
  find (fun c => ci_id c =? checkin_id) (goal_check_ins d).

(** The goal is not there, or it is the goal of somebody else. *)
Definition goal_hidden (d : DB) (goal_id : Z) (current_user : User) : Prop :=
  goal_row d goal_id = None \/
  exists g, goal_row d goal_id = Some g /\ goal_user_id g <> user_id current_user.

(** Handles and keys of conversations are unique, and the keys that are in
    use are below the next key of each sequence. *)
Definition unique_conversations (d : DB) : Prop :=
  NoDup (map conv_session_id (conversations d)) /\
  NoDup (map conv_id (conversations d)).

(** The answer of the conversation routes to a reader of row [c]. *)
Definition conversation_response (d : DB) (c : Conversation) : ConversationResponse :=
  mkConversationResponse (conv_id c) (conv_session_id c) (conv_title c)
    (conv_created_at c) (conv_updated_at c) (length (crud.messages_of d (conv_id c))).

(** What both chat turns post upstream: the history, the new user message,
    and the generation parameters with their defaults. *)
Definition prompt_of (d : DB) (c : Conversation) (request : ChatRequest)
  : chat.InferenceRequest :=
  chat.mkInferenceRequest
    (chat.message_history (crud.messages_of d (conv_id c)) ++
     [("user", message request)])%list
    (chat.max_tokens_or_default request) (chat.temperature_or_default request).

(** What an operation that only concerns conversations leaves alone. *)
Definition same_goals (w w' : World) : Prop :=
  goals (db w') = goals (db w) /\
  goal_check_ins (db w') = goal_check_ins (db w) /\
  goals_seq (db w') = goals_seq (db w).

(** What a request may do to the row of a conversation: touch [updated_at],
    forwards. *)
Definition conversation_kept (c c' : Conversation) : Prop :=
  conv_id c' = conv_id c /\
  conv_user_id c' = conv_user_id c /\
  conv_session_id c' = conv_session_id c /\
  conv_title c' = conv_title c /\
  conv_created_at c' = conv_created_at c /\
  (conv_updated_at c <= conv_updated_at c')%nat.

(** What a request may do to the row of a goal beside its descriptive
    fields: raise the streak count. *)
Definition goal_kept (g g' : Goal) : Prop :=
  g_id g' = g_id g /\
  goal_user_id g' = goal_user_id g /\
  goal_created_at g' = goal_created_at g /\
  goal_streak_count g <= goal_streak_count g'.

(** The keys of the goals in use are below the next key of the sequence,
    and no streak count is negative. *)
Definition goals_wf (d : DB) : Prop :=
  Forall (fun g => g_id g < goals_seq d /\ 0 <= goal_streak_count g) (goals d).

(** The writes to goals, seen from the rows: a request leaves the goals as
    they are, adds one under the next key, rewrites one while keeping its
    key, owner and creation time and not lowering its streak, or removes
    the ones of a key. *)
Inductive goals_step (d d' : DB) : Prop :=
| goals_same :
    goals d' = goals d -> goals_seq d' = goals_seq d -> goals_step d d'
| goals_added g :
    goals d' = (goals d ++ [g])%list -> g_id g = goals_seq d ->
    goal_streak_count g = 0 ->
    goals_seq d' = goals_seq d + 1 -> goals_step d d'
| goals_written goal_id f :
    goals d' = crud.write_goal goal_id f (goals d) -> goals_seq d' = goals_seq d ->
    (forall g, goal_kept g (f g)) -> goals_step d d'
| goals_removed goal_id :
    goals d' = filter (fun x => negb (g_id x =? goal_id)) (goals d) ->
    goals_seq d' = goals_seq d -> goals_step d d'.

(** *** Readers between commits

    A reader with a session of its own sees one committed snapshot. *)
Definition seen_at {A} (d : DB) (read : M A) : Result A :=
  fst (read (mkWorld d [] 0%nat [])).

(** No snapshot that creating a conversation commits shows the conversation
    to its owner with a message count of zero. *)
Definition prompt_at_first_visibility (w : World) (title : option string)
           (current_user : User) (uuid_hex : string) : Prop :=
  forall d response,
    In d (committed_by (conversations.create_conversation title current_user uuid_hex) w) ->
    seen_at d (conversations.get_conversation ("conv-" ++ uuid_hex) current_user) =
    Ok response ->
    (1 <= cr_message_count response)%nat.

(** No snapshot that [create_message] commits holds the new message next to
    a parent whose [updated_at] has not advanced. *)
Definition touch_atomic_with_insert (w : World) (conversation_id : Z)
           (role content : string) (keywords : option (list string)) : Prop :=
  forall d m before after,
    fst (crud.create_message conversation_id role content keywords w) = Ok m ->
    In d (committed_by (crud.create_message conversation_id role content keywords) w) ->
    In m (messages d) ->
    conversation_row (db w) conversation_id = Some before ->
    conversation_row d conversation_id = Some after ->
    (conv_updated_at before < conv_updated_at after)%nat.

(** *** Sample data *)

Definition alice : User := mkUser 1 "a@x.com".
Definition bob : User := mkUser 2 "b@x.com".

Definition sample_ticks : list nat := repeat 1%nat 24.

(** Alice has created one conversation. *)
Definition sample_world : World :=
  snd (conversations.create_conversation (Some "Morning") alice "0af3"
                                         (initial_world sample_ticks)).

Definition sample_conversation : Conversation :=
  mkConversation 1 1 "conv-0af3" (Some "Morning") 1%nat 4%nat.

Definition hi : ChatRequest := mkChatRequest "Hi" None None.

Definition hello_post (_ : chat.InferenceRequest) : chat.PostOutcome :=
  chat.PostReturns 200 (chat.Json (Some "Hello!") None).

Definition timeout_post (_ : chat.InferenceRequest) : chat.PostOutcome :=
  chat.PostRaises (TimeoutException "timed out").

Definition hello_stream (_ : chat.InferenceRequest) : chat.Upstream :=
  chat.mkUpstream ["Hel"; "lo!"] None.

Definition closed_stream (_ : chat.InferenceRequest) : chat.Upstream :=
  chat.mkUpstream [] None.

Definition broken_stream (_ : chat.InferenceRequest) : chat.Upstream :=
  chat.mkUpstream ["Hel"] (Some (Exception "peer closed connection")).

(** Alice has a goal and has checked in twice, both times completed. *)
Definition goal_world : World :=
  serve_all [(alice, CreateGoal (mkGoalCreate "Run" None None));
             (alice, CreateCheckin 1 (mkCheckInCreate None true));
             (alice, CreateCheckin 1 (mkCheckInCreate (Some "5k") true))]
            (initial_world sample_ticks).

Definition sample_goal : Goal :=
  mkGoal 1 1 "Run" None None "active" 2 1%nat 6%nat.

(** Alice has a goal with one check-in, and Bob has a goal of his own. *)
Definition shared_world : World :=
  handle_all [(alice, Served (CreateGoal (mkGoalCreate "Run" None None)));
              (alice, Served (CreateCheckin 1 (mkCheckInCreate (Some "5k") true)));
              (bob, Served (CreateGoal (mkGoalCreate "Read" None None)))]
             (initial_world sample_ticks).

Definition alice_checkin : GoalCheckIn := mkGoalCheckIn 1 1 3%nat (Some "5k") true.

Definition shared_calls : list (User * Call) :=
  [(alice, Served (CreateGoal (mkGoalCreate "Run" None None)));
   (alice, Served (CreateCheckin 1 (mkCheckInCreate (Some "5k") true)));
   (bob, Served (CreateGoal (mkGoalCreate "Read" None None)))].

Definition alice_goal : Goal := mkGoal 1 1 "Run" None None "active" 1 1%nat 4%nat.

Definition bob_goal : Goal := mkGoal 2 2 "Read" None None "active" 0 5%nat 6%nat.

(** ** Facts about lists and the ordering of messages *)

Local Open Scope list_scope.

Section ListFacts.

Context {A : Type}.

Lemma skipn_length_app (l l' : list A) : skipn (length l) (l ++ l') = l'.
Proof. induction l as [| x l IH]; simpl; auto. Qed.

Lemma find_app_none (f : A -> bool) (l l' : list A) :
  find f l = None -> find f (l ++ l') = find f l'.
Proof.
  induction l as [| x l IH]; simpl; auto.
  destruct (f x); [discriminate | auto].
Qed.

Lemma forallb_weaken (f g : A -> bool) (l : list A) :
  (forall a, f a = true -> g a = true) -> forallb f l = true -> forallb g l = true.
Proof.
  intros Hfg. rewrite !forallb_forall. intros H a Ha. auto.
Qed.

Lemma forallb_filter (f p : A -> bool) (l : list A) :
  forallb f l = true -> forallb f (filter p l) = true.
Proof.
  rewrite !forallb_forall. intros H a Ha. apply filter_In in Ha. now apply H.
Qed.

End ListFacts.

Section Ordering.

Import crud.

Lemma insert_by_created_at_Forall (P : Message -> Prop) m l :
  P m -> Forall P l -> Forall P (insert_by_created_at m l).
Proof.
  intros Hm Hl. induction Hl as [| x l Hx Hl IH]; simpl.
  - now constructor.
  - destruct (msg_created_at m <? msg_created_at x)%nat; repeat constructor; auto.
Qed.

Lemma order_by_created_at_snoc l m :
  order_by_created_at (l ++ [m]) = insert_by_created_at m (order_by_created_at l).
Proof. unfold order_by_created_at. now rewrite fold_left_app. Qed.

Lemma order_by_created_at_Forall (P : Message -> Prop) l :
  Forall P l -> Forall P (order_by_created_at l).
Proof.
  induction l as [| m l IH] using rev_ind; intros H.
  - constructor.
  - apply Forall_app in H as [Hl Hm]. inversion Hm; subst.
    rewrite order_by_created_at_snoc. now apply insert_by_created_at_Forall; auto.
Qed.

(** A message that is not older than any other goes last. *)
Lemma insert_by_created_at_last m l :
  Forall (fun x => (msg_created_at x <= msg_created_at m)%nat) l ->
  insert_by_created_at m l = l ++ [m].
Proof.
  induction 1 as [| x l Hx Hl IH]; simpl; [reflexivity |].
  destruct (Nat.ltb_spec (msg_created_at m) (msg_created_at x)); [lia |].
  now rewrite IH.
Qed.

Lemma messages_of_with_message d m conversation_id :
  Forall (fun x => (msg_created_at x <= msg_created_at m)%nat) (messages d) ->
  messages_of (with_message d m) conversation_id =
  if msg_conversation_id m =? conversation_id
  then messages_of d conversation_id ++ [m]
  else messages_of d conversation_id.
Proof.
  intros H. unfold messages_of, with_message. simpl.
  rewrite filter_app. simpl.
  destruct (msg_conversation_id m =? conversation_id).
  - rewrite order_by_created_at_snoc. apply insert_by_created_at_last.
    apply order_by_created_at_Forall.
    rewrite Forall_forall in *. intros x Hx. apply filter_In in Hx. now apply H.
  - now rewrite app_nil_r.
Qed.

Lemma messages_of_touched d conversation_id t cid :
  messages_of (touched d conversation_id t) cid = messages_of d cid.
Proof. reflexivity. Qed.

End Ordering.

(** ** What each store operation does to the world *)

Section Runs.

Import crud.

Lemma create_message_run w conversation_id role content keywords c :
  conversation_row (db w) conversation_id = Some c ->
  let t1 := (clock w + hd 0%nat (ticks w))%nat in
  let t2 := (t1 + hd 0%nat (tl (ticks w)))%nat in
  let m := mkMessage (messages_seq (db w)) conversation_id role content keywords t1 in
  let d1 := with_message (db w) m in
  let d2 := touched d1 conversation_id t2 in
  create_message conversation_id role content keywords w =
  (Ok m, mkWorld d2 (log w ++ [d1; d2]) t2 (tl (tl (ticks w)))).
Proof.
  unfold conversation_row. intros H.
  unfold create_message, update_conversation_timestamp, get_conversation_by_id,
    bind, now, query, commit, ret. simpl.
  rewrite H. simpl. rewrite H. simpl.
  now rewrite <- app_assoc.
Qed.

Lemma create_message_orphan w conversation_id role content keywords :
  conversation_row (db w) conversation_id = None ->
  exists e, create_message conversation_id role content keywords w =
            (Raise e,
             mkWorld (mkDB (conversations (db w)) (messages (db w)) (goals (db w))
                           (goal_check_ins (db w)) (conversations_seq (db w))
                           (messages_seq (db w) + 1) (goals_seq (db w))
                           (goal_check_ins_seq (db w)))
                     (log w) (clock w + hd 0%nat (ticks w))%nat (tl (ticks w))).
Proof.
  unfold conversation_row. intros H.
  unfold create_message, get_conversation_by_id, bind, now, query, drawn, raise. simpl.
  rewrite H. eauto.
Qed.

Lemma create_conversation_run w user_id title uuid_hex :
  conversation_handle (db w) ("conv-" ++ uuid_hex)%string = None ->
  let t1 := (clock w + hd 0%nat (ticks w))%nat in
  let t2 := (t1 + hd 0%nat (tl (ticks w)))%nat in
  let c := mkConversation (conversations_seq (db w)) user_id
                          ("conv-" ++ uuid_hex)%string title t1 t2 in
  let d1 := mkDB (conversations (db w) ++ [c]) (messages (db w)) (goals (db w))
                 (goal_check_ins (db w)) (conversations_seq (db w) + 1)
                 (messages_seq (db w)) (goals_seq (db w)) (goal_check_ins_seq (db w)) in
  create_conversation user_id title uuid_hex w =
  (Ok c, mkWorld d1 (log w ++ [d1]) t2 (tl (tl (ticks w)))).
Proof.
  unfold conversation_handle. intros H.
  unfold create_conversation, get_conversation_by_session_id, bind, now, query,
    commit, ret. simpl in *.
  now rewrite H.
Qed.

Lemma create_conversation_duplicate w user_id title uuid_hex c :
  conversation_handle (db w) ("conv-" ++ uuid_hex)%string = Some c ->
  exists e, create_conversation user_id title uuid_hex w =
            (Raise e,
             mkWorld (mkDB (conversations (db w)) (messages (db w)) (goals (db w))
                           (goal_check_ins (db w)) (conversations_seq (db w) + 1)
                           (messages_seq (db w)) (goals_seq (db w))
                           (goal_check_ins_seq (db w)))
                     (log w)
                     (clock w + hd 0%nat (ticks w) + hd 0%nat (tl (ticks w)))%nat
                     (tl (tl (ticks w)))).
Proof.
  unfold conversation_handle. intros H.
  unfold create_conversation, get_conversation_by_session_id, bind, now, query, drawn,
    raise.
  simpl in *. rewrite H. eauto.
Qed.

(** The touch changes one [updated_at] and nothing else. *)
Lemma touch_forallb (f : Conversation -> bool) conversation_id t cs :
  (forall c, f c = true ->
             f (mkConversation (conv_id c) (conv_user_id c) (conv_session_id c)
                               (conv_title c) (conv_created_at c) t) = true) ->
  forallb f cs = true -> forallb f (touch conversation_id t cs) = true.
Proof.
  intros Hf. induction cs as [| c cs IH]; simpl; auto.
  intros H. apply andb_true_iff in H as [Hc Hcs].
  destruct (conv_id c =? conversation_id); simpl; apply andb_true_iff; auto.
Qed.

Lemma touch_row conversation_id t cs c :
  find (fun x => conv_id x =? conversation_id) cs = Some c ->
  find (fun x => conv_id x =? conversation_id) (touch conversation_id t cs) =
  Some (mkConversation (conv_id c) (conv_user_id c) (conv_session_id c)
                       (conv_title c) (conv_created_at c) t).
Proof.
  induction cs as [| x cs IH]; simpl; [discriminate |].
  destruct (conv_id x =? conversation_id) eqn:E; simpl.
  - intros [= ->]. now rewrite E.
  - rewrite E. exact IH.
Qed.

End Runs.

(** ** The store invariant *)

Section Invariant.

Import crud.

Lemma wf_world_spec w :
  wf_world w = true <->
  Forall (fun m => (msg_created_at m <= clock w)%nat) (messages (db w)) /\
  Forall (fun c => (conv_updated_at c <= clock w)%nat) (conversations (db w)) /\
  Forall (fun m => msg_conversation_id m < conversations_seq (db w)) (messages (db w)) /\
  Forall (fun c => conv_id c < conversations_seq (db w)) (conversations (db w)).
Proof.
  unfold wf_world. rewrite !andb_true_iff, !forallb_forall, !Forall_forall.
  split.
  - intros [[[H1 H2] H3] H4]. repeat split; intros x Hx.
    + apply Nat.leb_le; auto.
    + apply Nat.leb_le; auto.
    + apply Z.ltb_lt; auto.
    + apply Z.ltb_lt; auto.
  - intros (H1 & H2 & H3 & H4). repeat split; intros x Hx.
    + apply Nat.leb_le; auto.
    + apply Nat.leb_le; auto.
    + apply Z.ltb_lt; auto.
    + apply Z.ltb_lt; auto.
Qed.

Lemma wf_same_conversations w w' :
  same_conversations w w' -> wf_world w = true -> wf_world w' = true.
Proof.
  intros (Hc & Hm & Hs & Hle). rewrite !wf_world_spec. rewrite Hc, Hm.
  intros (H1 & H2 & H3 & H4). repeat split.
  - eapply Forall_impl; [| exact H1]. simpl. intros; lia.
  - eapply Forall_impl; [| exact H2]. simpl. intros; lia.
  - eapply Forall_impl; [| exact H3]. simpl. intros; lia.
  - eapply Forall_impl; [| exact H4]. simpl. intros; lia.
Qed.

Lemma prompted_same_messages d d' c :
  messages d' = messages d -> prompted d' c = prompted d c.
Proof. unfold prompted, messages_of. now intros ->. Qed.

Lemma prompted_same_conversations w w' :
  same_conversations w w' ->
  every_conversation_prompted (db w) = true ->
  every_conversation_prompted (db w') = true.
Proof.
  intros (Hc & Hm & _). unfold every_conversation_prompted. rewrite Hc.
  apply forallb_weaken. intros c. now rewrite (prompted_same_messages _ _ c Hm).
Qed.

Lemma row_in d conversation_id c :
  conversation_row d conversation_id = Some c ->
  In c (conversations d) /\ conv_id c = conversation_id.
Proof.
  unfold conversation_row. intros H. apply find_some in H as [Hin Heq].
  split; auto. now apply Z.eqb_eq.
Qed.

Lemma handle_in d session_id c :
  conversation_handle d session_id = Some c ->
  In c (conversations d) /\ conv_session_id c = session_id.
Proof.
  unfold conversation_handle. intros H. apply find_some in H as [Hin Heq].
  split; auto. now apply String.eqb_eq.
Qed.

(** A conversation that a handle finds is found by its key as well; the row
    found may be another one of the same key. *)
Lemma handle_row d session_id c :
  conversation_handle d session_id = Some c ->
  exists c', conversation_row d (conv_id c) = Some c'.
Proof.
  intros H. apply handle_in in H as [Hin _]. unfold conversation_row.
  destruct (find (fun x => conv_id x =? conv_id c) (conversations d)) eqn:E; eauto.
  exfalso. eapply find_none in E; eauto. simpl in E. now rewrite Z.eqb_refl in E.
Qed.

(** No message refers to the key that the sequence hands out next. *)
Lemma messages_of_next_key w :
  wf_world w = true -> messages_of (db w) (conversations_seq (db w)) = [].
Proof.
  rewrite wf_world_spec. intros (_ & _ & H & _). unfold messages_of.
  replace (filter _ (messages (db w))) with (@nil Message); [reflexivity |].
  symmetry. induction H as [| m l Hm Hl IH]; simpl; auto.
  destruct (Z.eqb_spec (msg_conversation_id m) (conversations_seq (db w))); [lia | auto].
Qed.

(** The world after a successful [create_message] is well formed. *)
Lemma wf_create_message w conversation_id role content keywords :
  wf_world w = true ->
  wf_world (snd (create_message conversation_id role content keywords w)) = true.
Proof.
  intros Hwf. destruct (conversation_row (db w) conversation_id) as [c |] eqn:Hrow.
  - rewrite (create_message_run _ _ role content keywords _ Hrow). simpl.
    apply row_in in Hrow as [Hin Hid].
    apply wf_world_spec in Hwf as (H1 & H2 & H3 & H4).
    apply wf_world_spec. simpl. repeat split.
    + apply Forall_app. split.
      * eapply Forall_impl; [| exact H1]. simpl. intros; lia.
      * repeat constructor. simpl. lia.
    + assert (G : forallb (fun c0 => (conv_updated_at c0 <=?
                   clock w + hd 0%nat (ticks w) + hd 0%nat (tl (ticks w)))%nat)
                  (touch conversation_id
                     (clock w + hd 0%nat (ticks w) + hd 0%nat (tl (ticks w)))%nat
                     (conversations (db w))) = true).
      { apply touch_forallb.
        - intros; simpl. apply Nat.leb_refl.
        - apply forallb_forall. rewrite Forall_forall in H2. intros x Hx.
          apply Nat.leb_le. specialize (H2 x Hx). lia. }
      rewrite forallb_forall in G. apply Forall_forall. intros x Hx.
      apply Nat.leb_le. auto.
    + apply Forall_app. split; auto. repeat constructor. simpl.
      rewrite Forall_forall in H4. specialize (H4 c Hin). lia.
    + assert (G : forallb (fun c0 => conv_id c0 <? conversations_seq (db w))
                  (touch conversation_id
                     (clock w + hd 0%nat (ticks w) + hd 0%nat (tl (ticks w)))%nat
                     (conversations (db w))) = true).
      { apply touch_forallb.
        - intros; simpl; auto.
        - apply forallb_forall. rewrite Forall_forall in H4. intros x Hx.
          apply Z.ltb_lt. auto. }
      rewrite forallb_forall in G. apply Forall_forall. intros x Hx.
      apply Z.ltb_lt. auto.
  - destruct (create_message_orphan _ _ role content keywords Hrow) as [e ->]. simpl.
    eapply wf_same_conversations; [| exact Hwf].
    unfold same_conversations. simpl. repeat split; auto; lia.
Qed.

(** What a caller may rely on after a successful [create_message]. *)
Lemma create_message_history w conversation_id role content keywords c :
  wf_world w = true ->
  conversation_row (db w) conversation_id = Some c ->
  exists m w',
    create_message conversation_id role content keywords w = (Ok m, w') /\
    (msg_role m = role /\ msg_content m = content /\
     msg_conversation_id m = conversation_id) /\
    wf_world w' = true /\
    (forall cid, messages_of (db w') cid =
                 if conversation_id =? cid then messages_of (db w) cid ++ [m]
                 else messages_of (db w) cid) /\
    conversations (db w') = touch conversation_id (clock w') (conversations (db w)).
Proof.
  intros Hwf Hrow.
  pose proof (wf_create_message w conversation_id role content keywords Hwf) as Hwf'.
  rewrite (create_message_run _ _ role content keywords _ Hrow) in *. simpl in Hwf'.
  eexists _, _. split; [reflexivity |]. split; [auto |]. split; [exact Hwf' |].
  split; [| reflexivity].
  intros cid. simpl. rewrite messages_of_touched.
  rewrite messages_of_with_message; [reflexivity |]. simpl.
  apply wf_world_spec in Hwf as (H1 & _).
  eapply Forall_impl; [| exact H1]. simpl. intros; lia.
Qed.

Lemma prompted_touch d conversation_id t cs :
  forallb (prompted d) cs = true ->
  forallb (prompted d) (touch conversation_id t cs) = true.
Proof. apply touch_forallb. intros c H. exact H. Qed.

Lemma prompted_grows d d' c :
  (exists l, messages_of d' (conv_id c) = messages_of d (conv_id c) ++ l) ->
  prompted d c = true -> prompted d' c = true.
Proof.
  unfold prompted. intros [l ->].
  destruct (messages_of d (conv_id c)); [discriminate | auto].
Qed.

Lemma prompted_create_message w conversation_id role content keywords :
  wf_world w = true ->
  every_conversation_prompted (db w) = true ->
  every_conversation_prompted
    (db (snd (create_message conversation_id role content keywords w))) = true.
Proof.
  intros Hwf Hp. destruct (conversation_row (db w) conversation_id) as [c |] eqn:Hrow.
  - destruct (create_message_history _ _ role content keywords _ Hwf Hrow)
      as (m & w' & -> & _ & _ & Hh & Hc). simpl.
    unfold every_conversation_prompted. rewrite Hc. apply prompted_touch.
    revert Hp. apply forallb_weaken. intros x. apply prompted_grows.
    rewrite Hh. destruct (conversation_id =? conv_id x); eauto.
    exists []. now rewrite app_nil_r.
  - destruct (create_message_orphan _ _ role content keywords Hrow) as [e ->].
    exact Hp.
Qed.

End Invariant.

(** ** Streaming turns *)

Section Streaming.

Import crud chat.

Lemma append_nil_r (s : string) : (s ++ "")%string = s.
Proof. induction s as [| a s IH]; simpl; congruence. Qed.

Lemma append_assoc (s1 s2 s3 : string) :
  ((s1 ++ s2) ++ s3)%string = (s1 ++ (s2 ++ s3))%string.
Proof. induction s1 as [| a s1 IH]; simpl; congruence. Qed.

Lemma concat_cons (x : string) (xs : list string) :
  String.concat "" (x :: xs) = (x ++ String.concat "" xs)%string.
Proof. destruct xs; simpl; [now rewrite append_nil_r | reflexivity]. Qed.

Lemma forward_spec cs full_response yielded :
  forward cs full_response yielded =
  ((full_response ++ String.concat "" cs)%string, yielded ++ cs).
Proof.
  revert full_response yielded. induction cs as [| c cs IH]; intros; simpl forward.
  - simpl. now rewrite append_nil_r, app_nil_r.
  - rewrite IH, concat_cons, append_assoc, <- app_assoc. reflexivity.
Qed.

Lemma concat_nonempty cs :
  cs <> [] -> Forall (fun chunk => chunk <> ""%string) cs -> String.concat "" cs <> ""%string.
Proof.
  destruct cs as [| c cs]; [congruence |]. intros _ H. inversion H; subst.
  rewrite concat_cons. destruct c; [congruence | discriminate].
Qed.

Variable stream : InferenceRequest -> Upstream.
Variables (session_id : string) (request : ChatRequest) (current_user : User).
Variables (w : World) (conversation : Conversation).

Hypothesis Hwf : wf_world w = true.
Hypothesis Hfound : conversation_handle (db w) session_id = Some conversation.
Hypothesis Howner : conv_user_id conversation = user_id current_user.

(** The route up to the point where the generator starts: the user message
    is in the store, at the end of the history. *)
Lemma streaming_prologue :
  exists user_msg w1 c1 r,
    send_message_streaming stream session_id request current_user w =
    stream_generator (stream r) c1 w1 /\
    (msg_role user_msg = "user"%string /\ msg_content user_msg = message request) /\
    wf_world w1 = true /\
    conversation_row (db w1) (conv_id conversation) = Some c1 /\
    messages_of (db w1) (conv_id conversation) =
    messages_of (db w) (conv_id conversation) ++ [user_msg].
Proof.
  destruct (handle_row _ _ _ Hfound) as [c Hrow].
  destruct (create_message_history _ _ "user"%string (message request) None _ Hwf Hrow)
    as (um & w1 & Hrun & (Hr & Hc & _) & Hwf1 & Hh & Hcs).
  pose proof (touch_row _ (clock w1) _ _ Hrow) as Hrow1. rewrite <- Hcs in Hrow1.
  apply row_in in Hrow as [_ Hid].
  unfold send_message_streaming, bind, get_conversation_by_session_id, query at 1.
  simpl. unfold conversation_handle in Hfound. rewrite Hfound.
  rewrite Howner, Z.eqb_refl. simpl. rewrite Hrun.
  unfold reload at 1, bind, get_conversation_by_id, query at 1. simpl.
  unfold conversation_row in Hrow1. rewrite Hrow1. simpl.
  unfold get_conversation_messages, query. simpl.
  eexists um, w1, _, _. split; [reflexivity |].
  split; [auto |]. split; [auto |]. split; [exact Hrow1 |].
  rewrite Hh, Z.eqb_refl. reflexivity.
Qed.

(** The generator on an upstream that closes normally after some text. *)
Lemma stream_generator_saves up c1 w1 :
  wf_world w1 = true ->
  conversation_row (db w1) (conv_id conversation) = Some c1 ->
  failure up = None ->
  String.concat "" (chunks up) <> ""%string ->
  exists assistant_msg w',
    stream_generator up c1 w1 = (Ok (chunks up), w') /\
    (msg_role assistant_msg = "assistant"%string /\
     msg_content assistant_msg = String.concat "" (chunks up)) /\
    messages_of (db w') (conv_id conversation) =
    messages_of (db w1) (conv_id conversation) ++ [assistant_msg].
Proof.
  intros Hwf1 Hrow1 Hnone Htext.
  assert (Hid : conv_id c1 = conv_id conversation) by (apply row_in in Hrow1; tauto).
  destruct (create_message_history _ _ "assistant"%string
              (String.concat "" (chunks up)) None _ Hwf1 Hrow1)
    as (am & w' & Hrun & (Hr & Hc & _) & _ & Hh & _).
  unfold stream_generator. rewrite forward_spec, Hnone. simpl.
  apply String.eqb_neq in Htext. rewrite Htext. simpl.
  unfold reload, bind, get_conversation_by_id, query at 1. simpl.
  rewrite Hid. unfold conversation_row in Hrow1. rewrite Hrow1. simpl.
  rewrite Hid, Hrun. simpl.
  exists am, w'. split; [reflexivity |]. split; [auto |].
  now rewrite Hh, Z.eqb_refl.
Qed.

(** The generator on an upstream that gives no text, or that fails. *)
Lemma stream_generator_silent up c1 w1 :
  failure up = None -> String.concat "" (chunks up) = ""%string ->
  stream_generator up c1 w1 = (Ok (chunks up), w1).
Proof.
  intros Hnone Htext. unfold stream_generator.
  rewrite forward_spec, Hnone, Htext. reflexivity.
Qed.

Lemma stream_generator_fails up c1 w1 e :
  failure up = Some e ->
  stream_generator up c1 w1 = (Ok (chunks up ++ [error_marker e]), w1).
Proof.
  intros Hsome. unfold stream_generator. rewrite forward_spec, Hsome. reflexivity.
Qed.

End Streaming.

(** C5: a streaming turn that receives at least one chunk of text and
    completes normally adds exactly two messages to the history, the user
    message and then the assistant message, whose content is the
    concatenation, in arrival order, of the chunks forwarded to the caller. *)
Theorem streaming_turn_saves_user_then_assistant
        (stream : chat.InferenceRequest -> chat.Upstream) (session_id : string)
        (request : ChatRequest) (current_user : User) (w : World)
        (conversation : Conversation) :
  wf_world w = true ->
  conversation_handle (db w) session_id = Some conversation ->
  conv_user_id conversation = user_id current_user ->
  (forall r, chat.failure (stream r) = None) ->
  (forall r, chat.chunks (stream r) <> []) ->
  (forall r, Forall (fun chunk => chunk <> ""%string) (chat.chunks (stream r))) ->
  exists forwarded w' user_msg assistant_msg,
    chat.send_message_streaming stream session_id request current_user w =
    (Ok forwarded, w') /\
    crud.messages_of (db w') (conv_id conversation) =
    crud.messages_of (db w) (conv_id conversation) ++ [user_msg; assistant_msg] /\
    msg_role user_msg = "user"%string /\
    msg_content user_msg = message request /\
    msg_role assistant_msg = "assistant"%string /\
    msg_content assistant_msg = String.concat "" forwarded /\
    (exists r, forwarded = chat.chunks (stream r)).
Proof.
  intros Hwf Hfound Howner Hnone Hsome Htext.
  destruct (streaming_prologue stream session_id request current_user w conversation
              Hwf Hfound Howner)
    as (um & w1 & c1 & r & Hrun & (Hr & Hc) & Hwf1 & Hrow1 & Hh1).
  destruct (stream_generator_saves conversation (stream r) c1 w1 Hwf1 Hrow1 (Hnone r)
              (concat_nonempty _ (Hsome r) (Htext r)))
    as (am & w' & Hgen & (Har & Hac) & Hh2).
  exists (chat.chunks (stream r)), w', um, am.
  rewrite Hrun, Hgen, Hh2, Hh1, <- app_assoc. simpl.
  repeat split; eauto.
Qed.

Lemma streaming_turn_saves_user_then_assistant_witness :
  wf_world sample_world = true /\
  conversation_handle (db sample_world) "conv-0af3" = Some sample_conversation /\
  exists forwarded w' user_msg assistant_msg,
    chat.send_message_streaming hello_stream "conv-0af3" hi alice sample_world =
    (Ok forwarded, w') /\
    crud.messages_of (db w') 1 =
    crud.messages_of (db sample_world) 1 ++ [user_msg; assistant_msg] /\
    msg_role user_msg = "user"%string /\
    msg_content user_msg = "Hi"%string /\
    msg_role assistant_msg = "assistant"%string /\
    msg_content assistant_msg = String.concat "" forwarded /\
    (exists r, forwarded = chat.chunks (hello_stream r)).
Proof.
  split; [reflexivity |]. split; [reflexivity |].
  apply (streaming_turn_saves_user_then_assistant
           hello_stream "conv-0af3" hi alice sample_world sample_conversation).
  - reflexivity.
  - reflexivity.
  - reflexivity.
  - intros r. reflexivity.
  - intros r. discriminate.
  - intros r. repeat constructor; discriminate.
Defined.

(** C6: a streaming turn whose upstream yields zero bytes, whether it closes
    at once or fails before any content, persists the user message and
    writes no assistant message: the history grows by exactly one message,
    of role user. *)
Theorem streaming_turn_without_text_saves_user_only
        (stream : chat.InferenceRequest -> chat.Upstream) (session_id : string)
        (request : ChatRequest) (current_user : User) (w : World)
        (conversation : Conversation) :
  wf_world w = true ->
  conversation_handle (db w) session_id = Some conversation ->
  conv_user_id conversation = user_id current_user ->
  (forall r, String.concat "" (chat.chunks (stream r)) = ""%string) ->
  exists forwarded w' user_msg,
    chat.send_message_streaming stream session_id request current_user w =
    (Ok forwarded, w') /\
    crud.messages_of (db w') (conv_id conversation) =
    crud.messages_of (db w) (conv_id conversation) ++ [user_msg] /\
    msg_role user_msg = "user"%string /\
    msg_content user_msg = message request.
Proof.
  intros Hwf Hfound Howner Hzero.
  destruct (streaming_prologue stream session_id request current_user w conversation
              Hwf Hfound Howner)
    as (um & w1 & c1 & r & Hrun & (Hr & Hc) & _ & _ & Hh1).
  rewrite Hrun. destruct (chat.failure (stream r)) as [e |] eqn:Hf.
  - rewrite (stream_generator_fails _ _ _ _ Hf). eauto 8.
  - rewrite (stream_generator_silent _ _ _ Hf (Hzero r)). eauto 8.
Qed.

Lemma streaming_turn_without_text_saves_user_only_witness :
  wf_world sample_world = true /\
  conversation_handle (db sample_world) "conv-0af3" = Some sample_conversation /\
  exists forwarded w' user_msg,
    chat.send_message_streaming closed_stream "conv-0af3" hi alice sample_world =
    (Ok forwarded, w') /\
    crud.messages_of (db w') 1 = crud.messages_of (db sample_world) 1 ++ [user_msg] /\
    msg_role user_msg = "user"%string /\
    msg_content user_msg = "Hi"%string.
Proof.
  split; [reflexivity |]. split; [reflexivity |].
  apply (streaming_turn_without_text_saves_user_only
           closed_stream "conv-0af3" hi alice sample_world sample_conversation);
    reflexivity.
Defined.

(** C7: a streaming turn that fails after streaming has begun forwards a
    terminal error marker to the caller as the last part of the response
    stream and writes no assistant message: the user message is the only
    message the turn persists. *)
Theorem streaming_turn_failure_marks_and_saves_user_only
        (stream : chat.InferenceRequest -> chat.Upstream) (session_id : string)
        (request : ChatRequest) (current_user : User) (w : World)
        (conversation : Conversation) :
  wf_world w = true ->
  conversation_handle (db w) session_id = Some conversation ->
  conv_user_id conversation = user_id current_user ->
  (forall r, chat.failure (stream r) <> None) ->
  exists forwarded w' user_msg,
    chat.send_message_streaming stream session_id request current_user w =
    (Ok forwarded, w') /\
    (exists r e, chat.failure (stream r) = Some e /\
                 forwarded = chat.chunks (stream r) ++ [error_marker e]) /\
    crud.messages_of (db w') (conv_id conversation) =
    crud.messages_of (db w) (conv_id conversation) ++ [user_msg] /\
    msg_role user_msg = "user"%string /\
    msg_content user_msg = message request.
Proof.
  intros Hwf Hfound Howner Hfail.
  destruct (streaming_prologue stream session_id request current_user w conversation
              Hwf Hfound Howner)
    as (um & w1 & c1 & r & Hrun & (Hr & Hc) & _ & _ & Hh1).
  rewrite Hrun. destruct (chat.failure (stream r)) as [e |] eqn:Hf.
  - rewrite (stream_generator_fails _ _ _ _ Hf).
    exists (chat.chunks (stream r) ++ [error_marker e]), w1, um. eauto 8.
  - now destruct (Hfail r).
Qed.

Lemma streaming_turn_failure_marks_and_saves_user_only_witness :
  wf_world sample_world = true /\
  conversation_handle (db sample_world) "conv-0af3" = Some sample_conversation /\
  exists forwarded w' user_msg,
    chat.send_message_streaming broken_stream "conv-0af3" hi alice sample_world =
    (Ok forwarded, w') /\
    (exists r e, chat.failure (broken_stream r) = Some e /\
                 forwarded = chat.chunks (broken_stream r) ++ [error_marker e]) /\
    crud.messages_of (db w') 1 = crud.messages_of (db sample_world) 1 ++ [user_msg] /\
    msg_role user_msg = "user"%string /\
    msg_content user_msg = "Hi"%string.
Proof.
  split; [reflexivity |]. split; [reflexivity |].
  apply (streaming_turn_failure_marks_and_saves_user_only
           broken_stream "conv-0af3" hi alice sample_world sample_conversation);
    try reflexivity.
  intros r. discriminate.
Defined.

(** ** Buffered turns *)

Section Buffered.

Import crud chat.

Lemma committed_by_nothing {A} (m : M A) w : snd (m w) = w -> committed_by m w = [].
Proof.
  unfold committed_by. intros ->. rewrite <- (app_nil_r (log w)) at 2.
  apply skipn_length_app.
Qed.

(** A failed inference call leaves the [try] as an [HTTPException]. *)
Lemma except_clauses_failure post history request :
  inference_fails
    (post (mkInferenceRequest history (max_tokens_or_default request)
                              (temperature_or_default request))) = true ->
  exists status_code detail,
    except_clauses (call_inference post history request) =
    Raise (HTTPException status_code detail) /\
    (status_code = 500 \/ status_code = 503 \/ status_code = 504).
Proof.
  unfold call_inference. destruct (post _) as [e | status_code body]; simpl.
  - intros _. destruct e; simpl; eauto 6.
  - intros ->. simpl. eauto 6.
Qed.

(** [send_message] never writes: every path ends in an exception before a
    commit. *)
Lemma send_message_never_writes post session_id request current_user w :
  exists e, send_message post session_id request current_user w = (Raise e, w).
Proof.
  unfold send_message, bind, get_conversation_by_session_id, query at 1. simpl.
  destruct (find _ _) as [c |]; [| unfold raise; eauto].
  destruct (negb _); [unfold raise; eauto |].
  unfold get_conversation_messages, query. simpl.
  destruct (except_clauses _) as [[content u] | e]; [| unfold raise; eauto].
  unfold save_both, create_message_pair, raise. eauto.
Qed.

(** After a 200 answer with a response text the route reaches step 4, and
    step 4 raises. *)
Lemma send_message_success post session_id request current_user w conversation :
  conversation_handle (db w) session_id = Some conversation ->
  conv_user_id conversation = user_id current_user ->
  (forall r, exists content u, post r = PostReturns 200 (Json (Some content) u)) ->
  send_message post session_id request current_user w =
  (Raise (AttributeError "module 'crud' has no attribute 'create_message_pair'"), w).
Proof.
  unfold conversation_handle. intros Hfound Howner Hok.
  unfold send_message, bind, get_conversation_by_session_id, query at 1. simpl.
  rewrite Hfound, Howner, Z.eqb_refl. simpl.
  unfold get_conversation_messages, query, call_inference. simpl.
  destruct (Hok (mkInferenceRequest
                   (message_history (messages_of (db w) (conv_id conversation)) ++
                    [("user"%string, message request)])
                   (max_tokens_or_default request) (temperature_or_default request)))
    as (content & u & ->).
  reflexivity.
Qed.

End Buffered.

(** C3: a buffered turn whose inference call fails (timeout, connection
    error, any other exception, or a status other than 200) ends in an
    [HTTPException] before any write: nothing is committed and the message
    list of the conversation is what it was. *)
Theorem buffered_turn_failure_writes_nothing
        (post : chat.InferenceRequest -> chat.PostOutcome) (session_id : string)
        (request : ChatRequest) (current_user : User) (w : World)
        (conversation : Conversation) :
  conversation_handle (db w) session_id = Some conversation ->
  conv_user_id conversation = user_id current_user ->
  (forall r, inference_fails (post r) = true) ->
  exists status_code detail w',
    chat.send_message post session_id request current_user w =
    (Raise (HTTPException status_code detail), w') /\
    (status_code = 500 \/ status_code = 503 \/ status_code = 504) /\
    w' = w /\
    committed_by (chat.send_message post session_id request current_user) w = [] /\
    crud.messages_of (db w') (conv_id conversation) =
    crud.messages_of (db w) (conv_id conversation) /\
    length (messages (db w')) = length (messages (db w)).
Proof.
  unfold conversation_handle. intros Hfound Howner Hfail.
  assert (Hrun : exists status_code detail,
             chat.send_message post session_id request current_user w =
             (Raise (HTTPException status_code detail), w) /\
             (status_code = 500 \/ status_code = 503 \/ status_code = 504)).
  { unfold chat.send_message, bind, crud.get_conversation_by_session_id, query at 1.
    simpl. rewrite Hfound, Howner, Z.eqb_refl. simpl.
    unfold crud.get_conversation_messages, query. simpl.
    destruct (except_clauses_failure post
                (chat.message_history (crud.messages_of (db w) (conv_id conversation)) ++
                 [("user"%string, message request)]) request (Hfail _))
      as (status_code & detail & -> & Hcode).
    unfold raise. eauto. }
  destruct Hrun as (status_code & detail & Hrun & Hcode).
  exists status_code, detail, w. repeat split; auto.
  apply committed_by_nothing. now rewrite Hrun.
Qed.

Lemma buffered_turn_failure_writes_nothing_witness :
  conversation_handle (db sample_world) "conv-0af3" = Some sample_conversation /\
  (forall r, inference_fails (timeout_post r) = true) /\
  exists status_code detail w',
    chat.send_message timeout_post "conv-0af3" hi alice sample_world =
    (Raise (HTTPException status_code detail), w') /\
    (status_code = 500 \/ status_code = 503 \/ status_code = 504) /\
    w' = sample_world /\
    committed_by (chat.send_message timeout_post "conv-0af3" hi alice) sample_world = [] /\
    crud.messages_of (db w') 1 = crud.messages_of (db sample_world) 1 /\
    length (messages (db w')) = length (messages (db sample_world)).
Proof.
  split; [reflexivity |]. split; [intros r; reflexivity |].
  apply (buffered_turn_failure_writes_nothing
           timeout_post "conv-0af3" hi alice sample_world sample_conversation).
  - reflexivity.
  - reflexivity.
  - intros r. reflexivity.
Defined.

(** C1, evaluated at a successful turn: the inference service answers 200
    with the text "Hello!" to the owner of the conversation.  The route
    raises [AttributeError] at step 4; no message is added to the store and
    none is returned. *)
Theorem buffered_turn_success_saves_nothing :
  chat.send_message hello_post "conv-0af3" hi alice sample_world =
  (Raise (AttributeError "module 'crud' has no attribute 'create_message_pair'"),
   sample_world) /\
  committed_by (chat.send_message hello_post "conv-0af3" hi alice) sample_world = [] /\
  map msg_role (crud.messages_of (db sample_world) 1) = ["system"%string].
Proof. repeat split; reflexivity. Qed.

(** C2, evaluated at a conversation of Alice requested by Bob: the buffered
    chat turn answers 403 "Access denied", and 404 "Conversation not found"
    for a handle that does not exist, so Bob can tell the two apart; the
    streaming turn, get, list and delete answer the same 404 in both cases. *)
Theorem buffered_turn_tells_not_owned_from_not_found :
  fst (chat.send_message hello_post "conv-0af3" hi bob sample_world) =
  Raise (HTTPException 403 "Access denied") /\
  fst (chat.send_message hello_post "conv-none" hi bob sample_world) =
  Raise (HTTPException 404 "Conversation not found") /\
  chat.send_message_streaming hello_stream "conv-0af3" hi bob sample_world =
  chat.send_message_streaming hello_stream "conv-none" hi bob sample_world /\
  conversations.get_conversation "conv-0af3" bob sample_world =
  conversations.get_conversation "conv-none" bob sample_world /\
  conversations.get_messages "conv-0af3" bob sample_world =
  conversations.get_messages "conv-none" bob sample_world /\
  conversations.delete_conversation "conv-0af3" bob sample_world =
  conversations.delete_conversation "conv-none" bob sample_world.
Proof. repeat split; reflexivity. Qed.

(** ** Ownership checks of the sibling routes *)

Section Ownership.

Variables (w : World) (session_id : string) (current_user : User).

(** The handle does not exist, or it is the handle of a conversation of
    somebody else. *)
Let hidden : Prop :=
  conversation_handle (db w) session_id = None \/
  exists c, conversation_handle (db w) session_id = Some c /\
            conv_user_id c <> user_id current_user.

Let answer_404 {A} : Result A * World :=
  (Raise (HTTPException 404 "Conversation not found"), w).

Ltac hide H :=
  unfold hidden, answer_404, conversation_handle in *;
  destruct H as [H | (c & H & Hne)];
  unfold bind, crud.get_conversation_by_session_id, query; simpl; rewrite H;
  [ reflexivity
  | apply Z.eqb_neq in Hne; rewrite Hne; reflexivity ].

Lemma get_conversation_hides :
  hidden -> conversations.get_conversation session_id current_user w = answer_404.
Proof. intros H. unfold conversations.get_conversation. hide H. Qed.

Lemma get_messages_hides :
  hidden -> conversations.get_messages session_id current_user w = answer_404.
Proof. intros H. unfold conversations.get_messages. hide H. Qed.

Lemma delete_conversation_hides :
  hidden -> conversations.delete_conversation session_id current_user w = answer_404.
Proof. intros H. unfold conversations.delete_conversation. hide H. Qed.

Lemma send_message_streaming_hides stream request :
  hidden ->
  chat.send_message_streaming stream session_id request current_user w = answer_404.
Proof. intros H. unfold chat.send_message_streaming. hide H. Qed.

(** The buffered turn answers the two cases differently. *)
Lemma send_message_not_owned post request c :
  conversation_handle (db w) session_id = Some c ->
  conv_user_id c <> user_id current_user ->
  chat.send_message post session_id request current_user w =
  (Raise (HTTPException 403 "Access denied"), w).
Proof.
  unfold conversation_handle. intros H Hne.
  unfold chat.send_message, bind, crud.get_conversation_by_session_id, query.
  simpl. rewrite H. apply Z.eqb_neq in Hne. now rewrite Hne.
Qed.

Lemma send_message_not_found post request :
  conversation_handle (db w) session_id = None ->
  chat.send_message post session_id request current_user w =
  (Raise (HTTPException 404 "Conversation not found"), w).
Proof.
  unfold conversation_handle. intros H.
  unfold chat.send_message, bind, crud.get_conversation_by_session_id, query.
  simpl. now rewrite H.
Qed.

End Ownership.

(** ** Conversation creation and the persona prompt *)

Section Creation.

Import crud.

Lemma row_of_next_key w :
  wf_world w = true -> conversation_row (db w) (conversations_seq (db w)) = None.
Proof.
  rewrite wf_world_spec. intros (_ & _ & _ & H). unfold conversation_row.
  induction H as [| c l Hc Hl IH]; simpl; auto.
  destruct (Z.eqb_spec (conv_id c) (conversations_seq (db w))); [lia | auto].
Qed.

Lemma wf_crud_create_conversation w user_id title uuid_hex :
  wf_world w = true ->
  wf_world (snd (create_conversation user_id title uuid_hex w)) = true.
Proof.
  intros Hwf.
  destruct (conversation_handle (db w) ("conv-" ++ uuid_hex)%string) as [c |] eqn:Hh.
  - destruct (create_conversation_duplicate _ user_id title _ _ Hh) as [e ->]. simpl.
    eapply wf_same_conversations; [| exact Hwf].
    unfold same_conversations. simpl. repeat split; auto; lia.
  - rewrite (create_conversation_run _ user_id title _ Hh). simpl.
    apply wf_world_spec in Hwf as (H1 & H2 & H3 & H4).
    apply wf_world_spec. simpl. repeat split.
    + eapply Forall_impl; [| exact H1]. simpl. intros; lia.
    + apply Forall_app. split.
      * eapply Forall_impl; [| exact H2]. simpl. intros; lia.
      * repeat constructor.
    + eapply Forall_impl; [| exact H3]. simpl. intros; lia.
    + apply Forall_app. split.
      * eapply Forall_impl; [| exact H4]. simpl. intros; lia.
      * repeat constructor. simpl. lia.
Qed.

(** The whole route on a fresh handle: three commits, the row first. *)
Lemma create_conversation_route_run w title current_user uuid_hex :
  wf_world w = true ->
  conversation_handle (db w) ("conv-" ++ uuid_hex)%string = None ->
  let key := conversations_seq (db w) in
  let t1 := (clock w + hd 0%nat (ticks w))%nat in
  let t2 := (t1 + hd 0%nat (tl (ticks w)))%nat in
  let t3 := (t2 + hd 0%nat (tl (tl (ticks w))))%nat in
  let t4 := (t3 + hd 0%nat (tl (tl (tl (ticks w)))))%nat in
  let c := mkConversation key (user_id current_user)
                          ("conv-" ++ uuid_hex)%string title t1 t2 in
  let d1 := mkDB (conversations (db w) ++ [c]) (messages (db w)) (goals (db w))
                 (goal_check_ins (db w)) (key + 1)
                 (messages_seq (db w)) (goals_seq (db w)) (goal_check_ins_seq (db w)) in
  let prompt := mkMessage (messages_seq (db w)) key "system" SYSTEM_PROMPT None t3 in
  let d2 := with_message d1 prompt in
  let d3 := touched d2 key t4 in
  conversations.create_conversation title current_user uuid_hex w =
  (Ok (mkConversationResponse key ("conv-" ++ uuid_hex)%string title t1 t4 1),
   mkWorld d3 (log w ++ [d1; d2; d3]) t4 (tl (tl (tl (tl (ticks w)))))).
Proof.
  intros Hwf Hfresh. intros.
  pose proof (row_of_next_key w Hwf) as Hnone.
  assert (Hrow1 : conversation_row d1 key = Some c).
  { unfold conversation_row in *. subst d1. simpl.
    rewrite (find_app_none _ _ _ Hnone). simpl. subst c. simpl.
    now rewrite Z.eqb_refl. }
  unfold conversations.create_conversation, bind.
  rewrite (create_conversation_run w (user_id current_user) title uuid_hex Hfresh).
  fold t1 t2 key c d1. cbv beta iota.
  change (conv_id c) with key.
  rewrite (create_message_run (mkWorld d1 (log w ++ [d1]) t2 (tl (tl (ticks w))))
             key "system"%string SYSTEM_PROMPT None c Hrow1).
  cbv beta iota zeta.
  unfold reload, bind, get_conversation_by_id, query, ret. cbn [db].
  change (conv_id c) with key.
  pose proof (touch_row key t4 _ _ Hrow1) as Hrow3.
  unfold conversation_row in Hrow3.
  cbn [db log clock ticks messages_seq hd tl conversations with_message touched
       set_conversations] in *.
  subst d3 d2 prompt. cbn [db log clock ticks messages_seq hd tl conversations
                           with_message touched set_conversations] in *.
  fold t3 t4. rewrite Hrow3. cbn. rewrite <- app_assoc. reflexivity.
Qed.

End Creation.

(** ** Every request keeps the persona prompt first *)

Section Requests.

Import crud.

Let inv (w : World) : Prop :=
  wf_world w = true /\ every_conversation_prompted (db w) = true.

Lemma inv_same_conversations w w' : same_conversations w w' -> inv w -> inv w'.
Proof.
  intros H [Hwf Hp]. split.
  - eapply wf_same_conversations; eauto.
  - eapply prompted_same_conversations; eauto.
Qed.

Lemma inv_create_message w conversation_id role content keywords :
  inv w -> inv (snd (create_message conversation_id role content keywords w)).
Proof.
  intros [Hwf Hp]. split.
  - now apply wf_create_message.
  - now apply prompted_create_message.
Qed.

(** *** Conversations *)

Lemma inv_create_conversation w title current_user uuid_hex :
  inv w -> inv (snd (conversations.create_conversation title current_user uuid_hex w)).
Proof.
  intros [Hwf Hp].
  destruct (conversation_handle (db w) ("conv-" ++ uuid_hex)%string) as [c |] eqn:Hh.
  - unfold conversations.create_conversation, bind.
    destruct (create_conversation_duplicate _ (user_id current_user) title _ _ Hh)
      as [e ->]. simpl.
    apply (inv_same_conversations w); [| split; auto].
    unfold same_conversations. simpl. repeat split; auto; lia.
  - split.
    + unfold conversations.create_conversation, bind.
      pose proof (wf_crud_create_conversation w (user_id current_user) title uuid_hex
                    Hwf) as Hwf1.
      destruct (create_conversation _ _ _ w) as [[c | e] w1]; simpl in *; auto.
      pose proof (wf_create_message w1 (conv_id c) "system"%string SYSTEM_PROMPT None
                    Hwf1) as Hwf2.
      destruct (create_message _ _ _ _ w1) as [[m | e] w2]; simpl in *; auto.
      unfold reload, bind, get_conversation_by_id, query. simpl.
      destruct (find _ _); auto.
    + rewrite (create_conversation_route_run w title current_user uuid_hex Hwf Hh).
      cbn [snd db]. unfold every_conversation_prompted, touched.
      cbn [conversations set_conversations with_message].
      apply prompted_touch. rewrite forallb_app. apply andb_true_iff. split.
      * revert Hp. apply forallb_weaken. intros x Hx.
        match goal with
        | |- context [with_message _ ?p] =>
            change (prompted (with_message (db w) p) x = true)
        end.
        eapply prompted_grows; [| exact Hx].
        rewrite messages_of_with_message.
        -- destruct (_ =? _); eauto. exists []. now rewrite app_nil_r.
        -- apply wf_world_spec in Hwf as (H1 & _).
           eapply Forall_impl; [| exact H1]. simpl. intros; lia.
      * simpl forallb. rewrite andb_true_r.
        match goal with
        | |- context [with_message _ ?p] =>
            change (match messages_of (with_message (db w) p) (conversations_seq (db w))
                    with m :: _ => is_system_prompt m | [] => false end = true)
        end.
        rewrite messages_of_with_message.
        -- cbn [msg_conversation_id]. rewrite Z.eqb_refl.
           rewrite (messages_of_next_key w Hwf). reflexivity.
        -- apply wf_world_spec in Hwf as (H1 & _).
           eapply Forall_impl; [| exact H1]. simpl. intros; lia.
Qed.

Lemma messages_of_after_delete d d' deleted kept :
  messages d' = filter (fun m => negb (msg_conversation_id m =? deleted)) (messages d) ->
  kept <> deleted ->
  messages_of d' kept = messages_of d kept.
Proof.
  intros H Hne. unfold messages_of. rewrite H. clear H. f_equal.
  induction (messages d) as [| m l IH]; simpl; auto.
  destruct (Z.eqb_spec (msg_conversation_id m) deleted) as [E | E]; simpl.
  - destruct (Z.eqb_spec (msg_conversation_id m) kept); [congruence | auto].
  - destruct (msg_conversation_id m =? kept); simpl; congruence.
Qed.

Lemma inv_crud_delete_conversation w session_id :
  inv w -> inv (snd (delete_conversation session_id w)).
Proof.
  intros [Hwf Hp].
  unfold delete_conversation, bind, get_conversation_by_session_id, query, commit, ret.
  simpl. destruct (find _ _) as [c |]; simpl; [| split; auto].
  split.
  - unfold wf_world in *. simpl.
    apply andb_true_iff in Hwf as [Hwf H4]. apply andb_true_iff in Hwf as [Hwf H3].
    apply andb_true_iff in Hwf as [H1 H2].
    rewrite !andb_true_iff. repeat split; now apply forallb_filter.
  - unfold every_conversation_prompted in *. simpl.
    apply forallb_forall. intros x Hx. apply filter_In in Hx as [Hin Hne].
    rewrite forallb_forall in Hp. specialize (Hp x Hin).
    unfold prompted in *.
    rewrite (messages_of_after_delete (db w) _ (conv_id c) (conv_id x)); auto.
    apply negb_true_iff in Hne. now apply Z.eqb_neq.
Qed.

Lemma inv_delete_conversation w session_id current_user :
  inv w -> inv (snd (conversations.delete_conversation session_id current_user w)).
Proof.
  intros Hinv.
  unfold conversations.delete_conversation, bind, get_conversation_by_session_id.
  unfold query at 1. simpl.
  destruct (find _ _) as [c |]; simpl; auto.
  destruct (negb _); simpl; auto.
  pose proof (inv_crud_delete_conversation w session_id Hinv) as H.
  destruct (delete_conversation session_id w) as [[b | e] w']; simpl in *; auto.
Qed.

Lemma get_conversation_reads w session_id current_user :
  snd (conversations.get_conversation session_id current_user w) = w.
Proof.
  unfold conversations.get_conversation, bind, get_conversation_by_session_id, query.
  simpl. destruct (find _ _) as [c |]; simpl; auto. destruct (negb _); auto.
Qed.

Lemma get_messages_reads w session_id current_user :
  snd (conversations.get_messages session_id current_user w) = w.
Proof.
  unfold conversations.get_messages, bind, get_conversation_by_session_id, query.
  simpl. destruct (find _ _) as [c |]; simpl; auto. destruct (negb _); auto.
Qed.

(** *** Chat turns *)

Lemma inv_send_message w post session_id request current_user :
  inv w -> inv (snd (chat.send_message post session_id request current_user w)).
Proof.
  destruct (send_message_never_writes post session_id request current_user w)
    as [e ->].
  auto.
Qed.

Lemma inv_stream_generator w upstream conversation :
  inv w -> inv (snd (chat.stream_generator upstream conversation w)).
Proof.
  intros Hinv. unfold chat.stream_generator.
  destruct (chat.forward _ _ _) as [full_response yielded].
  destruct (chat.failure upstream); simpl; auto.
  destruct (negb _); simpl; auto.
  unfold reload, bind, get_conversation_by_id, query. simpl.
  destruct (find _ _) as [c |]; simpl; auto.
  pose proof (inv_create_message w (conv_id c) "assistant"%string full_response None
                Hinv) as H.
  destruct (create_message _ _ _ _ w) as [[m | e] w']; simpl in *; auto.
Qed.

Lemma inv_send_message_streaming w stream session_id request current_user :
  inv w ->
  inv (snd (chat.send_message_streaming stream session_id request current_user w)).
Proof.
  intros Hinv.
  unfold chat.send_message_streaming, bind, get_conversation_by_session_id.
  unfold query at 1. simpl.
  destruct (find _ _) as [c |]; simpl; auto.
  destruct (negb _); simpl; auto.
  pose proof (inv_create_message w (conv_id c) "user"%string (message request) None
                Hinv) as H.
  destruct (create_message _ _ _ _ w) as [[m | e] w1]; simpl in *; auto.
  unfold reload, bind, get_conversation_by_id. unfold query at 1. simpl.
  destruct (find _ _) as [c1 |]; simpl; auto.
  now apply inv_stream_generator.
Qed.

End Requests.

(** ** Goals and check-ins *)

Section Goals.

Import crud.

Lemma bump_streak_row goal_id t gs g :
  find (fun x => g_id x =? goal_id) gs = Some g ->
  find (fun x => g_id x =? goal_id) (bump_streak goal_id t gs) =
  Some (mkGoal (g_id g) (goal_user_id g) (goal_title g) (goal_description g)
               (goal_target_date g) (goal_status g) (goal_streak_count g + 1)
               (goal_created_at g) t).
Proof.
  induction gs as [| x gs IH]; simpl; [discriminate |].
  destruct (g_id x =? goal_id) eqn:E; simpl.
  - intros [= ->]. now rewrite E.
  - rewrite E. exact IH.
Qed.

Lemma create_goal_checkin_run w goal_id progress_note completed g :
  goal_row (db w) goal_id = Some g ->
  let t1 := (clock w + hd 0%nat (ticks w))%nat in
  let t2 := (t1 + hd 0%nat (tl (ticks w)))%nat in
  let checkin :=
    mkGoalCheckIn (goal_check_ins_seq (db w)) goal_id t1 progress_note completed in
  let d1 := mkDB (conversations (db w)) (messages (db w)) (goals (db w))
                 (goal_check_ins (db w) ++ [checkin])
                 (conversations_seq (db w)) (messages_seq (db w)) (goals_seq (db w))
                 (goal_check_ins_seq (db w) + 1) in
  let d2 := set_goals d1 (bump_streak goal_id t2 (goals (db w))) in
  create_goal_checkin goal_id progress_note completed w =
  (Ok checkin,
   if completed then mkWorld d2 (log w ++ [d1; d2]) t2 (tl (tl (ticks w)))
   else mkWorld d1 (log w ++ [d1]) t1 (tl (ticks w))).
Proof.
  unfold goal_row. intros H.
  unfold create_goal_checkin, get_goal_by_id, bind, now, query, commit, ret. simpl.
  rewrite H. simpl. destruct completed; simpl; [| reflexivity].
  rewrite H. simpl. now rewrite <- app_assoc.
Qed.

(** An update or a deletion of a check-in writes the check-ins only. *)
Lemma update_checkin_goals w checkin_id progress_note completed :
  goals (db (snd (update_checkin checkin_id progress_note completed w))) = goals (db w).
Proof.
  unfold update_checkin, get_checkin_by_id, bind, query, commit, ret. simpl.
  destruct (find _ _); reflexivity.
Qed.

Lemma delete_checkin_goals w checkin_id :
  goals (db (snd (delete_checkin checkin_id w))) = goals (db w).
Proof.
  unfold delete_checkin, get_checkin_by_id, bind, query, commit, ret. simpl.
  destruct (find _ _); reflexivity.
Qed.

Lemma update_checkin_route_goals w goal_id checkin_id update_data current_user :
  goals (db (snd (goals.update_checkin goal_id checkin_id update_data current_user w))) =
  goals (db w).
Proof.
  unfold goals.update_checkin, bind, get_goal_by_id. unfold query at 1. simpl.
  destruct (find _ _) as [g |]; simpl; auto.
  destruct (negb _); simpl; auto.
  pose proof (update_checkin_goals w checkin_id (cu_progress_note update_data)
                (cu_completed update_data)) as H.
  destruct (update_checkin _ _ _ w) as [[[c |] | e] w']; simpl in *; auto.
Qed.

Lemma delete_checkin_route_goals w goal_id checkin_id current_user :
  goals (db (snd (goals.delete_checkin goal_id checkin_id current_user w))) =
  goals (db w).
Proof.
  unfold goals.delete_checkin, bind, get_goal_by_id. unfold query at 1. simpl.
  destruct (find _ _) as [g |]; simpl; auto.
  destruct (negb _); simpl; auto.
  pose proof (delete_checkin_goals w checkin_id) as H.
  destruct (delete_checkin _ w) as [[[|] | e] w']; simpl in *; auto.
Qed.

(** *** The goal routes leave conversations alone *)

Ltac frame :=
  unfold same_conversations; simpl; repeat split; auto; lia.

Lemma create_goal_frame w goal_data current_user :
  same_conversations w (snd (goals.create_goal goal_data current_user w)).
Proof.
  unfold goals.create_goal, create_goal, bind, now, query, commit, ret. frame.
Qed.

Lemma create_checkin_frame w goal_id checkin_data current_user :
  same_conversations w (snd (goals.create_checkin goal_id checkin_data current_user w)).
Proof.
  unfold goals.create_checkin, create_goal_checkin, get_goal_by_id, bind, now, query,
    commit, ret, goals.not_found, raise. simpl.
  destruct (find _ _) as [g |] eqn:E; simpl; [| frame].
  destruct (negb _); simpl; [frame |].
  rewrite E. simpl. destruct (cc_completed checkin_data); simpl; [| frame].
  rewrite E. frame.
Qed.

Lemma update_checkin_frame w goal_id checkin_id update_data current_user :
  same_conversations
    w (snd (goals.update_checkin goal_id checkin_id update_data current_user w)).
Proof.
  unfold goals.update_checkin, update_checkin, get_checkin_by_id, get_goal_by_id,
    bind, query, commit, ret, goals.not_found, raise. simpl.
  destruct (find _ (goals _)) as [g |]; simpl; [| frame].
  destruct (negb _); simpl; [frame |].
  destruct (find _ (goal_check_ins _)) as [c |]; simpl; [| frame].
  destruct (find _ _); frame.
Qed.

Lemma delete_checkin_frame w goal_id checkin_id current_user :
  same_conversations w (snd (goals.delete_checkin goal_id checkin_id current_user w)).
Proof.
  unfold goals.delete_checkin, delete_checkin, get_checkin_by_id, get_goal_by_id,
    bind, query, commit, ret, goals.not_found, raise. simpl.
  destruct (find _ (goals _)) as [g |]; simpl; [| frame].
  destruct (negb _); simpl; [frame |].
  destruct (find _ (goal_check_ins _)) as [c |]; frame.
Qed.

End Goals.

(** ** The service as a whole *)

Section Service.

Lemma serve_keeps_prompt w call :
  wf_world w = true /\ every_conversation_prompted (db w) = true ->
  wf_world (serve w call) = true /\ every_conversation_prompted (db (serve w call)) = true.
Proof.
  intros Hinv. destruct call as [current_user r]. destruct r; simpl.
  - now apply inv_create_conversation.
  - now rewrite get_conversation_reads.
  - now rewrite get_messages_reads.
  - now apply inv_delete_conversation.
  - now apply inv_send_message.
  - now apply inv_send_message_streaming.
  - eapply inv_same_conversations; [apply create_goal_frame | exact Hinv].
  - eapply inv_same_conversations; [apply create_checkin_frame | exact Hinv].
  - eapply inv_same_conversations; [apply update_checkin_frame | exact Hinv].
  - eapply inv_same_conversations; [apply delete_checkin_frame | exact Hinv].
Qed.

Lemma serve_all_keeps_prompt calls w :
  wf_world w = true /\ every_conversation_prompted (db w) = true ->
  wf_world (serve_all calls w) = true /\
  every_conversation_prompted (db (serve_all calls w)) = true.
Proof.
  revert w. induction calls as [| call calls IH]; intros w Hinv; simpl; auto.
  apply IH. now apply serve_keeps_prompt.
Qed.

(** Between requests, every conversation begins with the persona prompt. *)
Lemma reachable_prompted ticks calls :
  wf_world (serve_all calls (initial_world ticks)) = true /\
  every_conversation_prompted (db (serve_all calls (initial_world ticks))) = true.
Proof. apply serve_all_keeps_prompt. split; reflexivity. Qed.

End Service.

(** C8, amended: every call of [create_message] on an existing conversation
    commits the message first and then, in a second commit of its own, sets
    the parent's [updated_at] to a fresh reading of the clock, which is not
    earlier than the previous value nor than the creation time of the
    message, and is later whenever the clock has moved.  Between the two
    commits the new message is visible next to the previous [updated_at]. *)
Theorem create_message_touches_in_second_commit
        (w : World) (conversation_id : Z) (role content : string)
        (keywords : option (list string)) (before : Conversation) :
  wf_world w = true ->
  conversation_row (db w) conversation_id = Some before ->
  exists m w' d1 d2 after,
    crud.create_message conversation_id role content keywords w = (Ok m, w') /\
    committed_by (crud.create_message conversation_id role content keywords) w =
    [d1; d2] /\
    db w' = d2 /\
    In m (messages d1) /\ conversation_row d1 conversation_id = Some before /\
    In m (messages d2) /\ conversation_row d2 conversation_id = Some after /\
    conv_updated_at after = clock w' /\
    (conv_updated_at before <= msg_created_at m)%nat /\
    (msg_created_at m <= conv_updated_at after)%nat /\
    ((clock w < clock w')%nat -> (conv_updated_at before < conv_updated_at after)%nat).
Proof.
  intros Hwf Hrow.
  pose proof (create_message_run w conversation_id role content keywords before Hrow)
    as Hrun. cbv zeta in Hrun.
  unfold committed_by. rewrite Hrun. cbn [snd log]. rewrite skipn_length_app.
  assert (Hold : (conv_updated_at before <= clock w)%nat).
  { apply wf_world_spec in Hwf as (_ & H2 & _). apply row_in in Hrow as [Hin _].
    rewrite Forall_forall in H2. now apply H2. }
  eexists _, _, _, _, _. split; [reflexivity |]. split; [reflexivity |].
  split; [reflexivity |]. cbn [db clock].
  split; [apply in_or_app; right; left; reflexivity |].
  split; [exact Hrow |].
  split; [apply in_or_app; right; left; reflexivity |].
  split; [exact (touch_row _ _ _ _ Hrow) |].
  cbn [conv_updated_at msg_created_at]. repeat split; lia.
Qed.

Lemma create_message_touches_in_second_commit_witness :
  wf_world sample_world = true /\
  conversation_row (db sample_world) 1 = Some sample_conversation /\
  exists m w' d1 d2 after,
    crud.create_message 1 "user" "Hi" None sample_world = (Ok m, w') /\
    committed_by (crud.create_message 1 "user" "Hi" None) sample_world = [d1; d2] /\
    db w' = d2 /\
    In m (messages d1) /\ conversation_row d1 1 = Some sample_conversation /\
    In m (messages d2) /\ conversation_row d2 1 = Some after /\
    conv_updated_at after = clock w' /\
    (conv_updated_at sample_conversation <= msg_created_at m)%nat /\
    (msg_created_at m <= conv_updated_at after)%nat /\
    ((clock sample_world < clock w')%nat ->
     (conv_updated_at sample_conversation < conv_updated_at after)%nat).
Proof.
  split; [reflexivity |]. split; [reflexivity |].
  apply (create_message_touches_in_second_commit
           sample_world 1 "user"%string "Hi"%string None sample_conversation);
    reflexivity.
Defined.

(** C8 as stated fails: appending "Hi" to Alice's conversation commits a
    snapshot that holds the new message while [updated_at] is still 4. *)
Lemma create_message_seen_before_touch :
  ~ touch_atomic_with_insert sample_world 1 "user" "Hi" None.
Proof.
  unfold touch_atomic_with_insert. intros H.
  pose (m := mkMessage 2 1 "user" "Hi" None 5%nat).
  pose (d1 := with_message (db sample_world) m).
  specialize (H d1 m sample_conversation sample_conversation).
  assert (4 < 4)%nat; [| lia].
  apply H; try reflexivity.
  - left. reflexivity.
  - right. left. reflexivity.
Qed.

(** C9: a check-in created with [completed] true on an existing goal leaves
    the goal's streak count exactly one above what it was; a check-in
    created with [completed] false leaves it as it was. *)
Theorem checkin_creation_streak
        (w : World) (goal_id : Z) (progress_note : option string) (completed : bool)
        (goal : Goal) :
  goal_row (db w) goal_id = Some goal ->
  exists checkin w',
    crud.create_goal_checkin goal_id progress_note completed w = (Ok checkin, w') /\
    checkin_completed checkin = completed /\
    streak_of (db w') goal_id =
    Some (if completed then goal_streak_count goal + 1 else goal_streak_count goal).
Proof.
  intros Hrow.
  pose proof (create_goal_checkin_run w goal_id progress_note completed goal Hrow)
    as Hrun. cbv zeta in Hrun.
  eexists _, _. split; [exact Hrun |]. split; [reflexivity |].
  unfold streak_of, goal_row in *. destruct completed; cbn [db goals set_goals].
  - now rewrite (bump_streak_row _ _ _ _ Hrow).
  - now rewrite Hrow.
Qed.

Lemma checkin_creation_streak_witness :
  goal_row (db goal_world) 1 = Some sample_goal /\
  exists checkin w',
    crud.create_goal_checkin 1 None true goal_world = (Ok checkin, w') /\
    checkin_completed checkin = true /\
    streak_of (db w') 1 = Some (2 + 1).
Proof.
  split; [reflexivity |].
  apply (checkin_creation_streak goal_world 1 None true sample_goal).
  reflexivity.
Defined.

(** The same through the route, for the owner of the goal. *)
Lemma create_checkin_route_streak w goal_id checkin_data current_user goal :
  goal_row (db w) goal_id = Some goal ->
  goal_user_id goal = user_id current_user ->
  exists checkin w',
    goals.create_checkin goal_id checkin_data current_user w = (Ok checkin, w') /\
    streak_of (db w') goal_id =
    Some (if cc_completed checkin_data then goal_streak_count goal + 1
          else goal_streak_count goal).
Proof.
  intros Hrow Howner.
  pose proof (create_goal_checkin_run w goal_id (cc_progress_note checkin_data)
                (cc_completed checkin_data) goal Hrow) as Hrun. cbv zeta in Hrun.
  unfold goals.create_checkin, bind, crud.get_goal_by_id. unfold query at 1. simpl.
  unfold goal_row in Hrow. rewrite Hrow, Howner, Z.eqb_refl. simpl. rewrite Hrun.
  eexists _, _. split; [reflexivity |].
  unfold streak_of, goal_row. destruct (cc_completed checkin_data); cbn [db goals set_goals].
  - now rewrite (bump_streak_row _ _ _ _ Hrow).
  - now rewrite Hrow.
Qed.

(** C10: updating a check-in, even when the update flips its [completed]
    flag, and deleting a check-in leave the streak count of every goal as it
    was, through [crud] and through the routes alike. *)
Theorem checkin_update_and_delete_keep_streak
        (w : World) (goal_id checkin_id : Z) (progress_note : option string)
        (completed : option bool) (update_data : CheckInUpdate) (current_user : User)
        (any_goal : Z) :
  streak_of (db (snd (crud.update_checkin checkin_id progress_note completed w))) any_goal =
  streak_of (db w) any_goal /\
  streak_of (db (snd (crud.delete_checkin checkin_id w))) any_goal =
  streak_of (db w) any_goal /\
  streak_of (db (snd (goals.update_checkin goal_id checkin_id update_data current_user w)))
            any_goal =
  streak_of (db w) any_goal /\
  streak_of (db (snd (goals.delete_checkin goal_id checkin_id current_user w))) any_goal =
  streak_of (db w) any_goal.
Proof.
  unfold streak_of, goal_row.
  rewrite update_checkin_goals, delete_checkin_goals, update_checkin_route_goals,
    delete_checkin_route_goals.
  auto.
Qed.

(** A flip of the flag at Alice's second check-in, from true to false, is
    written and the streak stays at two. *)
Example checkin_flip_keeps_streak :
  let w' := snd (goals.update_checkin 1 2 (mkCheckInUpdate None (Some false)) alice
                                      goal_world) in
  option_map checkin_completed
             (find (fun c => ci_id c =? 2) (goal_check_ins (db goal_world))) = Some true /\
  option_map checkin_completed
             (find (fun c => ci_id c =? 2) (goal_check_ins (db w'))) = Some false /\
  streak_of (db w') 1 = Some 2.
Proof. repeat split; reflexivity. Qed.

(** ** Listings *)

Section SortFacts.

Import crud.

Context {A : Type} (key : A -> datetime).

Lemma insert_desc_perm x l : Permutation (insert_desc key x l) (x :: l).
Proof.
induction l as [| y l IH]; simpl; auto.
destruct (key y <? key x)%nat; auto.
rewrite IH. apply perm_swap.
Qed.

Lemma order_by_desc_snoc l x :
  order_by_desc key (l ++ [x]) = insert_desc key x (order_by_desc key l).
Proof. unfold order_by_desc. now rewrite fold_left_app. Qed.

Lemma order_by_desc_perm l : Permutation (order_by_desc key l) l.
Proof.
induction l as [| x l IH] using rev_ind; [constructor |].
rewrite order_by_desc_snoc, insert_desc_perm, IH.
apply Permutation_cons_append.
Qed.

Lemma insert_desc_sorted x l :
  newest_first key l -> newest_first key (insert_desc key x l).
Proof.
unfold newest_first. induction 1 as [| y l Hl IH Hy]; simpl.
- repeat constructor.
- destruct (Nat.ltb_spec (key y) (key x)).
  + constructor; [now constructor |]. constructor; [lia |].
    eapply Forall_impl; [| exact Hy]. simpl. intros; lia.
  + constructor; auto.
    eapply Permutation_Forall; [symmetry; apply insert_desc_perm |].
    constructor; auto.
Qed.

Lemma order_by_desc_sorted l : newest_first key (order_by_desc key l).
Proof.
induction l as [| x l IH] using rev_ind; [constructor |].
rewrite order_by_desc_snoc. now apply insert_desc_sorted.
Qed.


(** A prefix of a sorted list is sorted. *)
Lemma sorted_firstn (R : A -> A -> Prop) n l :
  StronglySorted R l -> StronglySorted R (firstn n l).
Proof.
intros H. revert n. induction H as [| x l Hl IH Hx]; intros [| n]; simpl;
  try constructor; auto.
rewrite Forall_forall in *. intros y Hy. apply Hx.
rewrite <- (firstn_skipn n l). apply in_or_app. now left.
Qed.

End SortFacts.

Section ChronologicalFacts.

Import crud.

Lemma insert_by_created_at_perm m l : Permutation (insert_by_created_at m l) (m :: l).
Proof.
induction l as [| y l IH]; simpl; auto.
destruct (msg_created_at m <? msg_created_at y)%nat; auto.
rewrite IH. apply perm_swap.
Qed.

Lemma order_by_created_at_perm l : Permutation (order_by_created_at l) l.
Proof.
induction l as [| x l IH] using rev_ind; [constructor |].
rewrite order_by_created_at_snoc, insert_by_created_at_perm, IH.
apply Permutation_cons_append.
Qed.

Lemma insert_by_created_at_sorted m l :
  oldest_first msg_created_at l -> oldest_first msg_created_at (insert_by_created_at m l).
Proof.
unfold oldest_first. induction 1 as [| y l Hl IH Hy]; simpl.
- repeat constructor.
- destruct (Nat.ltb_spec (msg_created_at m) (msg_created_at y)).
  + constructor; [now constructor |]. constructor; [lia |].
    eapply Forall_impl; [| exact Hy]. simpl. intros; lia.
  + constructor; auto.
    eapply Permutation_Forall; [symmetry; apply insert_by_created_at_perm |].
    constructor; auto.
Qed.

Lemma order_by_created_at_sorted l : oldest_first msg_created_at (order_by_created_at l).
Proof.
induction l as [| x l IH] using rev_ind; [constructor |].
rewrite order_by_created_at_snoc. now apply insert_by_created_at_sorted.
Qed.

Lemma messages_of_In d conversation_id m :
  In m (messages_of d conversation_id) <->
  In m (messages d) /\ msg_conversation_id m = conversation_id.
Proof.
unfold messages_of.
transitivity (In m (filter (fun x => msg_conversation_id x =? conversation_id)
                           (messages d))).
- split; apply Permutation_in; [| symmetry]; apply order_by_created_at_perm.
- rewrite filter_In. now rewrite Z.eqb_eq.
Qed.

Lemma sorted_map {A B} (f : A -> B) (R : B -> B -> Prop) l :
  StronglySorted (fun a b => R (f a) (f b)) l -> StronglySorted R (map f l).
Proof.
induction 1 as [| x l Hl IH Hx]; simpl; constructor; auto.
rewrite Forall_forall in *. intros y Hy. apply in_map_iff in Hy as (z & <- & Hz). auto.
Qed.

End ChronologicalFacts.

Section ListingRuns.

Import crud.

Lemma conv_responses_run cs w :
  conversations.conv_responses cs w = (Ok (map (conversation_response (db w)) cs), w).
Proof.
induction cs as [| c cs IH]; [reflexivity |].
simpl. unfold bind, get_conversation_messages, query. simpl. now rewrite IH.
Qed.

Lemma limit_to_run {A} (limit : Z) (rows : list A) w :
  0 <= limit <= 9223372036854775807 ->
  limit_to limit rows w = (Ok (firstn (Z.to_nat limit) rows), w).
Proof.
intros H. unfold limit_to. destruct (Z.ltb_spec limit 0); [lia |].
destruct (Z.ltb_spec 9223372036854775807 limit); [lia | reflexivity].
Qed.

(** Out of that range the statement fails. *)
Lemma limit_to_refuses {A} (limit : Z) (rows : list A) w :
  limit < 0 \/ 9223372036854775807 < limit ->
  exists e, limit_to limit rows w = (Raise e, w).
Proof.
intros H. unfold limit_to. destruct (Z.ltb_spec limit 0); [unfold raise; eauto |].
destruct (Z.ltb_spec 9223372036854775807 limit); [unfold raise; eauto | lia].
Qed.

(** The first [n] rows of a listing and the rows it leaves out. *)
Lemma length_firstn_min {A} n (l l' : list A) :
  Permutation l l' -> length (firstn n l) = Nat.min n (length l').
Proof. intros H. rewrite length_firstn. now rewrite (Permutation_length H). Qed.

End ListingRuns.

(** X1: the owner of a conversation who lists its messages gets every
    message of that conversation and no other, oldest first, and the store
    is left as it was. *)
Theorem get_messages_chronological
        (w : World) (session_id : string) (current_user : User) (c : Conversation) :
  conversation_handle (db w) session_id = Some c ->
  conv_user_id c = user_id current_user ->
  exists l,
    conversations.get_messages session_id current_user w = (Ok l, w) /\
    oldest_first mr_created_at l /\
    length l = length (filter (fun m => msg_conversation_id m =? conv_id c)
                              (messages (db w))) /\
    (forall r, In r l <->
               exists m, In m (messages (db w)) /\ msg_conversation_id m = conv_id c /\
                         r = message_response m).
Proof.
unfold conversation_handle. intros Hfound Howner.
unfold conversations.get_messages, bind, crud.get_conversation_by_session_id,
  crud.get_conversation_messages, query. simpl.
rewrite Hfound, Howner, Z.eqb_refl. simpl.
eexists. split; [reflexivity |]. split; [| split].
- apply sorted_map. apply order_by_created_at_sorted.
- rewrite length_map. unfold crud.messages_of.
  apply Permutation_length, order_by_created_at_perm.
- intros r. rewrite in_map_iff. split.
  + intros (m & <- & Hm). apply messages_of_In in Hm as [Hin Hid]. eauto.
  + intros (m & Hin & Hid & ->). exists m. split; auto.
    apply messages_of_In. auto.
Qed.

Lemma get_messages_chronological_witness :
  conversation_handle (db sample_world) "conv-0af3" = Some sample_conversation /\
  exists l,
    conversations.get_messages "conv-0af3" alice sample_world = (Ok l, sample_world) /\
    oldest_first mr_created_at l /\
    length l = length (filter (fun m => msg_conversation_id m =? 1)
                              (messages (db sample_world))) /\
    (forall r, In r l <->
               exists m, In m (messages (db sample_world)) /\
                         msg_conversation_id m = 1 /\ r = message_response m).
Proof.
split; [reflexivity |].
apply (get_messages_chronological sample_world "conv-0af3" alice sample_conversation);
  reflexivity.
Defined.

(** X2: listing conversations with a limit from 0 to the largest 64-bit
    integer answers with the first [limit] of the caller's conversations in
    order of their last update, newest first: the conversations listed,
    followed by those left out, are exactly the conversations of the caller,
    each once, and no one is updated later than one before it.  Each comes
    with the number of its messages; [total] counts the ones listed, which
    is [limit] or, when the caller has fewer, all of them.  The store is
    left as it was. *)
Theorem list_conversations_own_newest_first
        (w : World) (limit : Z) (current_user : User) :
  0 <= limit <= 9223372036854775807 ->
  exists rows rest resp,
    conversations.list_conversations limit current_user w = (Ok resp, w) /\
    cl_conversations resp = map (conversation_response (db w)) rows /\
    cl_total resp = length rows /\
    length rows =
    Nat.min (Z.to_nat limit)
            (length (filter (fun c => conv_user_id c =? user_id current_user)
                            (conversations (db w)))) /\
    Permutation (rows ++ rest)
                (filter (fun c => conv_user_id c =? user_id current_user)
                        (conversations (db w))) /\
    newest_first conv_updated_at (rows ++ rest) /\
    newest_first cr_updated_at (cl_conversations resp).
Proof.
intros Hlimit.
unfold conversations.list_conversations, crud.get_user_conversations, bind.
unfold query at 1. cbn [fst snd].
rewrite limit_to_run by exact Hlimit. rewrite conv_responses_run.
set (mine := filter (fun c => conv_user_id c =? user_id current_user)
                    (conversations (db w))).
set (sorted := crud.order_by_desc conv_updated_at mine).
assert (Hsorted : newest_first conv_updated_at sorted)
  by apply order_by_desc_sorted.
exists (firstn (Z.to_nat limit) sorted), (skipn (Z.to_nat limit) sorted).
eexists. split; [reflexivity |]. cbn [cl_total cl_conversations].
split; [reflexivity |]. split; [apply length_map |].
split; [apply length_firstn_min, order_by_desc_perm |].
rewrite firstn_skipn. split; [apply order_by_desc_perm |].
split; [exact Hsorted |].
apply sorted_map. cbn [conversation_response cr_updated_at].
now apply sorted_firstn.
Qed.

Lemma list_conversations_own_newest_first_witness :
  0 <= 50 <= 9223372036854775807 /\
  exists rows rest resp,
    conversations.list_conversations 50 alice sample_world = (Ok resp, sample_world) /\
    cl_conversations resp = map (conversation_response (db sample_world)) rows /\
    cl_total resp = length rows /\
    length rows =
    Nat.min (Z.to_nat 50)
            (length (filter (fun c => conv_user_id c =? user_id alice)
                            (conversations (db sample_world)))) /\
    Permutation (rows ++ rest)
                (filter (fun c => conv_user_id c =? user_id alice)
                        (conversations (db sample_world))) /\
    newest_first conv_updated_at (rows ++ rest) /\
    newest_first cr_updated_at (cl_conversations resp).
Proof.
split; [lia |].
apply (list_conversations_own_newest_first sample_world 50 alice). lia.
Defined.

(** A limit outside that range is refused when the statement runs: the
    listing raises, and the store is left as it was. *)
Lemma list_conversations_refuses_limit w limit current_user :
  limit < 0 \/ 9223372036854775807 < limit ->
  exists e, conversations.list_conversations limit current_user w = (Raise e, w).
Proof.
intros Hlimit.
unfold conversations.list_conversations, crud.get_user_conversations, bind.
unfold query at 1. cbn [fst snd].
match goal with
| |- context [crud.limit_to limit ?rows w] =>
    destruct (limit_to_refuses limit rows w Hlimit) as [e ->]
end.
eauto.
Qed.


(** X4: the owner of a goal who lists its check-ins with a limit from 0 to
    the largest 64-bit integer gets the first [limit] check-ins of that goal
    in order of their date, newest first: the check-ins listed, followed by
    those left out, are exactly the check-ins of the goal, each once, and no
    one is newer than one before it.  [total] counts the ones listed, which
    is [limit] or, when the goal has fewer, all of them.  The store is left
    as it was. *)
Theorem list_checkins_newest_first
        (w : World) (goal_id limit : Z) (current_user : User) (goal : Goal) :
  goal_row (db w) goal_id = Some goal ->
  goal_user_id goal = user_id current_user ->
  0 <= limit <= 9223372036854775807 ->
  exists rest resp,
    goals.list_checkins goal_id limit current_user w = (Ok resp, w) /\
    cil_total resp = length (cil_check_ins resp) /\
    length (cil_check_ins resp) =
    Nat.min (Z.to_nat limit)
            (length (filter (fun c => checkin_goal_id c =? goal_id)
                            (goal_check_ins (db w)))) /\
    Permutation (cil_check_ins resp ++ rest)
                (filter (fun c => checkin_goal_id c =? goal_id)
                        (goal_check_ins (db w))) /\
    newest_first checkin_check_in_date (cil_check_ins resp ++ rest).
Proof.
unfold goal_row. intros Hrow Howner Hlimit.
unfold goals.list_checkins, crud.get_goal_checkins, crud.get_goal_by_id, bind.
unfold query at 1. cbn [fst snd]. rewrite Hrow, Howner, Z.eqb_refl. cbn [negb].
unfold query. cbn [fst snd]. rewrite limit_to_run by exact Hlimit.
set (sorted := crud.order_by_desc checkin_check_in_date
                 (filter (fun c => checkin_goal_id c =? goal_id)
                         (goal_check_ins (db w)))).
exists (skipn (Z.to_nat limit) sorted).
eexists. split; [reflexivity |]. cbn [cil_total cil_check_ins].
split; [reflexivity |].
split; [apply length_firstn_min, order_by_desc_perm |].
rewrite firstn_skipn. split; [apply order_by_desc_perm |].
apply order_by_desc_sorted.
Qed.

Lemma list_checkins_newest_first_witness :
  goal_row (db goal_world) 1 = Some sample_goal /\
  goal_user_id sample_goal = user_id alice /\
  0 <= 1 <= 9223372036854775807 /\
  exists rest resp,
    goals.list_checkins 1 1 alice goal_world = (Ok resp, goal_world) /\
    cil_total resp = length (cil_check_ins resp) /\
    length (cil_check_ins resp) =
    Nat.min (Z.to_nat 1)
            (length (filter (fun c => checkin_goal_id c =? 1)
                            (goal_check_ins (db goal_world)))) /\
    Permutation (cil_check_ins resp ++ rest)
                (filter (fun c => checkin_goal_id c =? 1)
                        (goal_check_ins (db goal_world))) /\
    newest_first checkin_check_in_date (cil_check_ins resp ++ rest).
Proof.
split; [reflexivity |]. split; [reflexivity |]. split; [lia |].
apply (list_checkins_newest_first goal_world 1 1 alice sample_goal);
  [reflexivity | reflexivity | lia].
Defined.

(** A limit outside that range is refused when the statement runs. *)
Lemma list_checkins_refuses_limit w goal_id limit current_user goal :
  goal_row (db w) goal_id = Some goal ->
  goal_user_id goal = user_id current_user ->
  limit < 0 \/ 9223372036854775807 < limit ->
  exists e, goals.list_checkins goal_id limit current_user w = (Raise e, w).
Proof.
unfold goal_row. intros Hrow Howner Hlimit.
unfold goals.list_checkins, crud.get_goal_checkins, crud.get_goal_by_id, bind.
unfold query at 1. cbn [fst snd]. rewrite Hrow, Howner, Z.eqb_refl. cbn [negb].
unfold query. cbn [fst snd].
match goal with
| |- context [crud.limit_to limit ?rows w] =>
    destruct (limit_to_refuses limit rows w Hlimit) as [e ->]
end.
eauto.
Qed.

(** ** The goal routes *)

Section GoalRoutes.

Import crud.

Lemma find_filter_gone {A} (k : A -> Z) d (l : list A) :
  find (fun x => k x =? d) (filter (fun x => negb (k x =? d)) l) = None.
Proof.
induction l as [| x l IH]; simpl; auto.
destruct (k x =? d) eqn:E; simpl; auto. now rewrite E.
Qed.

Lemma find_filter_other {A} (k : A -> Z) d o (l : list A) :
  o <> d ->
  find (fun x => k x =? o) (filter (fun x => negb (k x =? d)) l) =
  find (fun x => k x =? o) l.
Proof.
intros Hne. induction l as [| x l IH]; simpl; auto.
destruct (Z.eqb_spec (k x) d) as [E | E]; simpl.
- destruct (Z.eqb_spec (k x) o); [congruence | auto].
- destruct (k x =? o); auto.
Qed.

Lemma goal_row_id d goal_id g : goal_row d goal_id = Some g -> g_id g = goal_id.
Proof.
unfold goal_row. intros H. apply find_some in H as [_ H]. now apply Z.eqb_eq.
Qed.

Lemma write_goal_row goal_id f gs g :
  (forall x, g_id (f x) = g_id x) ->
  find (fun x => g_id x =? goal_id) gs = Some g ->
  find (fun x => g_id x =? goal_id) (write_goal goal_id f gs) = Some (f g).
Proof.
intros Hf. induction gs as [| x gs IH]; simpl; [discriminate |].
destruct (g_id x =? goal_id) eqn:E; simpl.
- intros [= ->]. now rewrite Hf, E.
- rewrite E. exact IH.
Qed.

Lemma write_goal_other goal_id other f gs :
  (forall x, g_id (f x) = g_id x) ->
  other <> goal_id ->
  find (fun x => g_id x =? other) (write_goal goal_id f gs) =
  find (fun x => g_id x =? other) gs.
Proof.
intros Hf Hne. induction gs as [| x gs IH]; simpl; auto.
destruct (Z.eqb_spec (g_id x) goal_id) as [E | E]; simpl.
- rewrite Hf. destruct (Z.eqb_spec (g_id x) other); [congruence | auto].
- destruct (g_id x =? other); auto.
Qed.

Lemma write_checkin_row checkin_id progress_note completed cis c :
  find (fun x => ci_id x =? checkin_id) cis = Some c ->
  find (fun x => ci_id x =? checkin_id)
       (write_checkin checkin_id progress_note completed cis) =
  Some (mkGoalCheckIn (ci_id c) (checkin_goal_id c) (checkin_check_in_date c)
          (match progress_note with Some n => Some n | None => checkin_progress_note c end)
          (match completed with Some b => b | None => checkin_completed c end)).
Proof.
induction cis as [| x cis IH]; simpl; [discriminate |].
destruct (ci_id x =? checkin_id) eqn:E; simpl.
- intros [= ->]. now rewrite E.
- rewrite E. exact IH.
Qed.

(** The keys of a goal that no update writes. *)
Lemma setattr_keeps items g :
  g_id (fold_left setattr items g) = g_id g /\
  goal_user_id (fold_left setattr items g) = goal_user_id g /\
  goal_streak_count (fold_left setattr items g) = goal_streak_count g /\
  goal_created_at (fold_left setattr items g) = goal_created_at g.
Proof.
revert g. induction items as [| i items IH]; intros g; simpl; auto.
destruct (IH (setattr g i)) as (H1 & H2 & H3 & H4).
rewrite H1, H2, H3, H4. destruct i as [[v |] | [v |] | [v |] | [v |]]; simpl; auto.
Qed.

End GoalRoutes.

(** X5: every goal route answers 404 "Goal not found", and leaves the store
    as it was, both when the goal does not exist and when it is the goal of
    another user. *)
Theorem goal_routes_hide_foreign_goals
        (w : World) (goal_id : Z) (current_user : User)
        (update_data : GoalUpdate) (checkin_data : CheckInCreate)
        (checkin_update : CheckInUpdate) (checkin_id limit : Z) :
  goal_hidden (db w) goal_id current_user ->
  goals.get_goal goal_id current_user w =
  (Raise (HTTPException 404 "Goal not found"), w) /\
  goals.update_goal goal_id update_data current_user w =
  (Raise (HTTPException 404 "Goal not found"), w) /\
  goals.delete_goal goal_id current_user w =
  (Raise (HTTPException 404 "Goal not found"), w) /\
  goals.create_checkin goal_id checkin_data current_user w =
  (Raise (HTTPException 404 "Goal not found"), w) /\
  goals.list_checkins goal_id limit current_user w =
  (Raise (HTTPException 404 "Goal not found"), w) /\
  goals.update_checkin goal_id checkin_id checkin_update current_user w =
  (Raise (HTTPException 404 "Goal not found"), w) /\
  goals.delete_checkin goal_id checkin_id current_user w =
  (Raise (HTTPException 404 "Goal not found"), w).
Proof.
unfold goal_hidden, goal_row. intros H.
unfold goals.get_goal, goals.update_goal, goals.delete_goal, goals.create_checkin,
  goals.list_checkins, goals.update_checkin, goals.delete_checkin, bind,
  crud.get_goal_by_id.
unfold query at 1 2 3 4 5 6 7. cbn [fst snd db].
destruct H as [H | (g & H & Hne)]; rewrite H.
- repeat split; reflexivity.
- apply Z.eqb_neq in Hne. rewrite Hne. repeat split; reflexivity.
Qed.

Lemma goal_routes_hide_foreign_goals_witness :
  goal_hidden (db goal_world) 1 bob /\
  goals.get_goal 1 bob goal_world =
  (Raise (HTTPException 404 "Goal not found"), goal_world) /\
  goals.update_goal 1 (mkGoalUpdate (Some (Some "Walk"%string)) None None None) bob
                    goal_world =
  (Raise (HTTPException 404 "Goal not found"), goal_world) /\
  goals.delete_goal 1 bob goal_world =
  (Raise (HTTPException 404 "Goal not found"), goal_world) /\
  goals.create_checkin 1 (mkCheckInCreate None true) bob goal_world =
  (Raise (HTTPException 404 "Goal not found"), goal_world) /\
  goals.list_checkins 1 30 bob goal_world =
  (Raise (HTTPException 404 "Goal not found"), goal_world) /\
  goals.update_checkin 1 1 (mkCheckInUpdate None (Some false)) bob goal_world =
  (Raise (HTTPException 404 "Goal not found"), goal_world) /\
  goals.delete_checkin 1 1 bob goal_world =
  (Raise (HTTPException 404 "Goal not found"), goal_world).
Proof.
assert (H : goal_hidden (db goal_world) 1 bob).
{ right. exists sample_goal. split; [reflexivity | discriminate]. }
split; [exact H |].
apply (goal_routes_hide_foreign_goals goal_world 1 bob). exact H.
Defined.

(** X6: the check-in routes check who owns the goal of the path, and not that
    the check-in belongs to that goal: the owner of any goal can delete, and
    can rewrite, any check-in by its id. *)
Theorem checkin_routes_ignore_goal_of_checkin
        (w : World) (goal_id checkin_id : Z) (current_user : User)
        (goal : Goal) (checkin : GoalCheckIn) (completed : bool) :
  goal_row (db w) goal_id = Some goal ->
  goal_user_id goal = user_id current_user ->
  checkin_row (db w) checkin_id = Some checkin ->
  (exists w',
      goals.delete_checkin goal_id checkin_id current_user w = (Ok tt, w') /\
      checkin_row (db w') checkin_id = None) /\
  (exists written w',
      goals.update_checkin goal_id checkin_id (mkCheckInUpdate None (Some completed))
                           current_user w = (Ok written, w') /\
      checkin_row (db w') checkin_id = Some written /\
      checkin_goal_id written = checkin_goal_id checkin /\
      checkin_completed written = completed).
Proof.
unfold goal_row, checkin_row. intros Hgoal Howner Hci. split.
- unfold goals.delete_checkin, crud.delete_checkin, crud.get_checkin_by_id,
    crud.get_goal_by_id, bind, query, commit, ret. cbn [fst snd db].
  rewrite Hgoal, Howner, Z.eqb_refl. cbn [negb]. rewrite Hci. cbn.
  eexists. split; [reflexivity |]. apply find_filter_gone.
- unfold goals.update_checkin, crud.update_checkin, crud.get_checkin_by_id,
    crud.get_goal_by_id, bind, query, commit, ret. cbn [fst snd db].
  rewrite Hgoal, Howner, Z.eqb_refl. cbn [negb]. rewrite Hci.
  cbn [fst snd db goal_check_ins set_goal_check_ins cu_progress_note cu_completed].
  rewrite (write_checkin_row _ None (Some completed) _ _ Hci).
  eexists _, _. split; [reflexivity |]. cbn [db goal_check_ins].
  split; [apply (write_checkin_row _ None (Some completed) _ _ Hci) |].
  split; reflexivity.
Qed.

(** Bob, who owns goal 2, deletes and rewrites the check-in of Alice's goal 1. *)
Lemma checkin_routes_ignore_goal_of_checkin_witness :
  goal_row (db shared_world) 2 = Some bob_goal /\
  checkin_row (db shared_world) 1 = Some alice_checkin /\
  checkin_goal_id alice_checkin <> 2 /\
  (exists w',
      goals.delete_checkin 2 1 bob shared_world = (Ok tt, w') /\
      checkin_row (db w') 1 = None) /\
  (exists written w',
      goals.update_checkin 2 1 (mkCheckInUpdate None (Some false)) bob shared_world =
      (Ok written, w') /\
      checkin_row (db w') 1 = Some written /\
      checkin_goal_id written = checkin_goal_id alice_checkin /\
      checkin_completed written = false).
Proof.
split; [reflexivity |]. split; [reflexivity |]. split; [discriminate |].
apply (checkin_routes_ignore_goal_of_checkin shared_world 2 1 bob bob_goal alice_checkin
         false); reflexivity.
Defined.

(** X7: an update of a check-in writes the progress note and the completed
    flag that are given and keeps the ones that are [None], so a note cannot
    be cleared; the id, the goal and the date of the check-in stay, and no
    other check-in changes. *)
Theorem update_checkin_writes_given_fields
        (w : World) (checkin_id : Z) (progress_note : option string)
        (completed : option bool) (checkin : GoalCheckIn) :
  checkin_row (db w) checkin_id = Some checkin ->
  exists written w',
    crud.update_checkin checkin_id progress_note completed w = (Ok (Some written), w') /\
    checkin_row (db w') checkin_id = Some written /\
    checkin_progress_note written =
      match progress_note with Some n => Some n | None => checkin_progress_note checkin end /\
    checkin_completed written =
      match completed with Some b => b | None => checkin_completed checkin end /\
    ci_id written = ci_id checkin /\
    checkin_goal_id written = checkin_goal_id checkin /\
    checkin_check_in_date written = checkin_check_in_date checkin /\
    (forall other, other <> checkin_id ->
                   checkin_row (db w') other = checkin_row (db w) other).
Proof.
unfold checkin_row. intros Hci.
unfold crud.update_checkin, crud.get_checkin_by_id, bind, query, commit, ret.
cbn [fst snd db]. rewrite Hci. cbn [fst snd db goal_check_ins set_goal_check_ins].
rewrite (write_checkin_row _ progress_note completed _ _ Hci).
eexists _, _. split; [reflexivity |]. cbn [db goal_check_ins].
split; [apply (write_checkin_row _ progress_note completed _ _ Hci) |].
repeat split.
intros other Hne. clear Hci.
induction (goal_check_ins (db w)) as [| x l IH]; simpl; auto.
destruct (Z.eqb_spec (ci_id x) checkin_id) as [E | E]; simpl.
- destruct (Z.eqb_spec (ci_id x) other); [congruence | reflexivity].
- destruct (ci_id x =? other); auto.
Qed.

Lemma update_checkin_writes_given_fields_witness :
  checkin_row (db shared_world) 1 = Some alice_checkin /\
  exists written w',
    crud.update_checkin 1 None (Some false) shared_world = (Ok (Some written), w') /\
    checkin_row (db w') 1 = Some written /\
    checkin_progress_note written = Some "5k"%string /\
    checkin_completed written = false /\
    ci_id written = 1 /\
    checkin_goal_id written = 1 /\
    checkin_check_in_date written = 3%nat /\
    (forall other, other <> 1 ->
                   checkin_row (db w') other = checkin_row (db shared_world) other).
Proof.
split; [reflexivity |].
apply (update_checkin_writes_given_fields shared_world 1 None (Some false) alice_checkin).
reflexivity.
Defined.

(** X8: for its owner, an update of a goal writes the title, description,
    target date and status that are set to a value and keeps the ones that
    are unset or null; it sets [updated_at] to the time of the update and
    never changes the id, the owner, the streak count or the creation time. *)
Theorem update_goal_writes_given_fields
        (w : World) (goal_id : Z) (update_data : GoalUpdate) (current_user : User)
        (goal : Goal) :
  goal_row (db w) goal_id = Some goal ->
  goal_user_id goal = user_id current_user ->
  exists written w',
    goals.update_goal goal_id update_data current_user w = (Ok written, w') /\
    goal_row (db w') goal_id = Some written /\
    goal_title written =
      match gu_title update_data with Some (Some v) => v | _ => goal_title goal end /\
    goal_description written =
      match gu_description update_data with
      | Some (Some v) => Some v
      | _ => goal_description goal
      end /\
    goal_target_date written =
      match gu_target_date update_data with
      | Some (Some v) => Some v
      | _ => goal_target_date goal
      end /\
    goal_status written =
      match gu_status update_data with Some (Some v) => v | _ => goal_status goal end /\
    goal_updated_at written = clock w' /\
    g_id written = g_id goal /\
    goal_user_id written = goal_user_id goal /\
    goal_streak_count written = goal_streak_count goal /\
    goal_created_at written = goal_created_at goal.
Proof.
unfold goal_row. intros Hrow Howner.
set (items := model_dump_exclude_unset update_data).
set (t := (clock w + hd 0%nat (ticks w))%nat).
set (f := fun g => crud.set_updated_at (fold_left crud.setattr items g) t).
assert (Hf : forall x, g_id (f x) = g_id x).
{ intros x. unfold f. simpl. apply setattr_keeps. }
pose proof (write_goal_row goal_id f _ _ Hf Hrow) as Hrow'.
unfold goals.update_goal, crud.update_goal, crud.get_goal_by_id, bind, now, query,
  commit, ret. cbn [fst snd db].
rewrite Hrow, Howner, Z.eqb_refl. cbn [negb]. rewrite Hrow.
cbn [fst snd db goals set_goals clock]. fold items t f. rewrite Hrow'.
eexists _, _. split; [reflexivity |]. cbn [db goals clock].
split; [exact Hrow' |].
clear Hrow' Hf. subst f items. unfold model_dump_exclude_unset.
destruct update_data as [[[ti |] |] [[de |] |] [[ta |] |] [[st |] |]];
  cbn; repeat split; first [reflexivity | exact Howner].
Qed.

Lemma update_goal_writes_given_fields_witness :
  goal_row (db goal_world) 1 = Some sample_goal /\
  exists written w',
    goals.update_goal 1 (mkGoalUpdate (Some (Some "Walk"%string)) (Some None) None
                                      (Some (Some "completed"%string)))
                      alice goal_world = (Ok written, w') /\
    goal_row (db w') 1 = Some written /\
    goal_title written = "Walk"%string /\
    goal_description written = None /\
    goal_target_date written = None /\
    goal_status written = "completed"%string /\
    goal_updated_at written = clock w' /\
    g_id written = 1 /\
    goal_user_id written = 1 /\
    goal_streak_count written = 2 /\
    goal_created_at written = 1%nat.
Proof.
split; [reflexivity |].
apply (update_goal_writes_given_fields goal_world 1
         (mkGoalUpdate (Some (Some "Walk"%string)) (Some None) None
                       (Some (Some "completed"%string)))
         alice sample_goal); reflexivity.
Defined.

(** ** Every route is a composition of store operations *)

Section Composition.

Variable P : World -> Prop.

Hypothesis P_create_conversation : forall w user_id title uuid_hex,
    P w -> P (snd (crud.create_conversation user_id title uuid_hex w)).
Hypothesis P_create_message : forall w conversation_id role content keywords,
    P w -> P (snd (crud.create_message conversation_id role content keywords w)).
Hypothesis P_delete_conversation : forall w session_id,
    P w -> P (snd (crud.delete_conversation session_id w)).
Hypothesis P_create_goal : forall w user_id title description target_date,
    P w -> P (snd (crud.create_goal user_id title description target_date w)).
Hypothesis P_update_goal : forall w goal_id update_data,
    P w -> P (snd (crud.update_goal goal_id update_data w)).
Hypothesis P_delete_goal : forall w goal_id,
    P w -> P (snd (crud.delete_goal goal_id w)).
Hypothesis P_create_goal_checkin : forall w goal_id progress_note completed,
    P w -> P (snd (crud.create_goal_checkin goal_id progress_note completed w)).
Hypothesis P_update_checkin : forall w checkin_id progress_note completed,
    P w -> P (snd (crud.update_checkin checkin_id progress_note completed w)).
Hypothesis P_delete_checkin : forall w checkin_id,
    P w -> P (snd (crud.delete_checkin checkin_id w)).

Ltac through H :=
  let R := fresh "R" in
  pose proof H as R;
  match type of R with
  | P (snd ?m) => destruct m as [[? | ?] ?]; cbn [fst snd] in *
  end.

Ltac owner_check :=
  unfold bind, crud.get_goal_by_id, crud.get_conversation_by_session_id;
  unfold query at 1; cbn [fst snd];
  destruct (find _ _) as [? |]; cbn [fst snd]; auto;
  destruct (negb _); cbn [fst snd]; auto.

Lemma reload_keeps c w : snd (reload c w) = w.
Proof.
unfold reload, bind, crud.get_conversation_by_id, query. cbn.
destruct (find _ _); reflexivity.
Qed.

Lemma stream_generator_preserves upstream c w :
  P w -> P (snd (chat.stream_generator upstream c w)).
Proof.
intros HP. unfold chat.stream_generator.
destruct (chat.forward _ _ _) as [full_response yielded].
destruct (chat.failure upstream); cbn [fst snd]; auto.
destruct (negb _); cbn [fst snd]; auto.
unfold bind. pose proof (reload_keeps c w) as Hr.
destruct (reload c w) as [[c' | e] w0]; cbn [fst snd] in *; subst w0; auto.
through (P_create_message w (conv_id c') "assistant"%string full_response None HP); auto.
Qed.

Lemma serve_preserves w call : P w -> P (serve w call).
Proof.
intros HP. destruct call as [current_user r]. destruct r; cbn [serve].
- unfold conversations.create_conversation, bind.
  through (P_create_conversation w (user_id current_user) title uuid_hex HP); auto.
  match goal with
  | c : Conversation, w1 : World |- _ =>
      through (P_create_message w1 (conv_id c) "system"%string SYSTEM_PROMPT None R); auto;
      match goal with
      | w2 : World |- _ =>
          pose proof (reload_keeps c w2) as Hr;
          destruct (reload c w2) as [[? | ?] ?]; cbn [fst snd] in *; subst; auto
      end
  end.
- now rewrite get_conversation_reads.
- now rewrite get_messages_reads.
- unfold conversations.delete_conversation. owner_check.
  unfold bind. through (P_delete_conversation w session_id HP); auto.
- destruct (send_message_never_writes post session_id request current_user w)
    as [e ->]. auto.
- unfold chat.send_message_streaming. owner_check. unfold bind.
  match goal with
  | c : Conversation |- _ =>
      through (P_create_message w (conv_id c) "user"%string (message request) None HP);
      auto;
      match goal with
      | w1 : World |- _ =>
          pose proof (reload_keeps c w1) as Hr;
          destruct (reload c w1) as [[? | ?] ?]; cbn [fst snd] in *; subst; auto
      end
  end.
  unfold crud.get_conversation_messages, query. cbn [fst snd].
  now apply stream_generator_preserves.
- unfold goals.create_goal. apply P_create_goal, HP.
- unfold goals.create_checkin. owner_check; apply P_create_goal_checkin, HP.
- unfold goals.update_checkin. owner_check. unfold bind.
  through (P_update_checkin w checkin_id (cu_progress_note update_data)
             (cu_completed update_data) HP); auto.
  match goal with o : option GoalCheckIn |- _ => destruct o; auto end.
- unfold goals.delete_checkin. owner_check. unfold bind.
  through (P_delete_checkin w checkin_id HP); auto.
  match goal with b : bool |- _ => destruct b; auto end.
Qed.

Lemma handle_preserves w call : P w -> P (handle w call).
Proof.
intros HP. destruct call as [current_user c]. destruct c; cbn [handle].
- now apply serve_preserves.
- unfold conversations.list_conversations, crud.get_user_conversations, bind,
    query, crud.limit_to, raise, ret.
  destruct (limit <? 0); cbn [fst snd]; auto.
  destruct (_ <? limit); cbn [fst snd]; auto.
  now rewrite conv_responses_run.
- exact HP.
- unfold goals.get_goal. owner_check.
- unfold goals.update_goal. owner_check. unfold bind.
  through (P_update_goal w goal_id (model_dump_exclude_unset update_data) HP); auto.
  match goal with o : option Goal |- _ => destruct o; auto end.
- unfold goals.delete_goal. owner_check. unfold bind.
  through (P_delete_goal w goal_id HP); auto.
- unfold goals.list_checkins. owner_check.
  unfold bind, crud.get_goal_checkins. unfold query at 1. cbn [fst snd].
  unfold crud.limit_to. destruct (limit <? 0); cbn [fst snd]; auto.
  destruct (_ <? limit); cbn [fst snd]; auto.
Qed.

Lemma handle_all_preserves calls w : P w -> P (handle_all calls w).
Proof.
revert w. induction calls as [| call calls IH]; intros w HP; simpl; auto.
apply IH. now apply handle_preserves.
Qed.

End Composition.

Section Sides.

Import crud.

Ltac frame_goal :=
  unfold same_conversations; cbn; repeat split; auto; lia.

Lemma crud_create_goal_frame w user_id title description target_date :
  same_conversations w (snd (create_goal user_id title description target_date w)).
Proof. unfold create_goal, bind, now, query, commit, ret. frame_goal. Qed.

Lemma crud_update_goal_frame w goal_id update_data :
  same_conversations w (snd (update_goal goal_id update_data w)).
Proof.
unfold update_goal, get_goal_by_id, bind, now, query, commit, ret. cbn.
destruct (find _ _); frame_goal.
Qed.

Lemma crud_delete_goal_frame w goal_id :
  same_conversations w (snd (delete_goal goal_id w)).
Proof.
unfold delete_goal, get_goal_by_id, bind, query, commit, ret. cbn.
destruct (find _ _); frame_goal.
Qed.

Lemma crud_create_goal_checkin_frame w goal_id progress_note completed :
  same_conversations w (snd (create_goal_checkin goal_id progress_note completed w)).
Proof.
unfold create_goal_checkin, get_goal_by_id, bind, now, query, commit, ret, raise. cbn.
destruct (find _ _) eqn:E; cbn; [| frame_goal].
destruct completed; cbn; [| frame_goal]. rewrite E. frame_goal.
Qed.

Lemma crud_update_checkin_frame w checkin_id progress_note completed :
  same_conversations w (snd (update_checkin checkin_id progress_note completed w)).
Proof.
unfold update_checkin, get_checkin_by_id, bind, query, commit, ret. cbn.
destruct (find _ _); frame_goal.
Qed.

Lemma crud_delete_checkin_frame w checkin_id :
  same_conversations w (snd (delete_checkin checkin_id w)).
Proof.
unfold delete_checkin, get_checkin_by_id, bind, query, commit, ret. cbn.
destruct (find _ _); frame_goal.
Qed.

Ltac frame_conv := unfold same_goals; cbn; repeat split; auto.

Lemma crud_create_conversation_frame w user_id title uuid_hex :
  same_goals w (snd (create_conversation user_id title uuid_hex w)).
Proof.
unfold create_conversation, get_conversation_by_session_id, bind, now, query, commit,
  ret, raise. cbn -[append].
destruct (find _ _); frame_conv.
Qed.

Lemma crud_create_message_frame w conversation_id role content keywords :
  same_goals w (snd (create_message conversation_id role content keywords w)).
Proof.
unfold create_message, update_conversation_timestamp, get_conversation_by_id, bind,
  now, query, commit, ret, raise. cbn.
destruct (find _ _) eqn:E; cbn; [| frame_conv]. rewrite E. frame_conv.
Qed.

Lemma crud_delete_conversation_frame w session_id :
  same_goals w (snd (delete_conversation session_id w)).
Proof.
unfold delete_conversation, get_conversation_by_session_id, bind, query, commit, ret.
cbn. destruct (find _ _); frame_conv.
Qed.

End Sides.

Section ConversationSide.

Variable P : World -> Prop.

Hypothesis P_same : forall w w', same_conversations w w' -> P w -> P w'.
Hypothesis P_create_conversation : forall w user_id title uuid_hex,
    P w -> P (snd (crud.create_conversation user_id title uuid_hex w)).
Hypothesis P_create_message : forall w conversation_id role content keywords,
    P w -> P (snd (crud.create_message conversation_id role content keywords w)).
Hypothesis P_delete_conversation : forall w session_id,
    P w -> P (snd (crud.delete_conversation session_id w)).

Lemma handle_preserves_conversations w call : P w -> P (handle w call).
Proof.
apply handle_preserves; auto; intros; eapply P_same; eauto.
- apply crud_create_goal_frame.
- apply crud_update_goal_frame.
- apply crud_delete_goal_frame.
- apply crud_create_goal_checkin_frame.
- apply crud_update_checkin_frame.
- apply crud_delete_checkin_frame.
Qed.

End ConversationSide.

Section GoalSide.

Variable P : World -> Prop.

Hypothesis P_same : forall w w', same_goals w w' -> P w -> P w'.
Hypothesis P_create_goal : forall w user_id title description target_date,
    P w -> P (snd (crud.create_goal user_id title description target_date w)).
Hypothesis P_update_goal : forall w goal_id update_data,
    P w -> P (snd (crud.update_goal goal_id update_data w)).
Hypothesis P_delete_goal : forall w goal_id,
    P w -> P (snd (crud.delete_goal goal_id w)).
Hypothesis P_create_goal_checkin : forall w goal_id progress_note completed,
    P w -> P (snd (crud.create_goal_checkin goal_id progress_note completed w)).
Hypothesis P_update_checkin : forall w checkin_id progress_note completed,
    P w -> P (snd (crud.update_checkin checkin_id progress_note completed w)).
Hypothesis P_delete_checkin : forall w checkin_id,
    P w -> P (snd (crud.delete_checkin checkin_id w)).

Lemma handle_preserves_goals w call : P w -> P (handle w call).
Proof.
apply handle_preserves; auto; intros; eapply P_same; eauto.
- apply crud_create_conversation_frame.
- apply crud_create_message_frame.
- apply crud_delete_conversation_frame.
Qed.

End GoalSide.

(** ** What the requests keep of the conversations *)

Section ConversationInvariants.

Import crud.

Lemma find_app_found {A} (f : A -> bool) (l l' : list A) a :
  find f l = Some a -> find f (l ++ l') = Some a.
Proof.
induction l as [| x l IH]; simpl; [discriminate |]. destruct (f x); auto.
Qed.

Lemma touch_row_other conversation_id other t cs :
  other <> conversation_id ->
  find (fun x => conv_id x =? other) (touch conversation_id t cs) =
  find (fun x => conv_id x =? other) cs.
Proof.
intros Hne. induction cs as [| x cs IH]; simpl; auto.
destruct (Z.eqb_spec (conv_id x) conversation_id) as [E | E]; simpl.
- destruct (Z.eqb_spec (conv_id x) other); [congruence | reflexivity].
- destruct (conv_id x =? other); auto.
Qed.

Lemma touch_map {B} (f : Conversation -> B) conversation_id t cs :
  (forall c, f (mkConversation (conv_id c) (conv_user_id c) (conv_session_id c)
                               (conv_title c) (conv_created_at c) t) = f c) ->
  map f (touch conversation_id t cs) = map f cs.
Proof.
intros Hf. induction cs as [| x cs IH]; simpl; auto.
destruct (conv_id x =? conversation_id); simpl; [now rewrite Hf | now rewrite IH].
Qed.

Lemma unique_after_filter {B} (key : Conversation -> B) (keep : Conversation -> bool)
      (cs : list Conversation) (Hu : NoDup (map key cs)) :
  NoDup (map key (filter keep cs)).
Proof.
induction cs as [| c cs IH]; cbn in *; [exact Hu |].
apply NoDup_cons_iff in Hu as [Hfresh Hrest].
destruct (keep c); cbn; [| now apply IH].
apply NoDup_cons; [| now apply IH].
contradict Hfresh. apply in_map_iff in Hfresh as (y & Hy & Hin).
apply filter_In in Hin as [Hin _]. apply in_map_iff. eauto.
Qed.

Lemma NoDup_snoc {B} (l : list B) (b : B) : NoDup l -> ~ In b l -> NoDup (l ++ [b]).
Proof.
intros Hl Hb. apply NoDup_app; auto.
- repeat constructor. intros [].
- intros x Hx [<- | []]. contradiction.
Qed.

Lemma handle_fresh d session_id :
  conversation_handle d session_id = None ->
  ~ In session_id (map conv_session_id (conversations d)).
Proof.
unfold conversation_handle. intros Hnone Hin.
apply in_map_iff in Hin as (c & Hc & Hin).
apply (find_none _ _ Hnone) in Hin. cbn in Hin. rewrite Hc, String.eqb_refl in Hin.
discriminate.
Qed.

Lemma key_fresh w :
  wf_world w = true -> ~ In (conversations_seq (db w)) (map conv_id (conversations (db w))).
Proof.
rewrite wf_world_spec. intros (_ & _ & _ & H) Hin.
apply in_map_iff in Hin as (c & Hc & Hin).
rewrite Forall_forall in H. specialize (H c Hin). lia.
Qed.

(** The three writes to conversations, seen from the rows. *)
Lemma create_conversation_rows w user_id title uuid_hex :
  wf_world w = true ->
  let w' := snd (create_conversation user_id title uuid_hex w) in
  same_conversations w w' \/
  (exists c, conversations (db w') = conversations (db w) ++ [c] /\
             messages (db w') = messages (db w) /\
             conv_id c = conversations_seq (db w) /\
             conversations_seq (db w') = conversations_seq (db w) + 1 /\
             conversation_handle (db w) (conv_session_id c) = None).
Proof.
intros Hwf.
destruct (conversation_handle (db w) ("conv-" ++ uuid_hex)%string) as [c |] eqn:Hh.
- destruct (create_conversation_duplicate _ user_id title _ _ Hh) as [e ->]. left.
  unfold same_conversations. cbn. repeat split; auto; lia.
- cbv zeta. rewrite (create_conversation_run _ user_id title _ Hh). right.
  eexists. cbn [snd db conversations messages conversations_seq conv_id conv_session_id].
  repeat split; auto.
Qed.

Lemma create_message_rows w conversation_id role content keywords :
  let w' := snd (create_message conversation_id role content keywords w) in
  same_conversations w w' \/
  (exists c m,
      conversation_row (db w) conversation_id = Some c /\
      conversations (db w') = touch conversation_id (clock w') (conversations (db w)) /\
      messages (db w') = messages (db w) ++ [m] /\
      msg_conversation_id m = conversation_id /\
      (clock w <= msg_created_at m)%nat /\
      (clock w <= clock w')%nat /\
      conversations_seq (db w') = conversations_seq (db w)).
Proof.
destruct (conversation_row (db w) conversation_id) as [c |] eqn:Hrow.
- cbv zeta. rewrite (create_message_run _ _ role content keywords _ Hrow). right.
  eexists _, _. cbn. repeat split; cbn; first [reflexivity | lia].
- destruct (create_message_orphan _ _ role content keywords Hrow) as [e ->]. left.
  unfold same_conversations. cbn. repeat split; auto; lia.
Qed.

Lemma delete_conversation_rows w session_id :
  let w' := snd (delete_conversation session_id w) in
  w' = w \/
  (exists c,
      conversation_handle (db w) session_id = Some c /\
      conversations (db w') =
      filter (fun x => negb (conv_id x =? conv_id c)) (conversations (db w)) /\
      messages (db w') =
      filter (fun m => negb (msg_conversation_id m =? conv_id c)) (messages (db w)) /\
      conversations_seq (db w') = conversations_seq (db w) /\
      clock w' = clock w).
Proof.
unfold delete_conversation, get_conversation_by_session_id, conversation_handle, bind,
  query, commit, ret. cbn.
destruct (find _ _) as [c |]; cbn; auto. right. eauto 8.
Qed.

End ConversationInvariants.

Section Reachable.

Import crud.

Lemma handle_all_ind (P : World -> Prop) :
  (forall w call, P w -> P (handle w call)) ->
  forall calls w, P w -> P (handle_all calls w).
Proof.
intros Hstep calls. induction calls as [| call calls IH]; intros w HP; simpl; auto.
Qed.

Lemma wf_crud_delete_conversation w session_id :
  wf_world w = true -> wf_world (snd (delete_conversation session_id w)) = true.
Proof.
intros Hwf. destruct (delete_conversation_rows w session_id) as [-> | H]; auto.
destruct H as (c & _ & Hc & Hm & Hs & Hk).
unfold wf_world in *. rewrite Hc, Hm, Hs, Hk.
apply andb_true_iff in Hwf as [Hwf H4]. apply andb_true_iff in Hwf as [Hwf H3].
apply andb_true_iff in Hwf as [H1 H2].
rewrite !andb_true_iff. repeat split; now apply forallb_filter.
Qed.

Lemma wf_handle w call : wf_world w = true -> wf_world (handle w call) = true.
Proof.
apply (handle_preserves_conversations (fun w => wf_world w = true)).
- intros. eapply wf_same_conversations; eauto.
- intros. now apply wf_crud_create_conversation.
- intros. now apply wf_create_message.
- intros. now apply wf_crud_delete_conversation.
Qed.

Lemma wf_reachable future calls :
  wf_world (handle_all calls (initial_world future)) = true.
Proof. apply handle_all_ind; [apply wf_handle | reflexivity]. Qed.

Lemma unique_handle w call :
  wf_world w = true /\ unique_conversations (db w) ->
  wf_world (handle w call) = true /\ unique_conversations (db (handle w call)).
Proof.
apply (handle_preserves_conversations
         (fun w => wf_world w = true /\ unique_conversations (db w))).
- intros w0 w' Hsame [Hwf Hu]. split; [eapply wf_same_conversations; eauto |].
  destruct Hsame as (Hc & _). unfold unique_conversations. now rewrite Hc.
- intros w0 user_id title uuid_hex [Hwf [Hh Hk]].
  split; [now apply wf_crud_create_conversation |].
  destruct (create_conversation_rows w0 user_id title uuid_hex Hwf)
    as [(Hc & _) | (c & Hc & _ & Hid & _ & Hfresh)];
    unfold unique_conversations; rewrite Hc; [auto |].
  rewrite !map_app. cbn [map]. split; apply NoDup_snoc; auto.
  + now apply handle_fresh.
  + rewrite Hid. now apply key_fresh.
- intros w0 conversation_id role content keywords [Hwf [Hh Hk]].
  split; [now apply wf_create_message |].
  destruct (create_message_rows w0 conversation_id role content keywords)
    as [(Hc & _) | (c & m & _ & Hc & _)];
    unfold unique_conversations; rewrite Hc; [auto |].
  rewrite !touch_map by reflexivity. auto.
- intros w0 session_id [Hwf [Hh Hk]].
  split; [now apply wf_crud_delete_conversation |].
  destruct (delete_conversation_rows w0 session_id) as [-> | (c & _ & Hc & _)];
    [split; auto |].
  unfold unique_conversations. rewrite Hc. split; now apply unique_after_filter.
Qed.

Lemma unique_reachable future calls :
  unique_conversations (db (handle_all calls (initial_world future))).
Proof.
apply (handle_all_ind
         (fun w => wf_world w = true /\ unique_conversations (db w))).
- apply unique_handle.
- split; [reflexivity |]. split; constructor.
Qed.

End Reachable.

(** X9: in every store that requests can reach from the empty one, no two
    conversations share a session handle or a key. *)
Theorem reachable_conversations_unique
        (future : list nat) (calls : list (User * Call)) :
  unique_conversations (db (handle_all calls (initial_world future))).
Proof. apply unique_reachable. Qed.

Section DeleteConversation.

Lemma NoDup_map_inj {A B} (f : A -> B) (l : list A) a b :
  NoDup (map f l) -> In a l -> In b l -> f a = f b -> a = b.
Proof.
induction l as [| x l IH]; simpl; intros Hnd Ha Hb Hf; [contradiction |].
inversion Hnd as [| ? ? Hx Hl]; subst.
destruct Ha as [-> | Ha], Hb as [-> | Hb]; auto.
- exfalso. apply Hx. rewrite Hf. now apply in_map.
- exfalso. apply Hx. rewrite <- Hf. now apply in_map.
Qed.

Lemma handle_gone_after_delete d session_id c :
  NoDup (map conv_session_id (conversations d)) ->
  conversation_handle d session_id = Some c ->
  find (fun x => String.eqb (conv_session_id x) session_id)
       (filter (fun x => negb (conv_id x =? conv_id c)) (conversations d)) = None.
Proof.
intros Hnd Hfound. apply handle_in in Hfound as [Hin Hs].
destruct (find _ (filter _ _)) as [x |] eqn:E; [| reflexivity].
apply find_some in E as [Hx Hsx]. apply filter_In in Hx as [Hx Hne].
apply String.eqb_eq in Hsx.
assert (x = c) by (eapply NoDup_map_inj; eauto; congruence). subst x.
now rewrite Z.eqb_refl in Hne.
Qed.

End DeleteConversation.

(** X10: in a store that requests can reach, the owner who deletes a
    conversation removes its row and every message of it and nothing else:
    afterwards the handle answers 404 to its former owner, and every other
    conversation has the row and the history it had. *)
Theorem delete_conversation_round_trip
        (future : list nat) (calls : list (User * Call))
        (session_id : string) (current_user : User) (c : Conversation) :
  let w := handle_all calls (initial_world future) in
  conversation_handle (db w) session_id = Some c ->
  conv_user_id c = user_id current_user ->
  exists w',
    conversations.delete_conversation session_id current_user w = (Ok tt, w') /\
    conversations.get_conversation session_id current_user w' =
    (Raise (HTTPException 404 "Conversation not found"), w') /\
    conversations.get_messages session_id current_user w' =
    (Raise (HTTPException 404 "Conversation not found"), w') /\
    (forall m, In m (messages (db w')) <->
               In m (messages (db w)) /\ msg_conversation_id m <> conv_id c) /\
    (forall other, other <> conv_id c ->
                   conversation_row (db w') other = conversation_row (db w) other /\
                   crud.messages_of (db w') other = crud.messages_of (db w) other).
Proof.
intros w Hfound Howner.
destruct (unique_reachable future calls) as [Hnd _]. fold w in Hnd.
clearbody w.
pose proof (handle_gone_after_delete _ _ _ Hnd Hfound) as Hgone.
unfold conversation_handle in Hfound.
unfold conversations.delete_conversation, crud.delete_conversation,
  crud.get_conversation_by_session_id, bind, query, commit, ret. cbn [fst snd db].
rewrite Hfound, Howner, Z.eqb_refl. cbn [negb fst snd db]. rewrite Hfound.
cbn [fst snd db].
eexists. split; [reflexivity |].
split; [apply get_conversation_hides; left; exact Hgone |].
split; [apply get_messages_hides; left; exact Hgone |].
cbn [db messages conversations]. split.
- intros m. rewrite filter_In, negb_true_iff, Z.eqb_neq. tauto.
- intros other Hne. split.
  + unfold conversation_row. cbn [conversations]. now apply find_filter_other.
  + apply (messages_of_after_delete (db w) _ (conv_id c) other);
      [reflexivity | exact Hne].
Qed.

Lemma delete_conversation_round_trip_witness :
  conversation_handle
    (db (handle_all [(alice, Served (CreateConversation (Some "Morning"%string) "0af3"))]
                    (initial_world sample_ticks))) "conv-0af3" =
  Some sample_conversation /\
  exists w',
    conversations.delete_conversation "conv-0af3" alice
      (handle_all [(alice, Served (CreateConversation (Some "Morning"%string) "0af3"))]
                  (initial_world sample_ticks)) = (Ok tt, w') /\
    conversations.get_conversation "conv-0af3" alice w' =
    (Raise (HTTPException 404 "Conversation not found"), w') /\
    conversations.get_messages "conv-0af3" alice w' =
    (Raise (HTTPException 404 "Conversation not found"), w') /\
    (forall m, In m (messages (db w')) <->
               In m (messages
                       (db (handle_all
                              [(alice, Served (CreateConversation (Some "Morning"%string)
                                                                  "0af3"))]
                              (initial_world sample_ticks)))) /\
               msg_conversation_id m <> conv_id sample_conversation) /\
    (forall other, other <> conv_id sample_conversation ->
                   conversation_row (db w') other =
                   conversation_row
                     (db (handle_all
                            [(alice, Served (CreateConversation (Some "Morning"%string)
                                                                "0af3"))]
                            (initial_world sample_ticks))) other /\
                   crud.messages_of (db w') other =
                   crud.messages_of
                     (db (handle_all
                            [(alice, Served (CreateConversation (Some "Morning"%string)
                                                                "0af3"))]
                            (initial_world sample_ticks))) other).
Proof.
split; [reflexivity |].
apply (delete_conversation_round_trip sample_ticks
         [(alice, Served (CreateConversation (Some "Morning"%string) "0af3"))]
         "conv-0af3" alice sample_conversation); reflexivity.
Defined.

Section Later.

Import crud.

Lemma messages_of_beyond w conversation_id :
  wf_world w = true -> conversations_seq (db w) <= conversation_id ->
  messages_of (db w) conversation_id = [].
Proof.
rewrite wf_world_spec. intros (_ & _ & H & _) Hle. unfold messages_of.
replace (filter _ (messages (db w))) with (@nil Message); [reflexivity |].
symmetry. induction H as [| m l Hm Hl IH]; simpl; auto.
destruct (Z.eqb_spec (msg_conversation_id m) conversation_id); [lia | auto].
Qed.

Lemma messages_of_appended d d' m conversation_id :
  messages d' = messages d ++ [m] ->
  Forall (fun x => (msg_created_at x <= msg_created_at m)%nat) (messages d) ->
  messages_of d' conversation_id =
  if msg_conversation_id m =? conversation_id
  then messages_of d conversation_id ++ [m]
  else messages_of d conversation_id.
Proof.
intros Hm Hle. rewrite <- (messages_of_with_message d m conversation_id Hle).
unfold messages_of, with_message. cbn [messages]. now rewrite Hm.
Qed.

Lemma messages_of_same d d' conversation_id :
  messages d' = messages d -> messages_of d' conversation_id = messages_of d conversation_id.
Proof. unfold messages_of. now intros ->. Qed.

Lemma row_below_seq w conversation_id c :
  wf_world w = true -> conversation_row (db w) conversation_id = Some c ->
  conversation_id < conversations_seq (db w) /\ (conv_updated_at c <= clock w)%nat.
Proof.
rewrite wf_world_spec. intros (_ & H2 & _ & H4) Hrow.
apply row_in in Hrow as [Hin <-]. rewrite Forall_forall in *. auto.
Qed.

Variable w0 : World.
Hypothesis Hwf0 : wf_world w0 = true.

(** What holds of a later world [w] when compared with [w0]. *)
Let keeps (w : World) : Prop :=
  wf_world w = true /\
  conversations_seq (db w0) <= conversations_seq (db w) /\
  (forall cid, conversation_row (db w) cid = None \/
               exists l, messages_of (db w) cid = messages_of (db w0) cid ++ l) /\
  (forall cid c, conversation_row (db w0) cid = Some c ->
                 conversation_row (db w) cid = None \/
                 exists c', conversation_row (db w) cid = Some c' /\
                            conversation_kept c c').

Lemma keeps_start : keeps w0.
Proof.
split; [exact Hwf0 |]. split; [lia |]. split.
- intros cid. right. exists []. now rewrite app_nil_r.
- intros cid c Hrow. right. exists c. split; auto.
  unfold conversation_kept. repeat split; auto.
Qed.

Lemma keeps_same w w' : same_conversations w w' -> keeps w -> keeps w'.
Proof.
intros Hsame (Hwf & Hseq & Hh & Hr). pose proof Hsame as (Hc & Hm & Hs & Hk).
split; [eapply wf_same_conversations; eauto |]. split; [lia |].
unfold conversation_row. split.
- intros cid. rewrite Hc, (messages_of_same _ _ cid Hm). apply Hh.
- intros cid c Hrow. rewrite Hc. now apply Hr.
Qed.

Lemma keeps_create_conversation w user_id title uuid_hex :
  keeps w -> keeps (snd (create_conversation user_id title uuid_hex w)).
Proof.
intros Hk. pose proof Hk as (Hwf & Hseq & Hh & Hr).
destruct (create_conversation_rows w user_id title uuid_hex Hwf)
  as [Hsame | (c & Hc & Hm & Hid & Hs & _)]; [eapply keeps_same; eauto |].
split; [now apply wf_crud_create_conversation |]. split; [lia |].
assert (Hrow : forall cid, cid <> conversations_seq (db w) ->
          conversation_row (db (snd (create_conversation user_id title uuid_hex w))) cid =
          conversation_row (db w) cid).
{ intros cid Hne. unfold conversation_row. rewrite Hc.
  destruct (find _ (conversations (db w))) as [x |] eqn:E.
  - now apply find_app_found.
  - rewrite (find_app_none _ _ _ E). cbn. rewrite Hid.
    destruct (Z.eqb_spec (conversations_seq (db w)) cid); [congruence | reflexivity]. }
split.
- intros cid. rewrite (messages_of_same _ _ cid Hm).
  destruct (Z.eq_dec cid (conversations_seq (db w))) as [-> | Hne].
  + right. exists []. rewrite (messages_of_next_key w Hwf).
    now rewrite (messages_of_beyond w0 _ Hwf0 Hseq).
  + rewrite (Hrow cid Hne). apply Hh.
- intros cid c0 Hrow0.
  destruct (row_below_seq w0 cid c0 Hwf0 Hrow0) as [Hlt _].
  rewrite Hrow by lia. now apply Hr.
Qed.

Lemma keeps_create_message w conversation_id role content keywords :
  keeps w -> keeps (snd (create_message conversation_id role content keywords w)).
Proof.
intros Hk. pose proof Hk as (Hwf & Hseq & Hh & Hr).
destruct (create_message_rows w conversation_id role content keywords)
  as [Hsame | (c & m & Hrow & Hc & Hm & Hmid & Hmt & Hclk & Hs)];
  [eapply keeps_same; eauto |].
split; [now apply wf_create_message |]. split; [lia |].
assert (Hle : Forall (fun x => (msg_created_at x <= msg_created_at m)%nat)
                     (messages (db w))).
{ apply wf_world_spec in Hwf as (H1 & _).
  eapply Forall_impl; [| exact H1]. simpl. intros; lia. }
assert (Hother : forall cid, cid <> conversation_id ->
          conversation_row (db (snd (create_message conversation_id role content
                                                    keywords w))) cid =
          conversation_row (db w) cid).
{ intros cid Hne. unfold conversation_row. rewrite Hc. now apply touch_row_other. }
split.
- intros cid. rewrite (messages_of_appended _ _ m cid Hm Hle), Hmid.
  destruct (Hh cid) as [Hnone | [l Hl]].
  + left. rewrite Hother; auto. intros ->. congruence.
  + right. rewrite Hl. destruct (conversation_id =? cid); eauto.
    exists (l ++ [m]). now rewrite app_assoc.
- intros cid c0 Hrow0. destruct (Hr cid c0 Hrow0) as [Hnone | (c' & Hrow' & Hkept)].
  + left. rewrite Hother; auto. intros ->. congruence.
  + right. destruct (Z.eq_dec cid conversation_id) as [-> | Hne].
    * unfold conversation_row. rewrite Hc.
      rewrite (touch_row _ _ _ _ Hrow'). eexists. split; [reflexivity |].
      destruct (row_below_seq w _ c' Hwf Hrow') as [_ Hup].
      unfold conversation_kept in *.
      cbn [conv_id conv_user_id conv_session_id conv_title conv_created_at
           conv_updated_at].
      intuition lia.
    * rewrite Hother; eauto.
Qed.

Lemma keeps_delete_conversation w session_id :
  keeps w -> keeps (snd (delete_conversation session_id w)).
Proof.
intros Hk. pose proof Hk as (Hwf & Hseq & Hh & Hr).
destruct (delete_conversation_rows w session_id)
  as [-> | (c & _ & Hc & Hm & Hs & _)]; [exact Hk |].
split; [now apply wf_crud_delete_conversation |]. split; [lia |].
assert (Hgone : conversation_row (db (snd (delete_conversation session_id w)))
                                 (conv_id c) = None).
{ unfold conversation_row. rewrite Hc. apply find_filter_gone. }
assert (Hother : forall cid, cid <> conv_id c ->
          conversation_row (db (snd (delete_conversation session_id w))) cid =
          conversation_row (db w) cid).
{ intros cid Hne. unfold conversation_row. rewrite Hc. now apply find_filter_other. }
split.
- intros cid. destruct (Z.eq_dec cid (conv_id c)) as [-> | Hne]; [now left |].
  rewrite (Hother cid Hne), (messages_of_after_delete (db w) _ (conv_id c) cid Hm Hne).
  apply Hh.
- intros cid c0 Hrow0. destruct (Z.eq_dec cid (conv_id c)) as [-> | Hne]; [now left |].
  rewrite (Hother cid Hne). now apply Hr.
Qed.

Lemma keeps_later later : keeps (handle_all later w0).
Proof.
apply handle_all_ind; [| apply keeps_start].
apply handle_preserves_conversations.
- apply keeps_same.
- intros. now apply keeps_create_conversation.
- intros. now apply keeps_create_message.
- intros. now apply keeps_delete_conversation.
Qed.

End Later.

(** X11: messages are only ever appended.  Whatever requests are served
    after a store that requests can reach, a conversation either is gone
    (deleted as a whole) or lists the messages it listed before, in the same
    order, followed by the new ones. *)
Theorem histories_append_only
        (future : list nat) (calls later : list (User * Call)) (conversation_id : Z) :
  let w := handle_all calls (initial_world future) in
  let w' := handle_all later w in
  conversation_row (db w') conversation_id = None \/
  exists l, crud.messages_of (db w') conversation_id =
            crud.messages_of (db w) conversation_id ++ l.
Proof.
intros w w'.
destruct (keeps_later w (wf_reachable future calls) later) as (_ & _ & H & _).
apply H.
Qed.

(** X12: no request changes the owner, the handle, the title or the creation
    time of a conversation, and [updated_at] never moves backwards: whatever
    requests are served after a reachable store, a conversation row either
    is gone or differs from what it was by a later [updated_at] at most. *)
Theorem conversation_rows_kept
        (future : list nat) (calls later : list (User * Call))
        (conversation_id : Z) (c : Conversation) :
  let w := handle_all calls (initial_world future) in
  let w' := handle_all later w in
  conversation_row (db w) conversation_id = Some c ->
  conversation_row (db w') conversation_id = None \/
  exists c', conversation_row (db w') conversation_id = Some c' /\
             conversation_kept c c'.
Proof.
intros w w'.
destruct (keeps_later w (wf_reachable future calls) later) as (_ & _ & _ & H).
apply H.
Qed.

Lemma conversation_rows_kept_witness :
  conversation_row
    (db (handle_all [(alice, Served (CreateConversation (Some "Morning"%string) "0af3"))]
                    (initial_world sample_ticks))) 1 = Some sample_conversation /\
  (conversation_row
     (db (handle_all
            [(alice, Served (SendMessageStreaming hello_stream "conv-0af3" hi))]
            (handle_all
               [(alice, Served (CreateConversation (Some "Morning"%string) "0af3"))]
               (initial_world sample_ticks)))) 1 = None \/
   exists c',
     conversation_row
       (db (handle_all
              [(alice, Served (SendMessageStreaming hello_stream "conv-0af3" hi))]
              (handle_all
                 [(alice, Served (CreateConversation (Some "Morning"%string) "0af3"))]
                 (initial_world sample_ticks)))) 1 = Some c' /\
     conversation_kept sample_conversation c').
Proof.
split; [reflexivity |].
apply (conversation_rows_kept sample_ticks
         [(alice, Served (CreateConversation (Some "Morning"%string) "0af3"))]
         [(alice, Served (SendMessageStreaming hello_stream "conv-0af3" hi))]
         1 sample_conversation).
reflexivity.
Defined.

(** ** What the requests keep of the goals *)

Section GoalInvariants.

Import crud.

Lemma bump_streak_write goal_id t gs :
  bump_streak goal_id t gs =
  write_goal goal_id
    (fun g => mkGoal (g_id g) (goal_user_id g) (goal_title g) (goal_description g)
                     (goal_target_date g) (goal_status g) (goal_streak_count g + 1)
                     (goal_created_at g) t) gs.
Proof.
induction gs as [| g gs IH]; simpl; auto.
destruct (g_id g =? goal_id); congruence.
Qed.

Lemma write_goal_Forall (Q : Goal -> Prop) goal_id f gs :
  (forall g, Q g -> Q (f g)) -> Forall Q gs -> Forall Q (write_goal goal_id f gs).
Proof.
intros Hf. induction 1 as [| g gs Hg Hgs IH]; simpl; [constructor |].
destruct (g_id g =? goal_id); constructor; auto.
Qed.

Lemma create_goal_step w user_id title description target_date :
  goals_step (db w) (db (snd (create_goal user_id title description target_date w))).
Proof.
unfold create_goal, bind, now, query, commit, ret. cbn.
eapply goals_added; reflexivity.
Qed.

Lemma update_goal_step w goal_id update_data :
  goals_step (db w) (db (snd (update_goal goal_id update_data w))).
Proof.
unfold update_goal, get_goal_by_id, bind, now, query, commit, ret. cbn.
destruct (find _ _); cbn; [| now apply goals_same].
eapply goals_written; [reflexivity | reflexivity |].
intros x. destruct (setattr_keeps update_data x) as (K1 & K2 & K3 & K4).
unfold goal_kept. cbn. rewrite K1, K2, K3, K4. repeat split; auto. lia.
Qed.

Lemma delete_goal_step w goal_id :
  goals_step (db w) (db (snd (delete_goal goal_id w))).
Proof.
unfold delete_goal, get_goal_by_id, bind, query, commit, ret. cbn.
destruct (find _ _); cbn; [| now apply goals_same].
eapply goals_removed; reflexivity.
Qed.

Lemma create_goal_checkin_step w goal_id progress_note completed :
  goals_step (db w) (db (snd (create_goal_checkin goal_id progress_note completed w))).
Proof.
unfold create_goal_checkin, get_goal_by_id, bind, now, query, commit, ret, raise. cbn.
destruct (find _ _) eqn:E; cbn; [| now apply goals_same].
destruct completed; cbn; [| now apply goals_same]. rewrite E. cbn.
eapply goals_written; [apply bump_streak_write | reflexivity |].
intros x. unfold goal_kept. cbn. repeat split; auto. lia.
Qed.

Lemma update_checkin_step w checkin_id progress_note completed :
  goals_step (db w) (db (snd (update_checkin checkin_id progress_note completed w))).
Proof.
unfold update_checkin, get_checkin_by_id, bind, query, commit, ret. cbn.
destruct (find _ _); cbn; now apply goals_same.
Qed.

Lemma delete_checkin_step w checkin_id :
  goals_step (db w) (db (snd (delete_checkin checkin_id w))).
Proof.
unfold delete_checkin, get_checkin_by_id, bind, query, commit, ret. cbn.
destruct (find _ _); cbn; now apply goals_same.
Qed.

Lemma goals_wf_step d d' : goals_step d d' -> goals_wf d -> goals_wf d'.
Proof.
unfold goals_wf. intros [Hg Hs | new Hg Hid Hst Hs | goal_id f Hg Hs Hf | goal_id Hg Hs] H;
  rewrite Hg, Hs.
- exact H.
- apply Forall_app. split.
  + eapply Forall_impl; [| exact H]. cbn. intros; lia.
  + repeat constructor; lia.
- apply write_goal_Forall; auto. intros g [H1 H2].
  destruct (Hf g) as (K1 & _ & _ & K4). lia.
- rewrite Forall_forall in *. intros g Hin. apply filter_In in Hin as [Hin _]. auto.
Qed.

Variable w0 : World.
Hypothesis Hwf0 : goals_wf (db w0).

Let goals_keep (w : World) : Prop :=
  goals_wf (db w) /\
  goals_seq (db w0) <= goals_seq (db w) /\
  (forall goal_id g, goal_row (db w0) goal_id = Some g ->
                     goal_row (db w) goal_id = None \/
                     exists g', goal_row (db w) goal_id = Some g' /\ goal_kept g g').

Lemma goal_below_seq goal_id g : goal_row (db w0) goal_id = Some g -> goal_id < goals_seq (db w0).
Proof.
intros Hrow. unfold goal_row in Hrow. apply find_some in Hrow as [Hin Hid].
apply Z.eqb_eq in Hid. unfold goals_wf in Hwf0. rewrite Forall_forall in Hwf0.
destruct (Hwf0 g Hin). lia.
Qed.

Lemma goals_keep_step w w' :
  goals_step (db w) (db w') -> goals_keep w -> goals_keep w'.
Proof.
intros Hstep (Hwf & Hseq & Hr). split; [eapply goals_wf_step; eauto |].
destruct Hstep as [Hg Hs | new Hg Hid Hst Hs | goal_id f Hg Hs Hf | goal_id Hg Hs];
  (split; [lia |]); intros gid g0 Hrow0; unfold goal_row; rewrite Hg;
  specialize (Hr gid g0 Hrow0); unfold goal_row in Hr.
- exact Hr.
- pose proof (goal_below_seq gid g0 Hrow0) as Hlt.
  destruct Hr as [Hnone | (g' & Hsome & Hk)].
  + left. rewrite (find_app_none _ _ _ Hnone). cbn. rewrite Hid.
    destruct (Z.eqb_spec (goals_seq (db w)) gid); [lia | reflexivity].
  + right. exists g'. split; auto. now apply find_app_found.
- assert (Hid : forall x, g_id (f x) = g_id x) by (intros x; apply Hf).
  destruct (Z.eq_dec gid goal_id) as [-> | Hne].
  + destruct Hr as [Hnone | (g' & Hsome & Hk)].
    * left. clear - Hnone Hid. induction (goals (db w)) as [| x l IH]; cbn in *; auto.
      destruct (g_id x =? goal_id) eqn:E; [discriminate |]. cbn. rewrite E. auto.
    * right. exists (f g'). split; [now apply write_goal_row |].
      destruct (Hf g') as (K1 & K2 & K3 & K4). unfold goal_kept in *.
      intuition (try congruence; try lia).
  + rewrite write_goal_other; auto.
- destruct (Z.eq_dec gid goal_id) as [-> | Hne].
  + left. apply find_filter_gone.
  + rewrite find_filter_other; auto.
Qed.

Lemma goals_keep_later later : goals_keep (handle_all later w0).
Proof.
apply handle_all_ind.
- apply handle_preserves_goals.
  + intros w w' (Hg & _ & Hs). apply goals_keep_step. now apply goals_same.
  + intros. eapply goals_keep_step; eauto. apply create_goal_step.
  + intros. eapply goals_keep_step; eauto. apply update_goal_step.
  + intros. eapply goals_keep_step; eauto. apply delete_goal_step.
  + intros. eapply goals_keep_step; eauto. apply create_goal_checkin_step.
  + intros. eapply goals_keep_step; eauto. apply update_checkin_step.
  + intros. eapply goals_keep_step; eauto. apply delete_checkin_step.
- split; [exact Hwf0 |]. split; [lia |]. intros gid g Hrow. right. exists g.
  split; auto. unfold goal_kept. repeat split; auto. lia.
Qed.

End GoalInvariants.

Section ReachableGoals.

Lemma goals_wf_reachable future calls :
  goals_wf (db (handle_all calls (initial_world future))).
Proof.
assert (H0 : goals_wf (db (initial_world future))) by constructor.
destruct (goals_keep_later (initial_world future) H0 calls) as [H _]. exact H.
Qed.

End ReachableGoals.

(** X13: no request lowers a streak count or changes the key, the owner or
    the creation time of a goal, and no streak count is negative: whatever
    requests are served after a reachable store, a goal row either is gone
    or has a streak count at least as high as before. *)
Theorem streaks_never_drop
        (future : list nat) (calls later : list (User * Call)) (goal_id : Z) (g : Goal) :
  let w := handle_all calls (initial_world future) in
  let w' := handle_all later w in
  goal_row (db w) goal_id = Some g ->
  0 <= goal_streak_count g /\
  (goal_row (db w') goal_id = None \/
   exists g', goal_row (db w') goal_id = Some g' /\ goal_kept g g').
Proof.
intros w w' Hrow. pose proof (goals_wf_reachable future calls) as Hwf. fold w in Hwf.
split.
- unfold goal_row in Hrow. apply find_some in Hrow as [Hin _].
  unfold goals_wf in Hwf. rewrite Forall_forall in Hwf. now apply Hwf.
- destruct (goals_keep_later w Hwf later) as (_ & _ & H). now apply H.
Qed.

Lemma streaks_never_drop_witness :
  goal_row (db (handle_all shared_calls (initial_world sample_ticks))) 1 =
  Some alice_goal /\
  0 <= goal_streak_count alice_goal /\
  (goal_row
     (db (handle_all
            [(alice, Served (UpdateCheckin 1 1 (mkCheckInUpdate None (Some false))));
             (alice, Served (DeleteCheckin 1 1))]
            (handle_all shared_calls (initial_world sample_ticks)))) 1 = None \/
   exists g',
     goal_row
       (db (handle_all
              [(alice, Served (UpdateCheckin 1 1 (mkCheckInUpdate None (Some false))));
               (alice, Served (DeleteCheckin 1 1))]
              (handle_all shared_calls (initial_world sample_ticks)))) 1 = Some g' /\
     goal_kept alice_goal g').
Proof.
split; [reflexivity |].
apply (streaks_never_drop sample_ticks shared_calls
         [(alice, Served (UpdateCheckin 1 1 (mkCheckInUpdate None (Some false))));
          (alice, Served (DeleteCheckin 1 1))]
         1 alice_goal).
reflexivity.
Defined.

(** X14: in a store that requests can reach, creating a goal gives the caller
    an active goal with a streak of zero under a key that no goal had, there
    for the caller to get back and hidden from anybody else, and leaves
    every other goal as it was. *)
Theorem create_goal_round_trip
        (future : list nat) (calls : list (User * Call))
        (goal_data : GoalCreate) (current_user other_user : User) :
  let w := handle_all calls (initial_world future) in
  exists g w',
    goals.create_goal goal_data current_user w = (Ok g, w') /\
    goal_row (db w) (g_id g) = None /\
    goal_user_id g = user_id current_user /\
    goal_title g = gc_title goal_data /\
    goal_description g = gc_description goal_data /\
    goal_target_date g = gc_target_date goal_data /\
    goal_status g = "active"%string /\
    goal_streak_count g = 0 /\
    goals.get_goal (g_id g) current_user w' = (Ok g, w') /\
    (user_id other_user <> user_id current_user ->
     goals.get_goal (g_id g) other_user w' =
     (Raise (HTTPException 404 "Goal not found"), w')) /\
    (forall other, other <> g_id g -> goal_row (db w') other = goal_row (db w) other).
Proof.
intros w. pose proof (goals_wf_reachable future calls) as Hwf. fold w in Hwf.
clearbody w.
assert (Hfresh : find (fun x => g_id x =? goals_seq (db w)) (goals (db w)) = None).
{ unfold goals_wf in Hwf. induction Hwf as [| x l [Hx _] Hl IH]; cbn; auto.
  destruct (Z.eqb_spec (g_id x) (goals_seq (db w))); [lia | auto]. }
unfold goals.create_goal, crud.create_goal, bind, now, query, commit, ret.
cbn [fst snd db].
eexists _, _. split; [reflexivity |]. cbn [g_id goal_user_id goal_title goal_description
  goal_target_date goal_status goal_streak_count].
split; [exact Hfresh |]. do 6 (split; [reflexivity |]).
match goal with
| |- goals.get_goal ?k current_user ?w1 = (Ok ?g, ?w1) /\ _ =>
    assert (Hnew : forall u,
               goals.get_goal k u w1 =
               if negb (user_id current_user =? user_id u)
               then (Raise (HTTPException 404 "Goal not found"), w1)
               else (Ok g, w1))
end.
{ intros u. unfold goals.get_goal, crud.get_goal_by_id, bind, query.
  cbn [fst snd db goals]. rewrite (find_app_none _ _ _ Hfresh). cbn [find g_id].
  rewrite Z.eqb_refl. cbn [goal_user_id].
  destruct (negb (user_id current_user =? user_id u)); reflexivity. }
split; [| split].
- rewrite Hnew, Z.eqb_refl. reflexivity.
- intros Hne. rewrite Hnew. apply not_eq_sym, Z.eqb_neq in Hne. now rewrite Hne.
- intros other Hne. unfold goal_row. cbn [db goals]. clear Hnew.
  destruct (find (fun x => g_id x =? other) (goals (db w))) as [x |] eqn:E.
  + now apply find_app_found.
  + rewrite (find_app_none _ _ _ E). cbn.
    destruct (Z.eqb_spec (goals_seq (db w)) other); [congruence | reflexivity].
Qed.

(** X15: the owner who deletes a goal removes the goal and every check-in of
    it and nothing else: afterwards the goal answers 404 to its former
    owner, the check-ins left are those of the other goals, and the other
    goals are as they were. *)
Theorem delete_goal_cascades
        (w : World) (goal_id : Z) (current_user : User) (goal : Goal) :
  goal_row (db w) goal_id = Some goal ->
  goal_user_id goal = user_id current_user ->
  exists w',
    goals.delete_goal goal_id current_user w = (Ok tt, w') /\
    goal_row (db w') goal_id = None /\
    goals.get_goal goal_id current_user w' =
    (Raise (HTTPException 404 "Goal not found"), w') /\
    (forall c, In c (goal_check_ins (db w')) <->
               In c (goal_check_ins (db w)) /\ checkin_goal_id c <> goal_id) /\
    (forall other, other <> goal_id -> goal_row (db w') other = goal_row (db w) other).
Proof.
intros Hrow Howner. pose proof (goal_row_id _ _ _ Hrow) as Hid.
unfold goal_row in Hrow.
unfold goals.delete_goal, crud.delete_goal, crud.get_goal_by_id, bind, query, commit, ret.
cbn [fst snd db]. rewrite Hrow, Howner, Z.eqb_refl. cbn [negb fst snd db].
rewrite Hrow. cbn [fst snd db]. rewrite Hid.
eexists. split; [reflexivity |].
assert (Hgone : goal_row
                  (mkDB (conversations (db w)) (messages (db w))
                        (filter (fun x => negb (g_id x =? goal_id)) (goals (db w)))
                        (filter (fun c => negb (checkin_goal_id c =? goal_id))
                                (goal_check_ins (db w)))
                        (conversations_seq (db w)) (messages_seq (db w))
                        (goals_seq (db w)) (goal_check_ins_seq (db w))) goal_id = None)
  by apply find_filter_gone.
split; [exact Hgone |]. split; [| split].
- unfold goals.get_goal, crud.get_goal_by_id, bind, query. cbn [fst snd db].
  unfold goal_row in Hgone. now rewrite Hgone.
- intros c. cbn [db goal_check_ins]. rewrite filter_In, negb_true_iff, Z.eqb_neq. tauto.
- intros other Hne. unfold goal_row. cbn [db goals]. now apply find_filter_other.
Qed.

Lemma delete_goal_cascades_witness :
  goal_row (db shared_world) 1 = Some alice_goal /\
  exists w',
    goals.delete_goal 1 alice shared_world = (Ok tt, w') /\
    goal_row (db w') 1 = None /\
    goals.get_goal 1 alice w' = (Raise (HTTPException 404 "Goal not found"), w') /\
    (forall c, In c (goal_check_ins (db w')) <->
               In c (goal_check_ins (db shared_world)) /\ checkin_goal_id c <> 1) /\
    (forall other, other <> 1 ->
                   goal_row (db w') other = goal_row (db shared_world) other).
Proof.
split; [reflexivity |].
apply (delete_goal_cascades shared_world 1 alice alice_goal); reflexivity.
Defined.

(** X16: a buffered turn answers an upstream status other than 200 with 500,
    not with 503: the 503 that the route raises for it inside the [try] is
    caught by the last [except] clause and wrapped, and nothing is written. *)
Theorem upstream_status_error_answers_500
        (post : chat.InferenceRequest -> chat.PostOutcome) (session_id : string)
        (request : ChatRequest) (current_user : User) (w : World) (c : Conversation)
        (status_code : Z) (body : chat.Body) :
  conversation_handle (db w) session_id = Some c ->
  conv_user_id c = user_id current_user ->
  post (prompt_of (db w) c request) = chat.PostReturns status_code body ->
  status_code <> 200 ->
  chat.send_message post session_id request current_user w =
  (Raise (HTTPException 500
            ("Error during inference: 503: Inference service error: " ++
             str_int status_code)%string), w).
Proof.
unfold conversation_handle, prompt_of. intros Hfound Howner Hpost Hcode.
unfold chat.send_message, bind, crud.get_conversation_by_session_id,
  crud.get_conversation_messages, query, raise. cbn [fst snd].
rewrite Hfound, Howner, Z.eqb_refl. cbn [negb].
unfold chat.call_inference. rewrite Hpost.
apply Z.eqb_neq in Hcode. rewrite Hcode. reflexivity.
Qed.

Lemma upstream_status_error_answers_500_witness :
  conversation_handle (db sample_world) "conv-0af3" = Some sample_conversation /\
  chat.send_message (fun _ => chat.PostReturns 502 (chat.NotJson "Bad Gateway"))
                    "conv-0af3" hi alice sample_world =
  (Raise (HTTPException 500 "Error during inference: 503: Inference service error: 502"),
   sample_world).
Proof.
split; [reflexivity |].
apply (upstream_status_error_answers_500
         (fun _ => chat.PostReturns 502 (chat.NotJson "Bad Gateway"))
         "conv-0af3" hi alice sample_world sample_conversation 502
         (chat.NotJson "Bad Gateway")); [reflexivity | reflexivity | reflexivity |].
discriminate.
Defined.

Section Prompt.

Import crud chat.



End Prompt.



(** X18: a conversation cannot be created under a handle that is taken: the
    request fails on the unique index of the handles and commits nothing.
    No conversation row and no system prompt is written; the key that the
    refused insert has drawn from the sequence is not handed out again. *)
Theorem create_conversation_refuses_taken_handle
        (w : World) (title : option string) (current_user : User) (uuid_hex : string)
        (c : Conversation) :
  conversation_handle (db w) ("conv-" ++ uuid_hex)%string = Some c ->
  exists msg w',
    conversations.create_conversation title current_user uuid_hex w =
    (Raise (IntegrityError msg), w') /\
    conversations (db w') = conversations (db w) /\
    messages (db w') = messages (db w) /\
    conversations_seq (db w') = conversations_seq (db w) + 1 /\
    committed_by (conversations.create_conversation title current_user uuid_hex) w = [].
Proof.
unfold conversation_handle. intros Hfound.
unfold committed_by.
unfold conversations.create_conversation, crud.create_conversation,
  crud.get_conversation_by_session_id, bind, now, query, drawn, raise.
cbn -[append skipn].
rewrite Hfound. cbn -[append skipn].
eexists _, _. split; [reflexivity |]. cbn -[append skipn].
repeat (split; [reflexivity |]).
rewrite <- (app_nil_r (log w)) at 2. apply skipn_length_app.
Qed.

Lemma create_conversation_refuses_taken_handle_witness :
  conversation_handle (db sample_world) ("conv-" ++ "0af3")%string =
  Some sample_conversation /\
  exists msg w',
    conversations.create_conversation None bob "0af3" sample_world =
    (Raise (IntegrityError msg), w') /\
    conversations (db w') = conversations (db sample_world) /\
    messages (db w') = messages (db sample_world) /\
    conversations_seq (db w') = conversations_seq (db sample_world) + 1 /\
    committed_by (conversations.create_conversation None bob "0af3") sample_world = [].
Proof.
split; [reflexivity |].
apply (create_conversation_refuses_taken_handle sample_world None bob "0af3"
         sample_conversation).
reflexivity.
Defined.

Section WholeService.

Lemma list_conversations_reads limit current_user w :
  snd (conversations.list_conversations limit current_user w) = w.
Proof.
unfold conversations.list_conversations, crud.get_user_conversations, bind, query,
  crud.limit_to, raise, ret.
destruct (limit <? 0); cbn [fst snd]; auto.
destruct (_ <? limit); cbn [fst snd]; auto. now rewrite conv_responses_run.
Qed.

Lemma get_goal_reads goal_id current_user w :
  snd (goals.get_goal goal_id current_user w) = w.
Proof.
unfold goals.get_goal, crud.get_goal_by_id, bind, query. cbn.
destruct (find _ _); cbn; auto. destruct (negb _); reflexivity.
Qed.

Lemma list_checkins_reads goal_id limit current_user w :
  snd (goals.list_checkins goal_id limit current_user w) = w.
Proof.
unfold goals.list_checkins, crud.get_goal_checkins, crud.get_goal_by_id, bind, query,
  crud.limit_to, raise, ret. cbn.
destruct (find _ _); cbn; auto. destruct (negb _); cbn; auto.
destruct (limit <? 0); [reflexivity |]. destruct (_ <? limit); reflexivity.
Qed.

Ltac untouched := unfold same_conversations; cbn; repeat split; auto; lia.

Lemma update_goal_route_frame goal_id update_data current_user w :
  same_conversations w (snd (goals.update_goal goal_id update_data current_user w)).
Proof.
unfold goals.update_goal, bind, crud.get_goal_by_id. unfold query at 1. cbn [fst snd].
destruct (find _ _); cbn [fst snd]; [| untouched].
destruct (negb _); cbn [fst snd]; [untouched |].
pose proof (crud_update_goal_frame w goal_id (model_dump_exclude_unset update_data))
  as H.
destruct (crud.update_goal _ _ w) as [[[? |] | ?] ?]; exact H.
Qed.

Lemma delete_goal_route_frame goal_id current_user w :
  same_conversations w (snd (goals.delete_goal goal_id current_user w)).
Proof.
unfold goals.delete_goal, bind, crud.get_goal_by_id. unfold query at 1. cbn [fst snd].
destruct (find _ _); cbn [fst snd]; [| untouched].
destruct (negb _); cbn [fst snd]; [untouched |].
pose proof (crud_delete_goal_frame w goal_id) as H.
destruct (crud.delete_goal _ w) as [[? | ?] ?]; exact H.
Qed.

Lemma handle_keeps_prompt w call :
  wf_world w = true /\ every_conversation_prompted (db w) = true ->
  wf_world (handle w call) = true /\
  every_conversation_prompted (db (handle w call)) = true.
Proof.
intros Hinv. destruct call as [current_user c]. destruct c; cbn [handle].
- now apply serve_keeps_prompt.
- now rewrite list_conversations_reads.
- exact Hinv.
- now rewrite get_goal_reads.
- eapply inv_same_conversations; [apply update_goal_route_frame | exact Hinv].
- eapply inv_same_conversations; [apply delete_goal_route_frame | exact Hinv].
- now rewrite list_checkins_reads.
Qed.

End WholeService.

(** X19: between the requests of the whole service, every conversation in
    the store has at least one message and its first message is the
    system-role persona prompt. *)
Theorem whole_service_keeps_prompt_first
        (future : list nat) (calls : list (User * Call)) (c : Conversation) :
  In c (conversations (db (handle_all calls (initial_world future)))) ->
  exists prompt rest,
    crud.messages_of (db (handle_all calls (initial_world future))) (conv_id c) =
    prompt :: rest /\
    msg_role prompt = "system"%string /\
    msg_content prompt = SYSTEM_PROMPT.
Proof.
intros Hin.
assert (H : wf_world (handle_all calls (initial_world future)) = true /\
            every_conversation_prompted
              (db (handle_all calls (initial_world future))) = true).
{ apply (handle_all_ind
           (fun w => wf_world w = true /\ every_conversation_prompted (db w) = true)).
  - apply handle_keeps_prompt.
  - split; reflexivity. }
destruct H as [_ Hp]. unfold every_conversation_prompted in Hp.
rewrite forallb_forall in Hp. specialize (Hp c Hin). unfold prompted in Hp.
destruct (crud.messages_of _ (conv_id c)) as [| m rest]; [discriminate |].
unfold is_system_prompt in Hp. apply andb_true_iff in Hp as [Hr Hc].
apply String.eqb_eq in Hr, Hc. eauto.
Qed.

Lemma whole_service_keeps_prompt_first_witness :
  In sample_conversation
     (conversations
        (db (handle_all
               [(alice, Served (CreateConversation (Some "Morning"%string) "0af3"))]
               (initial_world sample_ticks)))) /\
  exists prompt rest,
    crud.messages_of
      (db (handle_all
             [(alice, Served (CreateConversation (Some "Morning"%string) "0af3"))]
             (initial_world sample_ticks))) (conv_id sample_conversation) =
    prompt :: rest /\
    msg_role prompt = "system"%string /\
    msg_content prompt = SYSTEM_PROMPT.
Proof.
assert (H : In sample_conversation
              (conversations
                 (db (handle_all
                        [(alice, Served (CreateConversation (Some "Morning"%string)
                                                            "0af3"))]
                        (initial_world sample_ticks))))) by (left; reflexivity).
split; [exact H |].
apply (whole_service_keeps_prompt_first sample_ticks
         [(alice, Served (CreateConversation (Some "Morning"%string) "0af3"))]
         sample_conversation H).
Defined.

(** X20: for the owner of the goal of the path, updating or deleting a
    check-in that does not exist answers 404 "Check-in not found" and leaves
    the store as it was. *)
Theorem missing_checkin_answers_404
        (w : World) (goal_id checkin_id : Z) (update_data : CheckInUpdate)
        (current_user : User) (goal : Goal) :
  goal_row (db w) goal_id = Some goal ->
  goal_user_id goal = user_id current_user ->
  checkin_row (db w) checkin_id = None ->
  goals.update_checkin goal_id checkin_id update_data current_user w =
  (Raise (HTTPException 404 "Check-in not found"), w) /\
  goals.delete_checkin goal_id checkin_id current_user w =
  (Raise (HTTPException 404 "Check-in not found"), w).
Proof.
unfold goal_row, checkin_row. intros Hgoal Howner Hnone.
unfold goals.update_checkin, goals.delete_checkin, crud.update_checkin,
  crud.delete_checkin, crud.get_checkin_by_id, crud.get_goal_by_id, bind, query, ret,
  raise. cbn [fst snd].
rewrite Hgoal, Howner, Z.eqb_refl. cbn [negb fst snd]. rewrite Hnone. split; reflexivity.
Qed.

Lemma missing_checkin_answers_404_witness :
  goal_row (db shared_world) 1 = Some alice_goal /\
  checkin_row (db shared_world) 7 = None /\
  goals.update_checkin 1 7 (mkCheckInUpdate None (Some true)) alice shared_world =
  (Raise (HTTPException 404 "Check-in not found"), shared_world) /\
  goals.delete_checkin 1 7 alice shared_world =
  (Raise (HTTPException 404 "Check-in not found"), shared_world).
Proof.
split; [reflexivity |]. split; [reflexivity |].
apply (missing_checkin_answers_404 shared_world 1 7 (mkCheckInUpdate None (Some true))
         alice alice_goal); reflexivity.
Defined.

(** X21: the buffered chat route never answers and never writes: whatever
    the caller sends and whatever the inference service does, it ends in an
    exception and leaves the store as it was. *)
Theorem buffered_turn_never_answers
        (post : chat.InferenceRequest -> chat.PostOutcome) (session_id : string)
        (request : ChatRequest) (current_user : User) (w : World) :
  exists e,
    chat.send_message post session_id request current_user w = (Raise e, w) /\
    committed_by (chat.send_message post session_id request current_user) w = [].
Proof.
destruct (send_message_never_writes post session_id request current_user w) as [e He].
exists e. split; [exact He |]. apply committed_by_nothing. now rewrite He.
Qed.

(** ** What every later snapshot shows of a conversation *)

Section Snapshots.

Import crud.

Lemma delete_conversation_run w session_id c :
  conversation_handle (db w) session_id = Some c ->
  let d := mkDB (filter (fun x => negb (conv_id x =? conv_id c)) (conversations (db w)))
                (filter (fun m => negb (msg_conversation_id m =? conv_id c))
                        (messages (db w)))
                (goals (db w)) (goal_check_ins (db w)) (conversations_seq (db w))
                (messages_seq (db w)) (goals_seq (db w)) (goal_check_ins_seq (db w)) in
  delete_conversation session_id w =
  (Ok true, mkWorld d (log w ++ [d]) (clock w) (ticks w)).
Proof.
unfold conversation_handle. intros Hfound.
unfold delete_conversation, get_conversation_by_session_id, bind, query, commit, ret.
cbn. now rewrite Hfound.
Qed.

Lemma delete_conversation_missing w session_id :
  conversation_handle (db w) session_id = None ->
  delete_conversation session_id w = (Ok false, w).
Proof.
unfold conversation_handle. intros Hnone.
unfold delete_conversation, get_conversation_by_session_id, bind, query, ret.
cbn. now rewrite Hnone.
Qed.

(** The snapshots that [w'] has committed since [w] all hold the
    conversations and the messages of [w]. *)
Let quiet (w w' : World) : Prop :=
  exists extra,
    log w' = log w ++ extra /\
    Forall (fun d => conversations d = conversations (db w) /\
                     messages d = messages (db w)) extra.

Ltac quietly :=
  unfold quiet; cbn;
  first [ exists []; split; [now rewrite app_nil_r | constructor]
        | eexists; split; [reflexivity | repeat constructor]
        | eexists; split; [rewrite <- app_assoc; reflexivity | repeat constructor] ].

Lemma create_goal_quiet w user_id title description target_date :
  quiet w (snd (create_goal user_id title description target_date w)).
Proof. unfold create_goal, bind, now, query, commit, ret. quietly. Qed.

Lemma update_goal_quiet w goal_id update_data :
  quiet w (snd (update_goal goal_id update_data w)).
Proof.
unfold update_goal, get_goal_by_id, bind, now, query, commit, ret. cbn.
destruct (find _ _); quietly.
Qed.

Lemma delete_goal_quiet w goal_id : quiet w (snd (delete_goal goal_id w)).
Proof.
unfold delete_goal, get_goal_by_id, bind, query, commit, ret. cbn.
destruct (find _ _); quietly.
Qed.

Lemma create_goal_checkin_quiet w goal_id progress_note completed :
  quiet w (snd (create_goal_checkin goal_id progress_note completed w)).
Proof.
unfold create_goal_checkin, get_goal_by_id, bind, now, query, commit, drawn, ret, raise.
cbn. destruct (find _ _) eqn:E; cbn; [| quietly].
destruct completed; cbn; [| quietly]. rewrite E. quietly.
Qed.

Lemma update_checkin_quiet w checkin_id progress_note completed :
  quiet w (snd (update_checkin checkin_id progress_note completed w)).
Proof.
unfold update_checkin, get_checkin_by_id, bind, query, commit, ret. cbn.
destruct (find _ _); quietly.
Qed.

Lemma delete_checkin_quiet w checkin_id : quiet w (snd (delete_checkin checkin_id w)).
Proof.
unfold delete_checkin, get_checkin_by_id, bind, query, commit, ret. cbn.
destruct (find _ _); quietly.
Qed.

Variable cid : Z.
Variable prompt : Message.
Variable base : list DB.

(** In snapshot [d] the conversation is gone, or begins with the prompt. *)
Let shown (d : DB) : Prop :=
  conversation_row d cid = None \/ exists rest, messages_of d cid = prompt :: rest.

(** What holds of a world whose log began as [base]. *)
Let settled (w : World) : Prop :=
  wf_world w = true /\
  cid < conversations_seq (db w) /\
  shown (db w) /\
  exists news, log w = base ++ news /\ Forall shown news.

Lemma shown_same d d' :
  conversations d' = conversations d -> messages d' = messages d -> shown d -> shown d'.
Proof.
unfold shown, conversation_row. intros Hc Hm.
rewrite Hc, (messages_of_same _ _ cid Hm). auto.
Qed.

Lemma settled_extend w w' extra :
  settled w -> wf_world w' = true ->
  conversations_seq (db w) <= conversations_seq (db w') ->
  log w' = log w ++ extra -> Forall shown extra -> shown (db w') ->
  settled w'.
Proof.
intros (Hwf & Hlt & Hs & news & Hlog & Hall) Hwf' Hseq Hlog' Hextra Hs'.
split; [exact Hwf' |]. split; [lia |]. split; [exact Hs' |].
exists (news ++ extra). split.
- now rewrite Hlog', Hlog, app_assoc.
- apply Forall_app. auto.
Qed.

Ltac snapshots :=
  cbn -[append];
  first [ lia
        | reflexivity
        | now rewrite app_nil_r
        | now apply (shown_same (db _))
        | repeat (apply Forall_cons; [assumption |]); apply Forall_nil ].

Lemma settled_quiet w w' :
  same_conversations w w' -> quiet w w' -> settled w -> settled w'.
Proof.
intros Hsame (extra & Hlog & Hextra) Hs. pose proof Hs as (Hwf & Hlt & Hshown & _).
pose proof Hsame as (Hc & Hm & Hseq & _).
apply (settled_extend w w' extra); auto.
- eapply wf_same_conversations; eauto.
- eapply Forall_impl; [| exact Hextra]. intros d [Hdc Hdm].
  now apply (shown_same (db w)).
- now apply (shown_same (db w)).
Qed.

Lemma settled_create_conversation w user_id title uuid_hex :
  settled w -> settled (snd (create_conversation user_id title uuid_hex w)).
Proof.
intros Hs. pose proof Hs as (Hwf & Hlt & Hshown & _).
pose proof (wf_crud_create_conversation w user_id title uuid_hex Hwf) as Hwf'.
destruct (conversation_handle (db w) ("conv-" ++ uuid_hex)%string) as [c |] eqn:Hh.
- destruct (create_conversation_duplicate _ user_id title _ _ Hh) as [e He].
  rewrite He in *. cbn [snd] in *.
  apply (settled_extend w _ []); auto; snapshots.
- rewrite (create_conversation_run _ user_id title _ Hh) in *. cbn [snd] in *.
  match goal with
  | |- settled (mkWorld ?d _ _ _) => assert (Hnew : shown d)
  end.
  { destruct Hshown as [Hnone | Hrest]; [left | right; exact Hrest].
    unfold conversation_row in *. cbn [conversations].
    rewrite (find_app_none _ _ _ Hnone). cbn.
    destruct (Z.eqb_spec (conversations_seq (db w)) cid); [lia | reflexivity]. }
  eapply (settled_extend w _ [_]); auto; snapshots.
Qed.

Lemma settled_create_message w conversation_id role content keywords :
  settled w -> settled (snd (create_message conversation_id role content keywords w)).
Proof.
intros Hs. pose proof Hs as (Hwf & Hlt & Hshown & _).
pose proof (wf_create_message w conversation_id role content keywords Hwf) as Hwf'.
destruct (conversation_row (db w) conversation_id) as [c |] eqn:Hrow.
- rewrite (create_message_run _ _ role content keywords _ Hrow) in *. cbn [snd] in *.
  set (m := mkMessage (messages_seq (db w)) conversation_id role content keywords
                      (clock w + hd 0%nat (ticks w))%nat) in *.
  assert (Hle : Forall (fun x => (msg_created_at x <= msg_created_at m)%nat)
                       (messages (db w))).
  { apply wf_world_spec in Hwf as (H1 & _).
    eapply Forall_impl; [| exact H1]. cbn. intros; lia. }
  assert (H1 : shown (with_message (db w) m)).
  { destruct Hshown as [Hnone | [rest Hrest]]; [left; exact Hnone | right].
    rewrite (messages_of_with_message _ _ _ Hle), Hrest.
    destruct (msg_conversation_id m =? cid); [exists (rest ++ [m]) | exists rest];
      reflexivity. }
  match goal with
  | |- settled (mkWorld ?d _ _ _) => assert (H2 : shown d)
  end.
  { destruct H1 as [Hnone | Hrest]; [left | right].
    - unfold conversation_row, touched, with_message in *.
      cbn [conversations set_conversations] in *.
      rewrite touch_row_other; [exact Hnone |]. intros ->. congruence.
    - now rewrite messages_of_touched. }
  eapply (settled_extend w _ [_; _]); auto; snapshots.
- destruct (create_message_orphan _ _ role content keywords Hrow) as [e He].
  rewrite He in *. cbn [snd] in *.
  apply (settled_extend w _ []); auto; snapshots.
Qed.

Lemma settled_delete_conversation w session_id :
  settled w -> settled (snd (delete_conversation session_id w)).
Proof.
intros Hs. pose proof Hs as (Hwf & Hlt & Hshown & _).
pose proof (wf_crud_delete_conversation w session_id Hwf) as Hwf'.
destruct (conversation_handle (db w) session_id) as [c |] eqn:Hh.
- rewrite (delete_conversation_run _ _ _ Hh) in *. cbn [snd] in *.
  match goal with
  | |- settled (mkWorld ?d _ _ _) => assert (Hnew : shown d)
  end.
  { destruct (Z.eq_dec cid (conv_id c)) as [-> | Hne].
    - left. apply find_filter_gone.
    - destruct Hshown as [Hnone | [rest Hrest]]; [left | right].
      + unfold conversation_row in *. cbn [conversations].
        now rewrite find_filter_other.
      + exists rest. rewrite <- Hrest.
        now apply (messages_of_after_delete (db w) _ (conv_id c) cid). }
  eapply (settled_extend w _ [_]); auto; snapshots.
- now rewrite (delete_conversation_missing _ _ Hh).
Qed.

Lemma settled_handle w call : settled w -> settled (handle w call).
Proof.
apply handle_preserves.
- intros. now apply settled_create_conversation.
- intros. now apply settled_create_message.
- intros. now apply settled_delete_conversation.
- intros. eapply settled_quiet; eauto;
    [apply crud_create_goal_frame | apply create_goal_quiet].
- intros. eapply settled_quiet; eauto;
    [apply crud_update_goal_frame | apply update_goal_quiet].
- intros. eapply settled_quiet; eauto;
    [apply crud_delete_goal_frame | apply delete_goal_quiet].
- intros. eapply settled_quiet; eauto;
    [apply crud_create_goal_checkin_frame | apply create_goal_checkin_quiet].
- intros. eapply settled_quiet; eauto;
    [apply crud_update_checkin_frame | apply update_checkin_quiet].
- intros. eapply settled_quiet; eauto;
    [apply crud_delete_checkin_frame | apply delete_checkin_quiet].
Qed.

(** From a world whose log is [base] on, every snapshot that later requests
    commit, and the store they leave, show the conversation with the prompt
    first or not at all. *)
Lemma shown_later w later d :
  wf_world w = true -> cid < conversations_seq (db w) -> shown (db w) ->
  log w = base ->
  In d (committed_while later w) \/ d = db (handle_all later w) ->
  shown d.
Proof.
intros Hwf Hlt Hs Hlog Hd.
assert (H : settled (handle_all later w)).
{ apply handle_all_ind; [apply settled_handle |].
  split; [exact Hwf |]. split; [exact Hlt |]. split; [exact Hs |].
  exists []. split; [now rewrite app_nil_r | constructor]. }
destruct H as (_ & _ & Hdb & news & Hnews & Hall).
destruct Hd as [Hin | ->]; [| exact Hdb].
unfold committed_while in Hin. rewrite Hnews, Hlog, skipn_length_app in Hin.
rewrite Forall_forall in Hall. auto.
Qed.

Variable key : Z.

(** Snapshot [d] holds no conversation under [key]. *)
Let unseen (d : DB) : Prop := conversation_row d key = None.

(** While the sequence has not handed out [key], no snapshot of the log
    holds a conversation under it. *)
Let unused (w : World) : Prop :=
  wf_world w = true /\
  (conversations_seq (db w) <= key -> Forall unseen (log w)).

Lemma row_beyond w :
  wf_world w = true -> conversations_seq (db w) <= key -> unseen (db w).
Proof.
rewrite wf_world_spec. intros (_ & _ & _ & H) Hle. unfold unseen, conversation_row.
induction H as [| c l Hc Hl IH]; cbn; auto.
destruct (Z.eqb_spec (conv_id c) key); [lia | auto].
Qed.

Lemma unseen_same d d' : conversations d' = conversations d -> unseen d -> unseen d'.
Proof. unfold unseen, conversation_row. now intros ->. Qed.

Lemma unused_extend w w' extra :
  unused w -> wf_world w' = true ->
  conversations_seq (db w) <= conversations_seq (db w') ->
  log w' = log w ++ extra ->
  (conversations_seq (db w') <= key -> Forall unseen extra) ->
  unused w'.
Proof.
intros (Hwf & Hlog) Hwf' Hseq Hlog' Hextra. split; [exact Hwf' |].
intros Hle. rewrite Hlog'. apply Forall_app. split; [apply Hlog; lia | auto].
Qed.

Lemma unused_quiet w w' :
  same_conversations w w' -> quiet w w' -> unused w -> unused w'.
Proof.
intros Hsame (extra & Hlog & Hextra) Hu. pose proof Hu as (Hwf & _).
pose proof Hsame as (Hc & Hm & Hseq & _).
apply (unused_extend w w' extra); auto.
- eapply wf_same_conversations; eauto.
- intros Hle. eapply Forall_impl; [| exact Hextra]. intros d [Hdc _].
  apply (unseen_same (db w)); [exact Hdc |]. apply row_beyond; [exact Hwf | lia].
Qed.

Lemma unused_create_conversation w user_id title uuid_hex :
  unused w -> unused (snd (create_conversation user_id title uuid_hex w)).
Proof.
intros Hu. pose proof Hu as (Hwf & _).
pose proof (wf_crud_create_conversation w user_id title uuid_hex Hwf) as Hwf'.
destruct (conversation_handle (db w) ("conv-" ++ uuid_hex)%string) as [c |] eqn:Hh.
- destruct (create_conversation_duplicate _ user_id title _ _ Hh) as [e He].
  rewrite He in *. cbn [snd] in *.
  apply (unused_extend w _ []); auto; cbn -[append];
    first [lia | now rewrite app_nil_r | constructor].
- rewrite (create_conversation_run _ user_id title _ Hh) in *. cbn [snd] in *.
  eapply (unused_extend w _ [_]); auto; cbn -[append]; [lia | reflexivity |].
  intros Hle. constructor; [| constructor].
  now apply (row_beyond _ Hwf').
Qed.

Lemma unused_create_message w conversation_id role content keywords :
  unused w -> unused (snd (create_message conversation_id role content keywords w)).
Proof.
intros Hu. pose proof Hu as (Hwf & _).
pose proof (wf_create_message w conversation_id role content keywords Hwf) as Hwf'.
destruct (conversation_row (db w) conversation_id) as [c |] eqn:Hrow.
- rewrite (create_message_run _ _ role content keywords _ Hrow) in *. cbn [snd] in *.
  eapply (unused_extend w _ [_; _]); auto; cbn -[append]; [lia | reflexivity |].
  intros Hle. constructor; [| constructor; [| constructor]].
  + apply (unseen_same (db w)); [reflexivity |]. now apply row_beyond.
  + now apply (row_beyond _ Hwf').
- destruct (create_message_orphan _ _ role content keywords Hrow) as [e He].
  rewrite He in *. cbn [snd] in *.
  apply (unused_extend w _ []); auto; cbn -[append];
    first [lia | now rewrite app_nil_r | constructor].
Qed.

Lemma unused_delete_conversation w session_id :
  unused w -> unused (snd (delete_conversation session_id w)).
Proof.
intros Hu. pose proof Hu as (Hwf & _).
pose proof (wf_crud_delete_conversation w session_id Hwf) as Hwf'.
destruct (conversation_handle (db w) session_id) as [c |] eqn:Hh.
- rewrite (delete_conversation_run _ _ _ Hh) in *. cbn [snd] in *.
  eapply (unused_extend w _ [_]); auto; cbn -[append]; [lia | reflexivity |].
  intros Hle. constructor; [| constructor].
  now apply (row_beyond _ Hwf').
- now rewrite (delete_conversation_missing _ _ Hh).
Qed.

Lemma unused_handle w call : unused w -> unused (handle w call).
Proof.
apply handle_preserves.
- intros. now apply unused_create_conversation.
- intros. now apply unused_create_message.
- intros. now apply unused_delete_conversation.
- intros. eapply unused_quiet; eauto;
    [apply crud_create_goal_frame | apply create_goal_quiet].
- intros. eapply unused_quiet; eauto;
    [apply crud_update_goal_frame | apply update_goal_quiet].
- intros. eapply unused_quiet; eauto;
    [apply crud_delete_goal_frame | apply delete_goal_quiet].
- intros. eapply unused_quiet; eauto;
    [apply crud_create_goal_checkin_frame | apply create_goal_checkin_quiet].
- intros. eapply unused_quiet; eauto;
    [apply crud_update_checkin_frame | apply update_checkin_quiet].
- intros. eapply unused_quiet; eauto;
    [apply crud_delete_checkin_frame | apply delete_checkin_quiet].
Qed.

(** No snapshot committed so far holds a conversation under a key that the
    sequence has yet to hand out. *)
Lemma unseen_so_far future calls d :
  conversations_seq (db (handle_all calls (initial_world future))) <= key ->
  In d (log (handle_all calls (initial_world future))) ->
  conversation_row d key = None.
Proof.
intros Hle Hin.
assert (H : unused (handle_all calls (initial_world future))).
{ apply handle_all_ind; [apply unused_handle |].
  split; [reflexivity |]. intros _. constructor. }
destruct H as [_ H]. specialize (H Hle). rewrite Forall_forall in H. now apply H.
Qed.

End Snapshots.

(** C4, amended: creating a conversation on a fresh handle, in any store
    that requests of the service can reach, answers with a message count of
    one and leaves the conversation with exactly one message, the
    system-role persona prompt.  From then on the conversation always begins
    with that prompt: whatever requests of the service follow, every
    snapshot they commit, and the store they leave, shows the conversation
    with the prompt as its first message, or not at all once it has been
    deleted; and every conversation of the store begins with the persona
    prompt between requests.  Before creation completes this is not so.
    The route commits three times: no earlier snapshot holds the
    conversation, the first commit makes its row visible on its own, with
    zero messages, and the second commit adds the prompt. *)
Theorem conversation_creation_row_then_prompt
        (calls : list (User * Call)) (future : list nat)
        (title : option string) (current_user : User) (uuid_hex : string) :
  let w := handle_all calls (initial_world future) in
  conversation_handle (db w) ("conv-" ++ uuid_hex)%string = None ->
  exists response w' d1 d2 d3 prompt,
    conversations.create_conversation title current_user uuid_hex w = (Ok response, w') /\
    cr_message_count response = 1%nat /\
    committed_by (conversations.create_conversation title current_user uuid_hex) w =
    [d1; d2; d3] /\
    db w' = d3 /\
    (forall d, In d (log w) -> conversation_row d (cr_id response) = None) /\
    conversation_row d1 (cr_id response) <> None /\
    crud.messages_of d1 (cr_id response) = [] /\
    crud.messages_of d2 (cr_id response) = [prompt] /\
    crud.messages_of d3 (cr_id response) = [prompt] /\
    msg_role prompt = "system"%string /\
    msg_content prompt = SYSTEM_PROMPT /\
    (forall later d,
        In d (committed_while later w') \/ d = db (handle_all later w') ->
        conversation_row d (cr_id response) = None \/
        exists rest, crud.messages_of d (cr_id response) = prompt :: rest) /\
    (forall later, every_conversation_prompted (db (handle_all later w')) = true).
Proof.
intros w Hfresh.
assert (Hinv : wf_world w = true /\ every_conversation_prompted (db w) = true).
{ apply (handle_all_ind
           (fun w => wf_world w = true /\ every_conversation_prompted (db w) = true)).
  - apply handle_keeps_prompt.
  - split; reflexivity. }
destruct Hinv as [Hwf Hp].
assert (Hbefore : forall d, In d (log w) ->
                            conversation_row d (conversations_seq (db w)) = None).
{ intros d. apply unseen_so_far. fold w. lia. }
clearbody w.
pose proof (handle_keeps_prompt w (current_user, Served (CreateConversation title uuid_hex))
              (conj Hwf Hp)) as Hinv'.
cbn [handle serve] in Hinv'.
pose proof (create_conversation_route_run w title current_user uuid_hex Hwf Hfresh)
  as Hrun. cbv zeta in Hrun.
unfold committed_by. rewrite Hrun in *. cbn [snd fst log db cr_id cr_message_count] in *.
rewrite skipn_length_app.
eexists _, _, _, _, _, _. split; [reflexivity |]. split; [reflexivity |].
split; [reflexivity |]. split; [reflexivity |].
assert (Hle : Forall (fun x => (msg_created_at x <=
               clock w + hd 0 (ticks w) + hd 0 (tl (ticks w)) +
               hd 0 (tl (tl (ticks w))))%nat) (messages (db w))).
{ apply wf_world_spec in Hwf as (H1 & _).
  eapply Forall_impl; [| exact H1]. simpl. intros; lia. }
cbn [cr_id]. split; [exact Hbefore |].
match goal with
| |- _ /\ _ /\ _ /\ crud.messages_of ?d ?k = [?m] /\ _ =>
    assert (Hthird : crud.messages_of d k = [m])
end.
{ rewrite messages_of_touched, messages_of_with_message by exact Hle.
  cbn [msg_conversation_id]. rewrite Z.eqb_refl.
  change (crud.messages_of _ (conversations_seq (db w)))
    with (crud.messages_of (db w) (conversations_seq (db w))).
  now rewrite (messages_of_next_key w Hwf). }
split; [| split; [| split; [| split; [exact Hthird |]]]].
- unfold conversation_row. cbn [conversations].
  pose proof (row_of_next_key w Hwf) as Hnone. unfold conversation_row in Hnone.
  rewrite (find_app_none _ _ _ Hnone). simpl. now rewrite Z.eqb_refl.
- exact (messages_of_next_key w Hwf).
- rewrite messages_of_with_message by exact Hle.
  cbn [msg_conversation_id]. rewrite Z.eqb_refl.
  change (crud.messages_of _ (conversations_seq (db w)))
    with (crud.messages_of (db w) (conversations_seq (db w))).
  now rewrite (messages_of_next_key w Hwf).
- split; [reflexivity |]. split; [reflexivity |]. split.
  + intros later d Hd.
    eapply (shown_later _ _ _ _ later d (proj1 Hinv')); [| | reflexivity | exact Hd].
    * cbn. lia.
    * right. exists []. exact Hthird.
  + intros later.
    apply (handle_all_ind
             (fun w => wf_world w = true /\ every_conversation_prompted (db w) = true));
      [apply handle_keeps_prompt | exact Hinv'].
Qed.

Lemma conversation_creation_row_then_prompt_witness :
  conversation_handle (db (handle_all [] (initial_world sample_ticks))) "conv-0af3" = None /\
  exists response w' d1 d2 d3 prompt,
    conversations.create_conversation (Some "Morning"%string) alice "0af3"
      (handle_all [] (initial_world sample_ticks)) = (Ok response, w') /\
    cr_message_count response = 1%nat /\
    committed_by (conversations.create_conversation (Some "Morning"%string) alice "0af3")
                 (handle_all [] (initial_world sample_ticks)) = [d1; d2; d3] /\
    db w' = d3 /\
    (forall d, In d (log (handle_all [] (initial_world sample_ticks))) ->
               conversation_row d (cr_id response) = None) /\
    conversation_row d1 (cr_id response) <> None /\
    crud.messages_of d1 (cr_id response) = [] /\
    crud.messages_of d2 (cr_id response) = [prompt] /\
    crud.messages_of d3 (cr_id response) = [prompt] /\
    msg_role prompt = "system"%string /\
    msg_content prompt = SYSTEM_PROMPT /\
    (forall later d,
        In d (committed_while later w') \/ d = db (handle_all later w') ->
        conversation_row d (cr_id response) = None \/
        exists rest, crud.messages_of d (cr_id response) = prompt :: rest) /\
    (forall later, every_conversation_prompted (db (handle_all later w')) = true).
Proof.
split; [reflexivity |].
apply (conversation_creation_row_then_prompt [] sample_ticks (Some "Morning"%string)
         alice "0af3").
reflexivity.
Defined.

(** C4 as stated fails: while Alice's conversation is being created, the
    first committed snapshot shows it to her with a message count of zero. *)
Lemma conversation_creation_seen_without_messages :
  ~ prompt_at_first_visibility (initial_world sample_ticks) (Some "Morning"%string)
      alice "0af3".
Proof.
unfold prompt_at_first_visibility. intros H.
pose (d1 := mkDB [mkConversation 1 1 "conv-0af3" (Some "Morning"%string) 1%nat 2%nat]
                 [] [] [] 2 1 1 1).
specialize (H d1 (mkConversationResponse 1 "conv-0af3" (Some "Morning"%string)
                                         1%nat 2%nat 0%nat)).
simpl in H. assert (1 <= 0)%nat; [| lia].
apply H; [left |]; reflexivity.
Qed.
